(** * HiveMind Copilot: a shallow embedding of the extension's glue code

    The extension is a VS Code plugin written in TypeScript.  The parts of it
    that carry behaviour of their own are embedded here as Rocq functions:

    - [HederaService]: the blockchain session wrapper
      (services/hederaService.ts);
    - [ApiService]: the HTTP client wrapper and its error interceptor
      (services/apiService.ts);
    - [TransactionCenterProvider] and [AuditDashboardProvider]: tree views
      (views/TransactionCenter.ts, views/AuditDashboard.ts);
    - [SolidityAuditProvider]: diagnostics derived from audit results
      (services/solidityAuditProvider.ts);
    - [AgentHubPanel] and [AuditDashboardPanel]: the singleton webview panels
      (components/agentHubPanel.ts, components/auditDashboardPanel.ts);
    - [DeploymentUtils] and [SolidityUtils]: the deployment and method-call
      pipelines (utils/deploymentUtils.ts, utils/solidityUtils.ts);
    - the transaction list the extension registers
      (components/transactionCenterProvider.ts), the formatter of
      [SolidityUtils] and the nonce of the security utilities.

    Asynchronous functions are run to completion one at a time: the host
    dispatches one handler at a time, and interleavings of two pending
    handlers are not part of the model.

    Everything outside the repository (the Hedera SDK, the editor host, the
    backend, the file system, the clock) is an oracle collected in [Env];
    every call that reaches the outside is recorded, in order, in the trace of
    the program state. *)

From Stdlib Require Import ZArith QArith Ascii String Lia.
From Stdlib Require Strings.Byte.
From stdpp Require Import base option list strings pretty gmap.

Local Open Scope string_scope.
Local Open Scope Z_scope.
Local Open Scope list_scope.

(** ** JavaScript strings

    A string is a sequence of code units below 256 (Latin-1), which is all
    the identifiers, severities and location texts of the extension need. *)

Module JsString.

Definition code (c : ascii) : N := N_of_ascii c.

(** [String.prototype.toLowerCase] on one Latin-1 code unit: A-Z, and
    U+00C0..U+00DE apart from the multiplication sign U+00D7. *)
Definition lower_char (c : ascii) : ascii :=
  let n := code c in
  if ((65 <=? n) && (n <=? 90))%N then ascii_of_N (n + 32)
  else if ((192 <=? n) && (n <=? 222) && negb (n =? 215))%N then ascii_of_N (n + 32)
  else c.

Fixpoint toLowerCase (s : string) : string :=
  match s with
  | EmptyString => EmptyString
  | String c r => String (lower_char c) (toLowerCase r)
  end.

Definition eqb (a b : string) : bool := String.eqb a b.

Fixpoint startsWith (s p : string) : bool :=
  match p, s with
  | EmptyString, _ => true
  | String a p', String b s' => Ascii.eqb a b && startsWith s' p'
  | String _ _, EmptyString => false
  end.

Fixpoint drop (n : nat) (s : string) : string :=
  match n, s with
  | O, _ => s
  | S n', String _ r => drop n' r
  | S _, EmptyString => EmptyString
  end.

Definition endsWith (s p : string) : bool :=
  (String.length p <=? String.length s)%nat
  && eqb (drop (String.length s - String.length p) s) p.

(** [s.replace(pat, rep)] with a string pattern: the first occurrence only. *)
Fixpoint replace (fuel : nat) (s pat rep : string) : string :=
  if startsWith s pat then rep +:+ drop (String.length pat) s
  else match fuel, s with
       | S fuel', String c r => String c (replace fuel' r pat rep)
       | _, _ => s
       end.

Definition replace_first (s pat rep : string) : string :=
  replace (String.length s) s pat rep.

(** The one-character string made of a double quote. *)
Definition dquote : string := String (ascii_of_nat 34) EmptyString.

(** Template-literal rendering of an integral number. *)
Definition of_Z (z : Z) : string := pretty z.
Definition of_nat (n : nat) : string := pretty n.

End JsString.

(** ** JavaScript values, as far as JSON payloads need them *)

Local Unset Elimination Schemes.

(** Numbers are the rationals a JSON document can spell. *)
Inductive JsValue : Type :=
| JUndefined
| JNull
| JBool (b : bool)
| JNum (q : Q)
| JStr (s : string)
| JArr (items : list JsValue)
| JObj (fields : list (string * JsValue)).

Local Set Elimination Schemes.

Definition JInt (z : Z) : JsValue := JNum (inject_Z z).

Module Js.

(** ToBoolean. *)
Definition truthy (v : JsValue) : bool :=
  match v with
  | JUndefined | JNull => false
  | JBool b => b
  | JNum q => negb (Qnum q =? 0)
  | JStr s => negb (JsString.eqb s "")
  | JArr _ | JObj _ => true
  end.

(** [a || b]. *)
Definition or (a b : JsValue) : JsValue := if truthy a then a else b.

Fixpoint assoc (k : string) (fs : list (string * JsValue)) : JsValue :=
  match fs with
  | [] => JUndefined
  | (k', v) :: r => if JsString.eqb k k' then v else assoc k r
  end.

(** [v?.k]: [undefined] on [null] and [undefined], the own property of an
    object, and [undefined] on the other values, none of which has a
    property of the names looked up here. *)
Definition get_opt (v : JsValue) (k : string) : JsValue :=
  match v with
  | JObj fs => assoc k fs
  | _ => JUndefined
  end.

Definition is_string (v : JsValue) : bool :=
  match v with JStr _ => true | _ => false end.

End Js.

(** ** Thrown values *)

(** The error axios hands to a response interceptor. *)
Record AxiosResponse : Type := {
  status : Z;
  data : JsValue
}.

Record AxiosError : Type := {
  message : string;
  response : option AxiosResponse
}.

Inductive AxiosResult : Type :=
| AxiosOk (resp : AxiosResponse)
| AxiosFail (err : AxiosError).

Inductive Thrown : Type :=
| JsError (msg : string)          (* new Error(msg) *)
| TypeError (msg : string)        (* raised by the runtime *)
| SdkError (status : string)      (* raised inside @hashgraph/sdk *)
| HostError (msg : string)        (* raised by the editor host API *)
| OfAxios (err : AxiosError)      (* the error object of a failed request *)
| Rejected (v : JsValue).         (* any other rejection value *)

Inductive Outcome (A : Type) : Type :=
| Ret (a : A)
| Throw (e : Thrown).
Arguments Ret {A} a.
Arguments Throw {A} e.

(** ** The outside world

    Requests the wrapper hands to the Hedera SDK. *)

Inductive SdkRequest : Type :=
| TopicCreateTransaction (memo : string)
| TopicMessageSubmitTransaction (topic message : string)
| ContractCallQuery (contract : string) (gas : Z) (method : string)
    (emptyParameters : bool)
| AccountBalanceQuery (account : string)
| FileCreateTransaction (contents : string)
| ContractCreateTransaction (bytecodeFile : string) (gas tinybars : Z)
    (constructorParameters : option JsValue).

Record SdkResponse : Type := {
  transactionId : string;
  hbars : option string;
  gasUsed : JsValue
}.

Record SdkReceipt : Type := {
  topicId : option string;
  fileId : option string;
  contractId : option string
}.

(** What an SDK call comes back with: a value, or the status it throws. *)
Inductive SdkResult (A : Type) : Type :=
| SdkOk (a : A)
| SdkFail (status : string).
Arguments SdkOk {A} a.
Arguments SdkFail {A} status.

(** One entry per call that leaves the extension, oldest first. *)
Inductive Event : Type :=
| EvConsoleError (label : string) (e : Thrown)
| EvClientNew (handle : nat) (net : string)
| EvSetOperator (handle : nat) (account key : string)
| EvClientClose (handle : nat)
| EvSdkExecute (handle : nat) (request : SdkRequest)
| EvSdkReceipt (handle : nat) (transaction : string)
| EvFsExists (path : string)
| EvFsRead (path : string)
| EvApiPost (path : string) (body : JsValue)
| EvWithProgress (title : string)
| EvProgress (message : string)
| EvInputBox (prompt placeHolder : string)
| EvInformationMessage (message : string)
| EvErrorMessage (message : string)
| EvExecuteCommand (command : string) (argument : JsValue).

(** The client objects the SDK has handed out; a handle is an index. *)
Record ClientObj : Type := {
  clientNetwork : string;
  operator : option (string * string);
  closed : bool
}.

(** The fields of [class HederaService]. *)
Record HederaService : Type := {
  client : option nat;
  accountId : option string;
  privateKey : option string;
  network : string;
  connected : bool
}.

Record State : Type := {
  service : HederaService;
  clients : list ClientObj;
  trace : list Event
}.

(** What the outside answers.  Every oracle sees the trace so far, so an
    answer may depend on everything that happened before the call. *)
Record Env : Type := {
  sdk_setOperator : list Event -> nat -> string -> string -> option string;
  sdk_validId : string -> bool;
  sdk_execute : list Event -> nat -> SdkRequest -> SdkResult SdkResponse;
  sdk_getReceipt : list Event -> nat -> string -> SdkResult SdkReceipt;
  date_now : list Event -> Z;
  json_stringify : JsValue -> string;
  json_parse : string -> option JsValue;
  js_toString : JsValue -> string;
  fs_existsSync : list Event -> string -> bool;
  fs_readFileSync : list Event -> string -> option string;
  path_extname : string -> string;
  path_basename : string -> string -> string;
  axios_post : list Event -> string -> JsValue -> AxiosResult;
  window_showInputBox : list Event -> string -> string -> option string
}.

(** ** The monad of the embedded code: state, trace and exceptions *)

Definition M (A : Type) : Type := State -> Outcome A * State.

Module MonadM.

Definition ret {A} (a : A) : M A := fun st => (Ret a, st).

Definition bind {A B} (m : M A) (k : A -> M B) : M B :=
  fun st =>
    match m st with
    | (Ret a, st') => k a st'
    | (Throw e, st') => (Throw e, st')
    end.

Definition throw {A} (e : Thrown) : M A := fun st => (Throw e, st).

(** [try { m } catch (error) { handler error }] *)
Definition try_catch {A} (m : M A) (handler : Thrown -> M A) : M A :=
  fun st =>
    match m st with
    | (Ret a, st') => (Ret a, st')
    | (Throw e, st') => handler e st'
    end.

Definition emit (ev : Event) : M unit :=
  fun st =>
    (Ret tt, {| service := service st; clients := clients st;
                trace := trace st ++ [ev] |}).

Definition get_trace : M (list Event) := fun st => (Ret (trace st), st).
Definition this : M HederaService := fun st => (Ret (service st), st).

Definition modify_this (f : HederaService -> HederaService) : M unit :=
  fun st =>
    (Ret tt, {| service := f (service st); clients := clients st;
                trace := trace st |}).

Definition get_clients : M (list ClientObj) := fun st => (Ret (clients st), st).

Definition set_clients (cs : list ClientObj) : M unit :=
  fun st =>
    (Ret tt, {| service := service st; clients := cs; trace := trace st |}).

Definition lift_sdk {A} (r : SdkResult A) : M A :=
  match r with
  | SdkOk a => ret a
  | SdkFail status => throw (SdkError status)
  end.

Definition fmap_M {A B} (f : A -> B) (m : M A) : M B :=
  bind m (fun a => ret (f a)).

End MonadM.

Import MonadM.

Notation "'let*' x ':=' m 'in' k" := (bind m (fun x => k))
  (at level 10, x name, m at level 100, k at level 200, only parsing).
Notation "'do*' m 'in' k" := (bind m (fun _ => k))
  (at level 10, m at level 100, k at level 200, only parsing).

(** ** services/hederaService.ts *)

Module Hedera.

Definition initial : HederaService :=
  {| client := None; accountId := None; privateKey := None;
     network := "testnet"; connected := false |}.

Definition set_client (c : option nat) (s : HederaService) : HederaService :=
  {| client := c; accountId := accountId s; privateKey := privateKey s;
     network := network s; connected := connected s |}.

Definition set_accountId (a : option string) (s : HederaService) : HederaService :=
  {| client := client s; accountId := a; privateKey := privateKey s;
     network := network s; connected := connected s |}.

Definition set_privateKey (k : option string) (s : HederaService) : HederaService :=
  {| client := client s; accountId := accountId s; privateKey := k;
     network := network s; connected := connected s |}.

Definition set_network (n : string) (s : HederaService) : HederaService :=
  {| client := client s; accountId := accountId s; privateKey := privateKey s;
     network := n; connected := connected s |}.

Definition set_connected (b : bool) (s : HederaService) : HederaService :=
  {| client := client s; accountId := accountId s; privateKey := privateKey s;
     network := network s; connected := b |}.

(** [!this.client] *)
Definition no_client (s : HederaService) : bool :=
  match client s with
  | None => true
  | Some _ => false
  end.

Definition console_error (label : string) (e : Thrown) : M unit :=
  emit (EvConsoleError label e).

(** [Client.forTestnet()] and [Client.forMainnet()]: a fresh client object. *)
Definition Client_for (net : string) : M nat :=
  let* cs := get_clients in
  let h := length cs in
  do* set_clients (cs ++ [{| clientNetwork := net; operator := None;
                             closed := false |}]) in
  do* emit (EvClientNew h net) in
  ret h.

Definition set_operator (acc key : string) (c : ClientObj) : ClientObj :=
  {| clientNetwork := clientNetwork c; operator := Some (acc, key);
     closed := closed c |}.

Definition set_closed (c : ClientObj) : ClientObj :=
  {| clientNetwork := clientNetwork c; operator := operator c;
     closed := true |}.

(** [client.setOperator(accountId, privateKey)]: the SDK parses both
    strings and throws on the ones it refuses. *)
Definition Client_setOperator (env : Env) (h : nat) (acc key : string) : M unit :=
  let* tr := get_trace in
  do* emit (EvSetOperator h acc key) in
  match sdk_setOperator env tr h acc key with
  | Some status => throw (SdkError status)
  | None =>
      let* cs := get_clients in
      set_clients (alter (set_operator acc key) h cs)
  end.

Definition Client_close (h : nat) : M unit :=
  let* cs := get_clients in
  do* set_clients (alter set_closed h cs) in
  emit (EvClientClose h).

Definition connect (env : Env) (net acc key : string) : M bool :=
  try_catch
    (let* h :=
       (if JsString.eqb net "testnet" then Client_for "testnet"
        else if JsString.eqb net "mainnet" then Client_for "mainnet"
        else throw (JsError ("Invalid network: " +:+ net))) in
     do* modify_this (set_client (Some h)) in
     do* Client_setOperator env h acc key in
     do* modify_this (set_accountId (Some acc)) in
     do* modify_this (set_privateKey (Some key)) in
     do* modify_this (set_network net) in
     do* modify_this (set_connected true) in
     ret true)
    (fun error =>
       do* console_error "Failed to connect to Hedera:" error in
       do* modify_this (set_connected false) in
       throw error).

(** [initializeFromStoredCredentials], started by the constructor with the
    three settings read from the configuration. *)
Definition initializeFromStoredCredentials (env : Env)
    (storedAccountId storedPrivateKey defaultNetwork : option string) : M unit :=
  try_catch
    (let net :=
       match defaultNetwork with
       | Some n => if JsString.eqb n "" then "testnet" else n
       | None => "testnet"
       end in
     match storedAccountId, storedPrivateKey with
     | Some acc, Some key =>
         if JsString.eqb acc "" || JsString.eqb key "" then ret tt
         else do* connect env net acc key in ret tt
     | _, _ => ret tt
     end)
    (fun error =>
       console_error "Failed to initialize from stored credentials:" error).

Definition disconnect : M unit :=
  let* s := this in
  do* match client s with
      | Some h =>
          do* Client_close h in
          modify_this (set_client None)
      | None => ret tt
      end in
  modify_this (set_connected false).

Definition isConnected (s : HederaService) : bool :=
  connected s && negb (no_client s).

(** The Disconnected state of the wrapper: no handle, flag down. *)
Definition disconnected (s : HederaService) : Prop :=
  client s = None /\ connected s = false.

Definition getCurrentNetwork (s : HederaService) : string := network s.
Definition getAccountId (s : HederaService) : option string := accountId s.

Definition not_connected : Thrown := JsError "Not connected to Hedera".

(** [transaction.execute(this.client)] and [txResponse.getReceipt(this.client)]:
    the handle is read from the field again at each use. *)
Definition execute (env : Env) (req : SdkRequest) : M SdkResponse :=
  let* s := this in
  match client s with
  | None => throw (TypeError "client is null")
  | Some h =>
      let* tr := get_trace in
      do* emit (EvSdkExecute h req) in
      lift_sdk (sdk_execute env tr h req)
  end.

Definition getReceipt (env : Env) (resp : SdkResponse) : M SdkReceipt :=
  let* s := this in
  match client s with
  | None => throw (TypeError "client is null")
  | Some h =>
      let* tr := get_trace in
      do* emit (EvSdkReceipt h (transactionId resp)) in
      lift_sdk (sdk_getReceipt env tr h (transactionId resp))
  end.

(** [x!.toString()] on a receipt field. *)
Definition non_null (field : string) (o : option string) : M string :=
  match o with
  | Some v => ret v
  | None => throw (TypeError ("Cannot read properties of null: " +:+ field))
  end.

(** [TopicId.fromString], [ContractId.fromString], [AccountId.fromString]. *)
Definition fromString (env : Env) (id : string) : M string :=
  if sdk_validId env id then ret id else throw (SdkError "invalid entity id").

Definition createTopic (env : Env) (memo : string) : M string :=
  let* s := this in
  if no_client s then throw not_connected else
  try_catch
    (let* txResponse := execute env (TopicCreateTransaction memo) in
     let* receipt := getReceipt env txResponse in
     non_null "topicId" (topicId receipt))
    (fun error =>
       do* console_error "Failed to create topic:" error in
       throw error).

Definition submitMessage (env : Env) (topic : string) (message : JsValue) : M string :=
  let* s := this in
  if no_client s then throw not_connected else
  try_catch
    (let messageJson := json_stringify env message in
     let* tid := fromString env topic in
     let* txResponse := execute env (TopicMessageSubmitTransaction tid messageJson) in
     let* receipt := getReceipt env txResponse in
     ret (transactionId txResponse))
    (fun error =>
       do* console_error "Failed to submit message:" error in
       throw error).

Definition callContractMethod (env : Env) (contract method : string)
    (params : option JsValue) (gas : Z) : M SdkResponse :=
  let* s := this in
  if no_client s then throw not_connected else
  try_catch
    (let* cid := fromString env contract in
     let withParams :=
       match params with Some p => Js.truthy p | None => false end in
     execute env (ContractCallQuery cid gas method withParams))
    (fun error =>
       do* console_error "Failed to call contract method:" error in
       throw error).

Definition falsy_string (o : option string) : bool :=
  match o with
  | None => true
  | Some a => JsString.eqb a ""
  end.

(** The query class is looked up on the client object itself
    ([new (this.client as any).AccountBalanceQuery()]); what that lookup and
    the query give is the SDK's answer to the request. *)
Definition getAccountBalance (env : Env) : M string :=
  let* s := this in
  if no_client s || falsy_string (accountId s)
  then throw not_connected else
  try_catch
    (let* acc := fromString env (default "" (accountId s)) in
     let* accountBalance := execute env (AccountBalanceQuery acc) in
     non_null "hbars" (hbars accountBalance))
    (fun error =>
       do* console_error "Failed to get account balance:" error in
       throw error).

Definition deployContract (env : Env) (bytecode : string)
    (constructorParams : JsValue) : M string :=
  let* s := this in
  if no_client s then throw not_connected else
  try_catch
    (let* fileResponse := execute env (FileCreateTransaction bytecode) in
     let* fileReceipt := getReceipt env fileResponse in
     let* file := non_null "fileId" (fileId fileReceipt) in
     let params :=
       if Js.truthy constructorParams then Some constructorParams else None in
     let* contractResponse :=
       execute env (ContractCreateTransaction file 500000 0 params) in
     let* contractReceipt := getReceipt env contractResponse in
     non_null "contractId" (contractId contractReceipt))
    (fun error =>
       do* console_error "Failed to deploy contract:" error in
       throw error).

Definition js_option_string (o : option string) : JsValue :=
  match o with Some a => JStr a | None => JNull end.

Definition Date_now (env : Env) : M Z :=
  let* tr := get_trace in ret (date_now env tr).

Definition registerContract (env : Env) (contract : string)
    (metadata : JsValue) : M string :=
  let* s := this in
  if no_client s then throw not_connected else
  try_catch
    (let* now := Date_now env in
     let* s' := this in
     let registrationData :=
       JObj [("contractId", JStr contract); ("metadata", metadata);
             ("timestamp", JInt now); ("owner", js_option_string (accountId s'))] in
     submitMessage env "0.0.registry" registrationData)
    (fun error =>
       do* console_error "Failed to register contract:" error in
       throw error).

Definition getContractInfo (env : Env) (contract : string) : M JsValue :=
  let* s := this in
  if no_client s then throw not_connected else
  let* now := Date_now env in
  ret (JObj [("contractId", JStr contract);
             ("name", JStr ("Contract " +:+ contract));
             ("description", JStr ("Smart contract deployed at " +:+ contract));
             ("owner", js_option_string (accountId s));
             ("deployedAt", JInt (now - 86400000));
             ("verified", JBool false)]).

Definition getDeployedContracts (env : Env) : M JsValue :=
  let* s := this in
  if no_client s then throw not_connected else
  let* t2 := Date_now env in
  let* t1 := Date_now env in
  ret (JArr [JObj [("contractId", JStr "0.0.contract1");
                   ("name", JStr "Token Contract");
                   ("description", JStr "ERC20 token implementation");
                   ("deployedAt", JInt (t2 - 172800000))];
             JObj [("contractId", JStr "0.0.contract2");
                   ("name", JStr "NFT Contract");
                   ("description", JStr "ERC721 NFT implementation");
                   ("deployedAt", JInt (t1 - 86400000))]]).

Definition useAgent (env : Env) (agent prompt : string) : M JsValue :=
  let* s := this in
  if no_client s then throw not_connected else
  let* now := Date_now env in
  ret (JObj [("success", JBool true);
             ("response", JStr ("Agent " +:+ agent +:+ " processed: " +:+ prompt));
             ("agentId", JStr agent);
             ("timestamp", JInt now)]).

Definition agent (id name : string) (capabilities : list string) (fee : string) : JsValue :=
  JObj [("id", JStr id); ("name", JStr name);
        ("capabilities", JArr (JStr <$> capabilities)); ("fee", JStr fee)].

Definition getAgents : M JsValue :=
  let* s := this in
  if no_client s then throw not_connected else
  ret (JArr [agent "0.0.12345" "Security Auditor" ["audit"; "vulnerability-detection"] "1.0 HBAR";
             agent "0.0.12346" "Test Generator" ["test-generation"; "fuzzing"] "0.5 HBAR";
             agent "0.0.12347" "Gas Optimizer" ["optimization"; "gas-analysis"] "0.8 HBAR"]).

(** [updateConfig]: the reconnection is not awaited, and [connect] has no
    suspension point, so it runs to its end inside the call and a failure
    stays in the dropped promise. *)
Definition updateConfig (env : Env) (acc key net : string) : M unit :=
  do* modify_this (set_accountId (Some acc)) in
  do* modify_this (set_privateKey (Some key)) in
  do* modify_this (set_network net) in
  let* s := this in
  if connected s then
    do* disconnect in
    try_catch (do* connect env net acc key in ret tt) (fun _ => ret tt)
  else ret tt.

(** The blockchain operations of the class, with their arguments. *)
Inductive Operation : Type :=
| OpCreateTopic (memo : string)
| OpSubmitMessage (topic : string) (message : JsValue)
| OpCallContractMethod (contract method : string) (params : option JsValue) (gas : Z)
| OpGetAccountBalance
| OpDeployContract (bytecode : string) (constructorParams : JsValue)
| OpRegisterContract (contract : string) (metadata : JsValue)
| OpGetContractInfo (contract : string)
| OpGetDeployedContracts
| OpUseAgent (agentId prompt : string)
| OpGetAgents.

Inductive Result : Type :=
| RUnit
| RBool (b : bool)
| RString (s : string)
| RResponse (r : SdkResponse)
| RValue (v : JsValue).

Definition run_op (env : Env) (op : Operation) : M Result :=
  match op with
  | OpCreateTopic memo => fmap_M RString (createTopic env memo)
  | OpSubmitMessage topic message => fmap_M RString (submitMessage env topic message)
  | OpCallContractMethod c m p g => fmap_M RResponse (callContractMethod env c m p g)
  | OpGetAccountBalance => fmap_M RString (getAccountBalance env)
  | OpDeployContract b p => fmap_M RString (deployContract env b p)
  | OpRegisterContract c m => fmap_M RString (registerContract env c m)
  | OpGetContractInfo c => fmap_M RValue (getContractInfo env c)
  | OpGetDeployedContracts => fmap_M RValue (getDeployedContracts env)
  | OpUseAgent a p => fmap_M RValue (useAgent env a p)
  | OpGetAgents => fmap_M RValue getAgents
  end.

(** The operations whose guard is [!this.client] alone. *)
Definition handle_only (op : Operation) : bool :=
  match op with
  | OpGetAccountBalance => false
  | _ => true
  end.




Definition valid_network (net : string) : bool :=
  JsString.eqb net "testnet" || JsString.eqb net "mainnet".


End Hedera.

(** ** services/apiService.ts *)

Module ApiService.

(** [error?.response?.data?.detail] *)
Definition detail_of (error : AxiosError) : JsValue :=
  match response error with
  | Some r => Js.get_opt (data r) "detail"
  | None => JUndefined
  end.

(** The rejection handler of the response interceptor, after its
    [console.error]: the value the promise is rejected with. *)
Definition rejection (error : AxiosError) : JsValue :=
  Js.or (detail_of error) (Js.or (JStr (message error)) (JStr "Unknown error")).

(** [this.client.post(path, body)] behind the interceptor. *)
Definition post (env : Env) (path : string) (body : JsValue) : M AxiosResponse :=
  let* tr := get_trace in
  do* emit (EvApiPost path body) in
  match axios_post env tr path body with
  | AxiosOk resp => ret resp
  | AxiosFail error =>
      do* emit (EvConsoleError "API Error:" (OfAxios error)) in
      throw (Rejected (rejection error))
  end.

Definition js_opt (o : option string) : JsValue :=
  match o with Some a => JStr a | None => JUndefined end.

Definition compileContract (env : Env) (code : string) (contractName : option string)
    : M JsValue :=
  let* resp := post env "/api/v1/compile"
                 (JObj [("code", JStr code); ("contract_name", js_opt contractName)]) in
  ret (data resp).

Definition auditContract (env : Env) (code : string) : M JsValue :=
  let* resp := post env "/api/v1/audit" (JObj [("code", JStr code)]) in
  ret (data resp).

End ApiService.

(** ** views/TransactionCenter.ts *)

Module TransactionCenter.

Record TransactionCenterProvider : Type := {
  transactions : list JsValue;
  fired : nat                  (* _onDidChangeTreeData.fire() calls so far *)
}.

Definition fire (p : TransactionCenterProvider) : TransactionCenterProvider :=
  {| transactions := transactions p; fired := S (fired p) |}.

Definition refresh (newTransactions : list JsValue) (p : TransactionCenterProvider)
    : TransactionCenterProvider :=
  let p1 :=
    if (0 <? length newTransactions)%nat
    then {| transactions := newTransactions ++ transactions p; fired := fired p |}
    else p in
  fire p1.

(** [Array.prototype.unshift] *)
Definition unshift (x : JsValue) (p : TransactionCenterProvider) : TransactionCenterProvider :=
  {| transactions := x :: transactions p; fired := fired p |}.

Definition addTransaction (transaction : JsValue) (p : TransactionCenterProvider)
    : TransactionCenterProvider :=
  refresh [] (unshift transaction p).

(** [this.transactions.find(tx => tx.id === id)] *)
Definition getTransactionById (id : string) (p : TransactionCenterProvider)
    : option JsValue :=
  List.find
    (fun tx => match Js.get_opt tx "id" with
               | JStr s => JsString.eqb s id
               | _ => false
               end)
    (transactions p).

End TransactionCenter.

(** ** views/AuditDashboard.ts *)

Module AuditDashboard.

Record Location : Type := {
  file : option string;
  line : option Z;
  column : option Z
}.

Record Vulnerability : Type := {
  id : string;
  title : option string;
  description : string;
  severity : string;
  location : option Location;
  recommendation : string
}.

Inductive TreeItemCollapsibleState : Type := NoneState | Collapsed | Expanded.

Record Command : Type := {
  command : string;
  commandTitle : string;
  tooltip : option string;
  arguments : list string
}.

Record AuditTreeItem : Type := {
  label : string;
  itemDescription : string;
  collapsibleState : TreeItemCollapsibleState;
  itemCommand : option Command;
  contextValue : option string;
  iconPath : option string
}.

Definition severities : list string :=
  ["Critical"; "High"; "Medium"; "Low"; "Informational"].

Definition getSeverityIcon (sev : string) : string :=
  let s := JsString.toLowerCase sev in
  if JsString.eqb s "critical" then "error"
  else if JsString.eqb s "high" then "warning"
  else if JsString.eqb s "medium" then "warning"
  else if JsString.eqb s "low" then "info"
  else "info".

(** [this.vulnerabilities.filter(v => v.severity.toLowerCase() ===
    severity.toLowerCase())] *)
Definition vulnsForSeverity (vulnerabilities : list Vulnerability) (sev : string)
    : list Vulnerability :=
  List.filter
    (fun v => JsString.eqb (JsString.toLowerCase (severity v)) (JsString.toLowerCase sev))
    vulnerabilities.

Definition placeholder : AuditTreeItem :=
  {| label := "No Vulnerabilities Found";
     itemDescription := "Run an audit to check for vulnerabilities";
     collapsibleState := NoneState;
     itemCommand := Some {| command := "hivemind.auditContract";
                            commandTitle := "Audit Contract";
                            tooltip := Some "Run a security audit on the current contract";
                            arguments := [] |};
     contextValue := None;
     iconPath := None |}.

(** One entry of the root-level [map]: [null] for an empty severity. *)
Definition severityGroup (vulnerabilities : list Vulnerability) (sev : string)
    : option AuditTreeItem :=
  let vs := vulnsForSeverity vulnerabilities sev in
  if (length vs =? 0)%nat then None
  else Some
    {| label := sev +:+ " (" +:+ JsString.of_nat (length vs) +:+ ")";
       itemDescription :=
         JsString.of_nat (length vs) +:+ " " +:+ JsString.toLowerCase sev
           +:+ " severity issues";
       collapsibleState := Collapsed;
       itemCommand := None;
       contextValue := Some ("severity-" +:+ JsString.toLowerCase sev);
       iconPath := Some (getSeverityIcon sev) |}.

Definition or_string (o : option string) (d : string) : string :=
  match o with
  | Some a => if JsString.eqb a "" then d else a
  | None => d
  end.

(** [vuln.location?.line || '?'] inside a template literal. *)
Definition line_text (l : option Location) : string :=
  match l with
  | Some loc =>
      match line loc with
      | Some n => if (n =? 0) then "?" else JsString.of_Z n
      | None => "?"
      end
  | None => "?"
  end.

Definition file_text (l : option Location) : string :=
  match l with
  | Some loc => or_string (file loc) "Unknown file"
  | None => "Unknown file"
  end.

Definition vulnerabilityItem (vuln : Vulnerability) : AuditTreeItem :=
  {| label := or_string (title vuln) "Unnamed Vulnerability";
     itemDescription := file_text (location vuln) +:+ ":" +:+ line_text (location vuln);
     collapsibleState := NoneState;
     itemCommand := Some {| command := "hivemind.showVulnerability";
                            commandTitle := "Show Vulnerability";
                            tooltip := None;
                            arguments := [id vuln] |};
     contextValue := Some "vulnerability";
     iconPath := Some "bug" |}.

Definition is_severity_context (c : option string) : bool :=
  match c with
  | Some v => JsString.startsWith v "severity-"
  | None => false
  end.

Definition getChildren (vulnerabilities : list Vulnerability)
    (element : option AuditTreeItem) : list AuditTreeItem :=
  if (length vulnerabilities =? 0)%nat then [placeholder]
  else
    match element with
    | None => omap (severityGroup vulnerabilities) severities
    | Some el =>
        if is_severity_context (contextValue el) then
          let sev := JsString.replace_first (default "" (contextValue el)) "severity-" "" in
          vulnerabilityItem <$> vulnsForSeverity vulnerabilities sev
        else []
    end.

(** The groups of a rendered level that stand for one severity. *)
Definition groupsFor (sev : string) (level : list AuditTreeItem) : list AuditTreeItem :=
  List.filter
    (fun it =>
       match contextValue it with
       | Some c => JsString.eqb c ("severity-" +:+ JsString.toLowerCase sev)
       | None => false
       end)
    level.

(** The list [auditContract] installs while the backend call is a
    placeholder. *)
Definition mockVulnerabilities (filePath : string) : list Vulnerability :=
  [ {| id := "VULN-001";
       title := Some "Reentrancy Vulnerability";
       description := "Contract state is updated after external calls, potentially allowing reentrancy attacks.";
       severity := "High";
       location := Some {| file := Some filePath; line := Some 25; column := Some 4 |};
       recommendation := "Update contract state before making external calls or use ReentrancyGuard." |};
    {| id := "VULN-002";
       title := Some "Unchecked Return Value";
       description := "The return value of an external call is not checked.";
       severity := "Medium";
       location := Some {| file := Some filePath; line := Some 42; column := Some 8 |};
       recommendation := "Check the return value of the external call and handle potential failures." |} ].

End AuditDashboard.

(** ** Regular expressions, as far as the extension's patterns go

    A backtracking matcher in continuation-passing style: greedy
    quantifiers try the longer match first and fall back, the search starts
    at the leftmost position that matches. *)

Module Regex.

Inductive CharClass : Type :=
| Lit (c : ascii)          (* one literal character *)
| LitI (c : ascii)         (* a letter under the /i flag *)
| Space                    (* \s *)
| Digit                    (* \d *)
| Word.                    (* \w *)

Inductive Regex : Type :=
| Class (c : CharClass)
| Seq (r1 r2 : Regex)
| Opt (r : Regex)          (* r? *)
| Plus (c : CharClass)     (* c+ *)
| Group (n : nat) (r : Regex).

Definition between (lo hi : N) (c : ascii) : bool :=
  ((lo <=? JsString.code c) && (JsString.code c <=? hi))%N.

(** White space among the code units below 256: TAB, LF, VT, FF, CR,
    SP and NBSP. *)
Definition is_space (c : ascii) : bool :=
  between 9 13 c || (JsString.code c =? 32)%N || (JsString.code c =? 160)%N.

Definition is_digit (c : ascii) : bool := between 48 57 c.

Definition is_word (c : ascii) : bool :=
  between 65 90 c || between 97 122 c || is_digit c || (JsString.code c =? 95)%N.

Definition in_class (cl : CharClass) (c : ascii) : bool :=
  match cl with
  | Lit a => Ascii.eqb a c
  | LitI a => Ascii.eqb (JsString.lower_char a) (JsString.lower_char c)
  | Space => is_space c
  | Digit => is_digit c
  | Word => is_word c
  end.

Definition Captures : Type := gmap nat string.

(** The first [String.length s - String.length rest] characters of [s]. *)
Fixpoint consumed (s rest : string) : string :=
  if (String.length s <=? String.length rest)%nat then EmptyString
  else match s with
       | String c s' => String c (consumed s' rest)
       | EmptyString => EmptyString
       end.

Section Matcher.

Context {R : Type}.

(** After one character of [c+]: take more while possible, then fall back. *)
Fixpoint more (cl : CharClass) (s : string) (k : string -> option R) : option R :=
  match s with
  | String c s' =>
      if in_class cl c then
        match more cl s' k with
        | Some r => Some r
        | None => k s
        end
      else k s
  | EmptyString => k s
  end.

Fixpoint run (r : Regex) (s : string) (caps : Captures)
    (k : string -> Captures -> option R) : option R :=
  match r with
  | Class cl =>
      match s with
      | String c s' => if in_class cl c then k s' caps else None
      | EmptyString => None
      end
  | Seq r1 r2 => run r1 s caps (fun s1 caps1 => run r2 s1 caps1 k)
  | Opt r1 =>
      match run r1 s caps k with
      | Some res => Some res
      | None => k s caps
      end
  | Plus cl =>
      match s with
      | String c s' => if in_class cl c then more cl s' (fun rest => k rest caps) else None
      | EmptyString => None
      end
  | Group n r1 =>
      run r1 s caps (fun rest caps1 => k rest (<[n := consumed s rest]> caps1))
  end.

End Matcher.

(** [s.match(r)] without the g flag: the captures of the leftmost match. *)
Fixpoint exec (r : Regex) (s : string) : option Captures :=
  match run r s ∅ (fun _ caps => Some caps) with
  | Some caps => Some caps
  | None =>
      match s with
      | String _ s' => exec r s'
      | EmptyString => None
      end
  end.

Fixpoint literal (mk : ascii -> CharClass) (c : ascii) (rest : string) : Regex :=
  match rest with
  | EmptyString => Class (mk c)
  | String c' rest' => Seq (Class (mk c)) (literal mk c' rest')
  end.

(** [parseInt] on a run of decimal digits.  Beyond 2^53 JavaScript rounds;
    such a number is past the last line of any document either way. *)
Fixpoint parseDigits (acc : Z) (s : string) : Z :=
  match s with
  | EmptyString => acc
  | String c s' => parseDigits (10 * acc + (Z.of_N (JsString.code c) - 48)) s'
  end.

Definition parseInt (s : string) : Z := parseDigits 0 s.

End Regex.

(** ** services/solidityAuditProvider.ts *)

Module SolidityAudit.

Import Regex.

(** [/line[s]?\s+(\d+)(?:-(\d+))?/i] *)
Definition lineRegex : Regex :=
  Seq (literal LitI "l" "ine")
   (Seq (Opt (Class (LitI "s")))
    (Seq (Plus Space)
     (Seq (Group 1 (Plus Digit))
          (Opt (Seq (Class (Lit "-")) (Group 2 (Plus Digit))))))).

Record Vulnerability : Type := {
  title : string;
  description : string;
  severity : string;
  location : JsValue
}.

Record AuditResult : Type := {
  static_analysis : list Vulnerability;
  ai_analysis : string
}.

Record TextDocument : Type := {
  uri : string;
  lines : list string
}.

Inductive DiagnosticSeverity : Type := Error | Warning | Information | Hint.

Record Position : Type := { posLine : Z; character : Z }.
Record Range : Type := { rangeStart : Position; rangeEnd : Position }.

Record Diagnostic : Type := {
  range : Range;
  diagMessage : string;
  diagSeverity : DiagnosticSeverity;
  source : string;
  code : string;
  relatedInformation : list (string * Range * string)
}.

(** The editor host, as its API documents it: a position takes no negative
    coordinate, [lineAt] takes a line of the document, a range orders its
    two ends. *)
Definition newPosition (l c : Z) : Outcome Position :=
  if (l <? 0) || (c <? 0) then Throw (HostError "Illegal argument: line must be non-negative")
  else Ret {| posLine := l; character := c |}.

Definition lineAt (document : TextDocument) (l : Z) : Outcome string :=
  if (l <? 0) then Throw (HostError "Illegal value for `line`")
  else match lines document !! Z.to_nat l with
       | Some text => Ret text
       | None => Throw (HostError "Illegal value for `line`")
       end.

Definition isBefore (a b : Position) : bool :=
  (posLine a <? posLine b)
  || ((posLine a =? posLine b) && (character a <? character b)).

Definition newRange (a b : Position) : Range :=
  if isBefore b a then {| rangeStart := b; rangeEnd := a |}
  else {| rangeStart := a; rangeEnd := b |}.

Definition getSeverity (sev : string) : DiagnosticSeverity :=
  let s := JsString.toLowerCase sev in
  if JsString.eqb s "critical" then Error
  else if JsString.eqb s "high" then Error
  else if JsString.eqb s "medium" then Warning
  else if JsString.eqb s "low" then Information
  else Hint.

(** [vuln.location?.match(...)]: [undefined] on an absent location, the
    captures or [null] on a string; any other value has no [match] method. *)
Definition lineMatch (loc : JsValue) : Outcome (option Captures) :=
  match loc with
  | JUndefined | JNull => Ret None
  | JStr s => Ret (exec lineRegex s)
  | _ => Throw (TypeError "vuln.location.match is not a function")
  end.

Definition bindO {A B} (o : Outcome A) (k : A -> Outcome B) : Outcome B :=
  match o with
  | Ret a => k a
  | Throw e => Throw e
  end.

(** The body of the [forEach] callback: [None] where it returns early. *)
Definition diagnosticFor (document : TextDocument) (vuln : Vulnerability)
    : Outcome (option Diagnostic) :=
  bindO (lineMatch (location vuln)) (fun m =>
  match m with
  | None => Ret None
  | Some caps =>
      let startLine := parseInt (default "" (caps !! 1%nat)) - 1 in
      let endLine :=
        match caps !! 2%nat with
        | Some g2 => if JsString.eqb g2 "" then startLine else parseInt g2 - 1
        | None => startLine
        end in
      bindO (newPosition startLine 0) (fun p1 =>
      bindO (lineAt document endLine) (fun text =>
      bindO (newPosition endLine (Z.of_nat (String.length text))) (fun p2 =>
      let range := newRange p1 p2 in
      Ret (Some {| range := range;
                   diagMessage := description vuln;
                   diagSeverity := getSeverity (severity vuln);
                   source := "HiveMind Audit";
                   code := title vuln;
                   relatedInformation := [(uri document, range, title vuln)] |}))))
  end).

(** [vulnerabilities.forEach(...)] pushing onto [diagnostics]. *)
Fixpoint collect (document : TextDocument) (vulns : list Vulnerability)
    : Outcome (list Diagnostic) :=
  match vulns with
  | [] => Ret []
  | v :: rest =>
      bindO (diagnosticFor document v) (fun d =>
      bindO (collect document rest) (fun ds =>
      Ret (match d with Some x => x :: ds | None => ds end)))
  end.

Definition DiagnosticCollection : Type := gmap string (list Diagnostic).

Definition updateDiagnostics (document : TextDocument) (auditResult : option AuditResult)
    (coll : DiagnosticCollection) : Outcome unit * DiagnosticCollection :=
  let coll1 := delete (uri document) coll in
  let vulnerabilities :=
    match auditResult with
    | Some r => static_analysis r
    | None => []
    end in
  if (length vulnerabilities =? 0)%nat then (Ret tt, coll1)
  else match collect document vulnerabilities with
       | Ret diagnostics => (Ret tt, <[uri document := diagnostics]> coll1)
       | Throw e => (Throw e, coll1)
       end.

(** The squiggles the editor shows for a document. *)
Definition shown (u : string) (coll : DiagnosticCollection) : list Diagnostic :=
  default [] (coll !! u).

(** A location the provider can parse: a string with a match of the
    pattern.  An absent location and a string without a match are not. *)
Definition parsable (loc : JsValue) : bool :=
  match loc with
  | JStr s => bool_decide (is_Some (exec lineRegex s))
  | _ => false
  end.

Definition free_text (loc : JsValue) : bool :=
  match loc with
  | JUndefined | JNull | JStr _ => true
  | _ => false
  end.

End SolidityAudit.

(** ** components/agentHubPanel.ts and components/auditDashboardPanel.ts *)

Module Panels.

(** A webview panel as the editor host keeps it; a handle is an index. *)
Record WebviewPanel : Type := {
  viewType : string;
  panelTitle : string;
  viewColumn : Z;
  html : string;
  reveals : nat;
  disposed : bool
}.

Record SeverityCounts : Type := {
  critical : nat; high : nat; medium : nat; low : nat; info : nat
}.

(** The inline documents of the two panels: their text is markup around
    the values computed here, and is taken as given. *)
Record Templates : Type := {
  getNonce : nat -> string;
  agentHubDocument : string -> string;
  vulnerabilityCard : nat -> SolidityAudit.Vulnerability -> string;
  auditDashboardDocument :
    string -> SeverityCounts -> string -> string
    -> list SolidityAudit.Vulnerability -> string
}.

Record AuditDashboardPanel : Type := {
  auditPanel : nat;                                   (* _panel *)
  auditResult : option SolidityAudit.AuditResult
}.

Record Host : Type := {
  panels : list WebviewPanel;
  nonces : nat;                                       (* getNonce() calls so far *)
  agentHub_currentPanel : option nat;                 (* AgentHubPanel.currentPanel, by its _panel *)
  auditDashboard_currentPanel : option AuditDashboardPanel
}.

Definition initial : Host :=
  {| panels := []; nonces := 0; agentHub_currentPanel := None;
     auditDashboard_currentPanel := None |}.

Definition set_panels (ps : list WebviewPanel) (h : Host) : Host :=
  {| panels := ps; nonces := nonces h;
     agentHub_currentPanel := agentHub_currentPanel h;
     auditDashboard_currentPanel := auditDashboard_currentPanel h |}.

Definition set_agentHub (c : option nat) (h : Host) : Host :=
  {| panels := panels h; nonces := nonces h;
     agentHub_currentPanel := c;
     auditDashboard_currentPanel := auditDashboard_currentPanel h |}.

Definition set_auditDashboard (c : option AuditDashboardPanel) (h : Host) : Host :=
  {| panels := panels h; nonces := nonces h;
     agentHub_currentPanel := agentHub_currentPanel h;
     auditDashboard_currentPanel := c |}.

Definition next_nonce (t : Templates) (h : Host) : string * Host :=
  (getNonce t (nonces h),
   {| panels := panels h; nonces := S (nonces h);
      agentHub_currentPanel := agentHub_currentPanel h;
      auditDashboard_currentPanel := auditDashboard_currentPanel h |}).

(** [column || vscode.ViewColumn.One] *)
Definition column_or_one (column : option Z) : Z :=
  match column with
  | Some c => if c =? 0 then 1 else c
  | None => 1
  end.

(** [vscode.window.createWebviewPanel] *)
Definition createWebviewPanel (vt ttl : string) (column : Z) (h : Host) : nat * Host :=
  (length (panels h),
   set_panels (panels h ++ [{| viewType := vt; panelTitle := ttl; viewColumn := column;
                               html := ""; reveals := 0; disposed := false |}]) h).

Definition disposed_error : Thrown := HostError "Webview is disposed".

(** [panel.reveal(column)]: refused on a disposed panel. *)
Definition reveal (handle : nat) (column : option Z) (h : Host) : Outcome unit * Host :=
  match panels h !! handle with
  | Some p =>
      if disposed p then (Throw disposed_error, h)
      else (Ret tt,
            set_panels
              (<[handle := {| viewType := viewType p; panelTitle := panelTitle p;
                              viewColumn := default (viewColumn p) column;
                              html := html p; reveals := S (reveals p);
                              disposed := false |}]> (panels h)) h)
  | None => (Throw disposed_error, h)
  end.

(** [panel.webview.html = text]: refused on a disposed panel. *)
Definition set_html (handle : nat) (text : string) (h : Host) : Outcome unit * Host :=
  match panels h !! handle with
  | Some p =>
      if disposed p then (Throw disposed_error, h)
      else (Ret tt,
            set_panels
              (<[handle := {| viewType := viewType p; panelTitle := panelTitle p;
                              viewColumn := viewColumn p;
                              html := text; reveals := reveals p;
                              disposed := false |}]> (panels h)) h)
  | None => (Throw disposed_error, h)
  end.

(** [panel.dispose()], a no-op the second time. *)
Definition dispose_panel (handle : nat) (h : Host) : Host :=
  match panels h !! handle with
  | Some p =>
      set_panels
        (<[handle := {| viewType := viewType p; panelTitle := panelTitle p;
                        viewColumn := viewColumn p; html := html p;
                        reveals := reveals p; disposed := true |}]> (panels h)) h
  | None => h
  end.

Definition agentHubView : string := "hivemindAgentHub".
Definition auditDashboardView : string := "hivemindAuditDashboard".

Module AgentHub.

Definition getHtmlForWebview (t : Templates) (h : Host) : string * Host :=
  let '(nonce, h1) := next_nonce t h in
  (agentHubDocument t nonce, h1).

(** The constructor: the initial document; the listeners it registers are
    [dispose] below and the message handlers. *)
Definition new (t : Templates) (panel : nat) (h : Host) : Outcome nat * Host :=
  let '(text, h1) := getHtmlForWebview t h in
  match set_html panel text h1 with
  | (Ret _, h2) => (Ret panel, h2)
  | (Throw e, h2) => (Throw e, h2)
  end.

Definition createOrShow (t : Templates) (column : option Z) (h : Host)
    : Outcome unit * Host :=
  match agentHub_currentPanel h with
  | Some current => reveal current column h
  | None =>
      let '(panel, h1) :=
        createWebviewPanel agentHubView "HiveMind Agent Hub" (column_or_one column) h in
      match new t panel h1 with
      | (Ret inst, h2) => (Ret tt, set_agentHub (Some inst) h2)
      | (Throw e, h2) => (Throw e, h2)
      end
  end.

(** [dispose()]: the panel's own [dispose] calls back into it through
    [onDidDispose], which finds the field cleared and the panel disposed. *)
Definition dispose (this_panel : nat) (h : Host) : Host :=
  dispose_panel this_panel (set_agentHub None h).

End AgentHub.

Module AuditDashboard.

Definition bump (sev : string) (c : SeverityCounts) : SeverityCounts :=
  let s := JsString.toLowerCase sev in
  if JsString.eqb s "critical" then
    {| critical := S (critical c); high := high c; medium := medium c; low := low c; info := info c |}
  else if JsString.eqb s "high" then
    {| critical := critical c; high := S (high c); medium := medium c; low := low c; info := info c |}
  else if JsString.eqb s "medium" then
    {| critical := critical c; high := high c; medium := S (medium c); low := low c; info := info c |}
  else if JsString.eqb s "low" then
    {| critical := critical c; high := high c; medium := medium c; low := S (low c); info := info c |}
  else if JsString.eqb s "info" then
    {| critical := critical c; high := high c; medium := medium c; low := low c; info := S (info c) |}
  else c.

Definition severityCounts (vulns : list SolidityAudit.Vulnerability) : SeverityCounts :=
  fold_left (fun c v => bump (SolidityAudit.severity v) c) vulns
    {| critical := 0; high := 0; medium := 0; low := 0; info := 0 |}.

Definition getHtmlForWebview (t : Templates)
    (result : option SolidityAudit.AuditResult) (h : Host) : string * Host :=
  let '(nonce, h1) := next_nonce t h in
  let staticAnalysis :=
    match result with Some r => SolidityAudit.static_analysis r | None => [] end in
  let aiAnalysis :=
    match result with Some r => SolidityAudit.ai_analysis r | None => "" end in
  let vulnerabilitiesHtml :=
    String.concat "" (imap (vulnerabilityCard t) staticAnalysis) in
  (auditDashboardDocument t nonce (severityCounts staticAnalysis)
     vulnerabilitiesHtml aiAnalysis staticAnalysis, h1).

Definition new (t : Templates) (panel : nat)
    (result : option SolidityAudit.AuditResult) (h : Host)
    : Outcome AuditDashboardPanel * Host :=
  let '(text, h1) := getHtmlForWebview t result h in
  match set_html panel text h1 with
  | (Ret _, h2) => (Ret {| auditPanel := panel; auditResult := result |}, h2)
  | (Throw e, h2) => (Throw e, h2)
  end.

Definition createOrShow (t : Templates) (column : option Z)
    (result : option SolidityAudit.AuditResult) (h : Host) : Outcome unit * Host :=
  match auditDashboard_currentPanel h with
  | Some current =>
      match reveal (auditPanel current) column h with
      | (Ret _, h1) =>
          let '(text, h2) := getHtmlForWebview t result h1 in
          set_html (auditPanel current) text h2
      | (Throw e, h1) => (Throw e, h1)
      end
  | None =>
      let '(panel, h1) :=
        createWebviewPanel auditDashboardView "HiveMind Audit Dashboard"
          (column_or_one column) h in
      match new t panel result h1 with
      | (Ret inst, h2) => (Ret tt, set_auditDashboard (Some inst) h2)
      | (Throw e, h2) => (Throw e, h2)
      end
  end.

Definition dispose (this_panel : nat) (h : Host) : Host :=
  dispose_panel this_panel (set_auditDashboard None h).

End AuditDashboard.

(** What happens to the panels: the two show commands, and the user
    closing a panel, on which the host disposes it and fires
    [onDidDispose]. *)
Inductive PanelEvent : Type :=
| ShowAgentHub (column : option Z)
| ShowAuditDashboard (column : option Z) (result : option SolidityAudit.AuditResult)
| UserCloses (handle : nat).

Definition userCloses (handle : nat) (h : Host) : Host :=
  match panels h !! handle with
  | Some p =>
      if disposed p then h
      else
        let h1 := dispose_panel handle h in
        if JsString.eqb (viewType p) agentHubView then AgentHub.dispose handle h1
        else AuditDashboard.dispose handle h1
  | None => h
  end.

Definition step (t : Templates) (ev : PanelEvent) (h : Host) : Host :=
  match ev with
  | ShowAgentHub column => snd (AgentHub.createOrShow t column h)
  | ShowAuditDashboard column result => snd (AuditDashboard.createOrShow t column result h)
  | UserCloses handle => userCloses handle h
  end.

Definition run (t : Templates) (evs : list PanelEvent) (h : Host) : Host :=
  fold_left (fun acc ev => step t ev acc) evs h.

(** View type and disposal flag of a panel, [None] past the last one. *)
Definition status (h : Host) (handle : nat) : option (string * bool) :=
  (fun p => (viewType p, disposed p)) <$> panels h !! handle.




End Panels.

(** ** utils/solidityUtils.ts and utils/deploymentUtils.ts *)

Module SolidityUtils.

Definition isSolidityFile (env : Env) (filePath : string) : bool :=
  JsString.eqb (JsString.toLowerCase (path_extname env filePath)) ".sol".

(** [/contract\s+(\w+)/] *)
Definition contractRegex : Regex.Regex :=
  Regex.Seq (Regex.literal Regex.Lit "c" "ontract")
    (Regex.Seq (Regex.Plus Regex.Space) (Regex.Group 1 (Regex.Plus Regex.Word))).

Definition readFileSync (env : Env) (filePath : string) : M string :=
  let* tr := get_trace in
  do* emit (EvFsRead filePath) in
  match fs_readFileSync env tr filePath with
  | Some content => ret content
  | None => throw (HostError ("ENOENT: no such file or directory, open " +:+ filePath))
  end.

Definition extractContractName (env : Env) (filePath : string) : M string :=
  try_catch
    (let* content := readFileSync env filePath in
     match Regex.exec contractRegex content with
     | Some caps =>
         match caps !! 1%nat with
         | Some name =>
             if JsString.eqb name "" then ret (path_basename env filePath ".sol")
             else ret name
         | None => ret (path_basename env filePath ".sol")
         end
     | None => ret (path_basename env filePath ".sol")
     end)
    (fun error =>
       do* emit (EvConsoleError "Failed to extract contract name:" error) in
       ret (path_basename env filePath ".sol")).

End SolidityUtils.

Module Deployment.

(** The ABI entries as the code reads them. *)
Record AbiInput : Type := {
  inputName : JsValue;
  inputType : string
}.

Record AbiItem : Type := {
  itemType : JsValue;
  itemName : JsValue;
  inputs : option (list AbiInput);
  stateMutability : JsValue
}.

Definition strict_eq (v : JsValue) (s : string) : bool :=
  match v with
  | JStr a => JsString.eqb a s
  | _ => false
  end.

(** Reading the JSON of an ABI.  An entry of another shape than the
    compiler's output (an item that is no object, inputs that are no list,
    an input without a type string) is outside the data model and stops the
    reading with a [TypeError]. *)
Definition decode_input (v : JsValue) : option AbiInput :=
  match v with
  | JObj fs =>
      match Js.assoc "type" fs with
      | JStr ty => Some {| inputName := Js.assoc "name" fs; inputType := ty |}
      | _ => None
      end
  | _ => None
  end.

Definition decode_inputs (v : JsValue) : option (option (list AbiInput)) :=
  match v with
  | JArr items => Some <$> mapM decode_input items
  | _ => if Js.truthy v then None else Some None
  end.

Definition decode_item (v : JsValue) : option AbiItem :=
  match v with
  | JObj fs =>
      ins ← decode_inputs (Js.assoc "inputs" fs);
      Some {| itemType := Js.assoc "type" fs; itemName := Js.assoc "name" fs;
              inputs := ins; stateMutability := Js.assoc "stateMutability" fs |}
  | _ => None
  end.

Definition decode_abi (v : JsValue) : M (list AbiItem) :=
  match v with
  | JArr items =>
      match mapM decode_item items with
      | Some abi => ret abi
      | None => throw (TypeError "malformed ABI entry")
      end
  | _ => throw (TypeError "abi.find is not a function")
  end.

(** [`${error}`] *)
Definition error_text (env : Env) (e : Thrown) : string :=
  match e with
  | JsError m => "Error: " +:+ m
  | TypeError m => "TypeError: " +:+ m
  | SdkError st => "StatusError: " +:+ st
  | HostError m => "Error: " +:+ m
  | OfAxios err => "AxiosError: " +:+ message err
  | Rejected v => js_toString env v
  end.

Definition convertParam (env : Env) (param ty : string) : M JsValue :=
  if JsString.startsWith ty "uint" || JsString.startsWith ty "int" then ret (JStr param)
  else if JsString.eqb ty "bool" then
    ret (JBool (JsString.eqb (JsString.toLowerCase param) "true"))
  else if JsString.eqb ty "address" then ret (JStr param)
  else if JsString.eqb ty "string" then ret (JStr param)
  else if JsString.startsWith ty "bytes" then ret (JStr param)
  else if JsString.endsWith ty "[]" then
    match json_parse env param with
    | Some v => ret v
    | None => throw (JsError ("Invalid array format for parameter of type " +:+ ty))
    end
  else ret (JStr param).

(** [vscode.window.showInputBox]: [None] when the user dismisses the box. *)
Definition showInputBox (env : Env) (prompt placeHolder : string) : M (option string) :=
  let* tr := get_trace in
  do* emit (EvInputBox prompt placeHolder) in
  ret (window_showInputBox env tr prompt placeHolder).

Definition promptText (env : Env) (what : string) (input : AbiInput) : string :=
  "Enter value for " +:+ what +:+ " " +:+ JsString.dquote
    +:+ js_toString env (inputName input)
    +:+ JsString.dquote +:+ " (" +:+ inputType input +:+ ")".

Definition placeHolderText (input : AbiInput) : string :=
  inputType input +:+ " value".

(** The body of the two prompting loops, which differ in the wording of
    the prompt and of the cancellation. *)
Fixpoint promptAll (env : Env) (what cancelled : string) (ins : list AbiInput)
    : M (list JsValue) :=
  match ins with
  | [] => ret []
  | input :: rest =>
      let* param :=
        showInputBox env (promptText env what input) (placeHolderText input) in
      match param with
      | None => throw (JsError cancelled)
      | Some text =>
          let* value := convertParam env text (inputType input) in
          let* values := promptAll env what cancelled rest in
          ret (value :: values)
      end
  end.

Definition getConstructorParams (env : Env) (abi : list AbiItem) : M (list JsValue) :=
  match List.find (fun item => strict_eq (itemType item) "constructor") abi with
  | Some constructor =>
      match inputs constructor with
      | Some ins => promptAll env "constructor parameter" "Deployment cancelled" ins
      | None => ret []
      end
  | None => ret []
  end.

Definition getMethodParams (env : Env) (method : AbiItem) : M (list JsValue) :=
  match inputs method with
  | Some ins => promptAll env "parameter" "Method call cancelled" ins
  | None => ret []
  end.

(** [vscode.window.showInformationMessage], [showErrorMessage] and
    [vscode.commands.executeCommand] are called without [await]: what they
    resolve or reject with is dropped. *)
Definition showInformationMessage (text : string) : M unit :=
  emit (EvInformationMessage text).

Definition showErrorMessage (text : string) : M unit :=
  emit (EvErrorMessage text).

Definition executeCommand (command : string) (argument : JsValue) : M unit :=
  emit (EvExecuteCommand command argument).

(** *** deployContract, step by step *)

Record Compiled : Type := {
  abiJson : JsValue;
  abi : list AbiItem;
  bytecode : string
}.

(** The checks on the file, then step 1: compile through the backend.
    The ABI and the bytecode are read from the answer here; an answer of
    another shape than the data model's stops the run with a [TypeError]. *)
Definition compileStep (env : Env) (filePath : string) : M Compiled :=
  let* tr := get_trace in
  do* emit (EvFsExists filePath) in
  if negb (fs_existsSync env tr filePath)
  then throw (JsError ("File not found: " +:+ filePath)) else
  if negb (SolidityUtils.isSolidityFile env filePath)
  then throw (JsError "Only Solidity files can be deployed") else
  let* code := SolidityUtils.readFileSync env filePath in
  do* emit (EvWithProgress "Deploying smart contract...") in
  do* emit (EvProgress "Compiling contract...") in
  let* compilationResult := ApiService.compileContract env code None in
  match compilationResult with
  | JUndefined | JNull => throw (TypeError "Cannot read properties of undefined")
  | _ =>
    if negb (Js.truthy (Js.get_opt compilationResult "success"))
    then throw (JsError ("Compilation failed: "
                  +:+ js_toString env (Js.get_opt compilationResult "error")))
    else
      do* emit (EvProgress "Preparing deployment...") in
      let* items := decode_abi (Js.get_opt compilationResult "abi") in
      match Js.get_opt compilationResult "bytecode" with
      | JStr code =>
          ret {| abiJson := Js.get_opt compilationResult "abi";
                 abi := items; bytecode := code |}
      | _ => throw (TypeError "bytecode is not a string")
      end
  end.

(** Step 2: the constructor parameters, asked from the user. *)
Definition promptStep (env : Env) (c : Compiled) : M (list JsValue) :=
  getConstructorParams env (abi c).

(** Step 3: deploy through the blockchain wrapper. *)
Definition deployStep (env : Env) (c : Compiled) (constructorParams : list JsValue)
    : M string :=
  do* emit (EvProgress "Deploying to Hedera...") in
  Hedera.deployContract env (bytecode c) (JArr constructorParams).

(** Step 4: register the metadata through the blockchain wrapper. *)
Definition registerStep (env : Env) (filePath : string) (c : Compiled)
    (contract : string) : M unit :=
  do* emit (EvProgress "Registering contract...") in
  let* contractName := SolidityUtils.extractContractName env filePath in
  let registrationMetadata :=
    JObj [("name", JStr contractName); ("abi", abiJson c);
          ("bytecode", JStr (bytecode c))] in
  do* Hedera.registerContract env contract registrationMetadata in
  ret tt.

(** Step 5: the success message. *)
Definition notifyStep (contract : string) : M unit :=
  showInformationMessage
    ("Contract deployed successfully! Contract ID: " +:+ contract).

(** Step 6: the record for the transaction center. *)
Definition appendStep (env : Env) (c : Compiled) (contract : string) : M unit :=
  let* now := Hedera.Date_now env in
  executeCommand "hivemindTransactionCenter.addTransaction"
    (JObj [("id", JStr ("deploy-" +:+ JsString.of_Z now));
           ("type", JStr "CONTRACT_DEPLOY");
           ("timestamp", JInt now);
           ("status", JStr "SUCCESS");
           ("details",
            JObj [("contractId", JStr contract);
                  ("gas", JInt 500000);
                  ("bytecodeSize",
                   JNum (Qred (inject_Z (Z.of_nat (String.length (bytecode c))) / 2 - 1)))])]).

(** The [catch] block of [deployContract]. *)
Definition deployFailed (env : Env) (error : Thrown) : M JsValue :=
  do* emit (EvConsoleError "Failed to deploy contract:" error) in
  do* showErrorMessage ("Failed to deploy contract: " +:+ error_text env error) in
  throw error.

Definition deployContract (env : Env) (filePath : string) : M JsValue :=
  try_catch
    (let* c := compileStep env filePath in
     let* constructorParams := promptStep env c in
     let* contract := deployStep env c constructorParams in
     do* registerStep env filePath c contract in
     do* notifyStep contract in
     do* appendStep env c contract in
     ret (JObj [("contractId", JStr contract); ("success", JBool true)]))
    (deployFailed env).

(** *** callContractMethod *)

Definition readOnly (method : AbiItem) : bool :=
  strict_eq (stateMutability method) "view" || strict_eq (stateMutability method) "pure".

Definition callFailed (env : Env) (error : Thrown) : M SdkResponse :=
  do* emit (EvConsoleError "Failed to call contract method:" error) in
  do* showErrorMessage ("Failed to call contract method: " +:+ error_text env error) in
  throw error.

(** The two methods of the [hederaService] argument the call uses. *)
Record ContractService : Type := {
  svc_getContractInfo : string -> M JsValue;
  svc_callContractMethod : string -> string -> option JsValue -> Z -> M SdkResponse
}.

Definition hederaService (env : Env) : ContractService :=
  {| svc_getContractInfo := Hedera.getContractInfo env;
     svc_callContractMethod := Hedera.callContractMethod env |}.

(** The [try] block from the point where [getContractInfo] has answered. *)
Definition callWithInfo (env : Env) (svc : ContractService)
    (contract methodName : string) (contractInfo : JsValue) : M SdkResponse :=
  if negb (Js.truthy contractInfo) || negb (Js.truthy (Js.get_opt contractInfo "abi"))
  then throw (JsError ("Contract " +:+ contract +:+ " not found or ABI not available"))
  else
    let* items := decode_abi (Js.get_opt contractInfo "abi") in
    match List.find (fun item => strict_eq (itemType item) "function"
                                 && strict_eq (itemName item) methodName) items with
    | None => throw (JsError ("Method " +:+ methodName +:+ " not found in contract ABI"))
    | Some method =>
        let* params := getMethodParams env method in
        let isReadOnly := readOnly method in
        do* emit (EvWithProgress
                    ((if isReadOnly then "Calling" else "Executing")
                       +:+ " contract method...")) in
        let* result := svc_callContractMethod svc contract methodName None 100000 in
        do* showInformationMessage
              ("Contract method " +:+ methodName +:+ " "
                 +:+ (if isReadOnly then "called" else "executed") +:+ " successfully!") in
        do* (if isReadOnly then ret tt
             else
               let* now := Hedera.Date_now env in
               executeCommand "hivemindTransactionCenter.addTransaction"
                 (JObj [("id", JStr (transactionId result));
                        ("type", JStr "CONTRACT_CALL");
                        ("timestamp", JInt now);
                        ("status", JStr "SUCCESS");
                        ("details",
                         JObj [("contractId", JStr contract);
                               ("function", JStr methodName);
                               ("gas", gasUsed result)])])) in
        ret result
    end.

Definition callContractMethod (env : Env) (svc : ContractService)
    (contract methodName : string) : M SdkResponse :=
  try_catch
    (let* contractInfo := svc_getContractInfo svc contract in
     callWithInfo env svc contract methodName contractInfo)
    (callFailed env).

(** *** Reading a trace

    The step of the deployment an event belongs to, for the events that
    mark one. *)
Definition phase (ev : Event) : option nat :=
  match ev with
  | EvApiPost _ _ => Some 1%nat
  | EvInputBox _ _ => Some 2%nat
  | EvSdkExecute _ (FileCreateTransaction _) => Some 3%nat
  | EvSdkExecute _ (ContractCreateTransaction _ _ _ _) => Some 3%nat
  | EvSdkExecute _ (TopicMessageSubmitTransaction _ _) => Some 4%nat
  | EvInformationMessage _ => Some 5%nat
  | EvExecuteCommand _ _ => Some 6%nat
  | _ => None
  end.


(** Never going back to an earlier step, starting no earlier than [lo]. *)
Fixpoint ascending (lo : nat) (l : list nat) : Prop :=
  match l with
  | [] => True
  | n :: rest => (lo <= n)%nat /\ ascending n rest
  end.

(** A call to the backend or to the ledger. *)
Definition remote (ev : Event) : bool :=
  match ev with
  | EvApiPost _ _ | EvSdkExecute _ _ | EvSdkReceipt _ _ | EvSetOperator _ _ _
  | EvClientNew _ _ | EvClientClose _ => true
  | _ => false
  end.

(** [m] adds to the trace, and only events that satisfy [P]. *)
Definition emits {A : Type} (P : Event -> Prop) (m : M A) : Prop :=
  forall st, exists evs,
    trace (snd (m st)) = trace st ++ evs /\ Forall P evs.

(** An event of step [n], or one that marks no step. *)
Definition in_step (n : nat) (ev : Event) : Prop :=
  phase ev = None \/ phase ev = Some n.



Definition is_prompt (ev : Event) : Prop :=
  exists prompt placeHolder, ev = EvInputBox prompt placeHolder.

(** The state a [catch] block of the utilities leaves. *)
Definition reported (label prefix : string) (env : Env) (e : Thrown) (st : State) : State :=
  {| service := service st; clients := clients st;
     trace := trace st ++ [EvConsoleError label e;
                           EvErrorMessage (prefix +:+ error_text env e)] |}.

Definition deployReported (env : Env) (e : Thrown) (st : State) : State :=
  reported "Failed to deploy contract:" "Failed to deploy contract: " env e st.

Definition callReported (env : Env) (e : Thrown) (st : State) : State :=
  reported "Failed to call contract method:" "Failed to call contract method: " env e st.

End Deployment.

(** ** Sample surroundings, used to run the embedded code on examples *)

Module Sample.

Definition receipt : SdkReceipt :=
  {| topicId := Some "0.0.5001"; fileId := Some "0.0.6001";
     contractId := Some "0.0.7001" |}.

Definition sdk_response : SdkResponse :=
  {| transactionId := "0.0.2@1700000000.000000000"; hbars := Some "100 hbar";
     gasUsed := JInt 21000 |}.

(** An SDK that refuses an empty account id or key, and a user who
    answers no prompt. *)
Definition env : Env :=
  {| sdk_setOperator := fun _ _ acc key =>
       if JsString.eqb acc "" || JsString.eqb key "" then Some "failed to parse entity id"
       else None;
     sdk_validId := fun id => negb (JsString.eqb id "");
     sdk_execute := fun _ _ _ => SdkOk sdk_response;
     sdk_getReceipt := fun _ _ _ => SdkOk receipt;
     date_now := fun tr => 1700000000000;
     json_stringify := fun _ => "{}";
     json_parse := fun _ => None;
     js_toString := fun v => match v with JStr s => s | _ => "[object Object]" end;
     fs_existsSync := fun _ _ => true;
     fs_readFileSync := fun _ _ => Some "contract Token { }";
     path_extname := fun _ => ".sol";
     path_basename := fun p _ => p;
     axios_post := fun _ _ _ =>
       AxiosFail {| message := "Network Error"; response := None |};
     window_showInputBox := fun _ _ _ => None |}.

(** The same surroundings with another backend and another user. *)
Definition with_backend (e : Env)
    (backend : list Event -> string -> JsValue -> AxiosResult)
    (user : list Event -> string -> string -> option string) : Env :=
  {| sdk_setOperator := sdk_setOperator e;
     sdk_validId := sdk_validId e;
     sdk_execute := sdk_execute e;
     sdk_getReceipt := sdk_getReceipt e;
     date_now := date_now e;
     json_stringify := json_stringify e;
     json_parse := json_parse e;
     js_toString := js_toString e;
     fs_existsSync := fs_existsSync e;
     fs_readFileSync := fs_readFileSync e;
     path_extname := path_extname e;
     path_basename := path_basename e;
     axios_post := backend;
     window_showInputBox := user |}.

(** A backend that compiles every contract to the same output, with one
    constructor parameter. *)
Definition compiled : JsValue :=
  JObj [("success", JBool true);
        ("abi", JArr [JObj [("type", JStr "constructor");
                            ("inputs", JArr [JObj [("name", JStr "supply");
                                                   ("type", JStr "uint256")]])]]);
        ("bytecode", JStr "6080604052")].

Definition compiling (tr : list Event) (path : string) (body : JsValue) : AxiosResult :=
  AxiosOk {| status := 200; data := compiled |}.

Definition answering (tr : list Event) (prompt placeHolder : string) : option string :=
  Some "1000000".

Definition dismissing (tr : list Event) (prompt placeHolder : string) : option string :=
  None.

(** What [compileStep] makes of [compiled]. *)
Definition compiled_contract : Deployment.Compiled :=
  {| Deployment.abiJson :=
       JArr [JObj [("type", JStr "constructor");
                   ("inputs", JArr [JObj [("name", JStr "supply");
                                          ("type", JStr "uint256")]])]];
     Deployment.abi :=
       [{| Deployment.itemType := JStr "constructor";
           Deployment.itemName := JUndefined;
           Deployment.inputs :=
             Some [{| Deployment.inputName := JStr "supply";
                      Deployment.inputType := "uint256" |}];
           Deployment.stateMutability := JUndefined |}];
     Deployment.bytecode := "6080604052" |}.

(** A contract service that keeps the ABI with the contract info. *)
Definition registry (e : Env) : Deployment.ContractService :=
  {| Deployment.svc_getContractInfo := fun contract =>
       ret (JObj [("contractId", JStr contract);
                  ("abi", JArr [JObj [("type", JStr "function");
                                      ("name", JStr "mint");
                                      ("stateMutability", JStr "nonpayable");
                                      ("inputs", JArr [JObj [("name", JStr "amount");
                                                             ("type", JStr "uint256")]])]])]);
     Deployment.svc_callContractMethod := Hedera.callContractMethod e |}.

Definition start : State :=
  {| service := Hedera.initial; clients := []; trace := [] |}.

(** The state after a first, successful connection. *)
Definition online : State :=
  snd (Hedera.connect env "testnet" "0.0.2" "302e0201" start).

End Sample.

(** ** Notions the further properties are stated with *)

Module Session.

(** [m] leaves the fields of the service and the client objects alone. *)
Definition keeps_session {A : Type} (m : M A) : Prop :=
  forall st,
    service (snd (m st)) = service st /\ clients (snd (m st)) = clients st.

(** [m] always returns. *)
Definition never_throws {A : Type} (m : M A) : Prop :=
  forall st, exists a, fst (m st) = Ret a.

(** A request handed to the SDK. *)
Definition is_sdk_call (ev : Event) : bool :=
  match ev with
  | EvSdkExecute _ _ | EvSdkReceipt _ _ => true
  | _ => false
  end.

End Session.

(** ** views/AuditDashboard.ts, the rest of the provider *)

Module AuditDashboardMore.

Import AuditDashboard.

(** A severity the tree has a group for. *)
Definition recognised (v : Vulnerability) : bool :=
  existsb
    (fun sev => JsString.eqb (JsString.toLowerCase (severity v)) (JsString.toLowerCase sev))
    severities.

Definition getSeverityLevel (sev : string) : SolidityAudit.DiagnosticSeverity :=
  let s := JsString.toLowerCase sev in
  if JsString.eqb s "critical" then SolidityAudit.Error
  else if JsString.eqb s "high" then SolidityAudit.Error
  else if JsString.eqb s "medium" then SolidityAudit.Warning
  else if JsString.eqb s "low" then SolidityAudit.Information
  else SolidityAudit.Hint.

(** [!vuln.location?.file || vuln.location.line === undefined] *)
Definition skipped (v : Vulnerability) : bool :=
  match location v with
  | None => true
  | Some loc =>
      match file loc with
      | None => true
      | Some f => JsString.eqb f ""
      end
      || match line loc with None => true | Some _ => false end
  end.

Definition filePath (v : Vulnerability) : string :=
  match location v with
  | Some loc => default "" (file loc)
  | None => ""
  end.

(** [Math.max(0, (vuln.location.line || 1) - 1)] *)
Definition lineIndex (v : Vulnerability) : Z :=
  match location v with
  | Some loc =>
      match line loc with
      | Some n => Z.max 0 ((if n =? 0 then 1 else n) - 1)
      | None => 0
      end
  | None => 0
  end.

(** [vuln.location.column || 0] *)
Definition columnIndex (v : Vulnerability) : Z :=
  match location v with
  | Some loc => default 0 (column loc)
  | None => 0
  end.

(** The diagnostic of a vulnerability whose range the host accepts. *)
Definition plainDiagnostic (v : Vulnerability) : SolidityAudit.Diagnostic :=
  {| SolidityAudit.range :=
       SolidityAudit.newRange
         {| SolidityAudit.posLine := lineIndex v;
            SolidityAudit.character := columnIndex v |}
         {| SolidityAudit.posLine := lineIndex v;
            SolidityAudit.character := columnIndex v + 1 |};
     SolidityAudit.diagMessage :=
       default "undefined" (title v) +:+ ": " +:+ description v;
     SolidityAudit.diagSeverity := getSeverityLevel (severity v);
     SolidityAudit.source := "HiveMind Audit";
     SolidityAudit.code := id v;
     SolidityAudit.relatedInformation := [] |}.

(** [new vscode.Range(line, column, line, column + 1)]: the host checks
    the two positions. *)
Definition diagnosticOf (v : Vulnerability) : Outcome SolidityAudit.Diagnostic :=
  SolidityAudit.bindO (SolidityAudit.newPosition (lineIndex v) (columnIndex v)) (fun _ =>
  SolidityAudit.bindO (SolidityAudit.newPosition (lineIndex v) (columnIndex v + 1)) (fun _ =>
  Ret (plainDiagnostic v))).

(** The loop that fills [fileVulnerabilities]. *)
Fixpoint group (vulns : list Vulnerability) (acc : gmap string (list SolidityAudit.Diagnostic))
    : Outcome (gmap string (list SolidityAudit.Diagnostic)) :=
  match vulns with
  | [] => Ret acc
  | v :: rest =>
      if skipped v then group rest acc
      else
        match diagnosticOf v with
        | Throw e => Throw e
        | Ret d =>
            group rest
              (<[filePath v := default [] (acc !! filePath v) ++ [d]]> acc)
        end
  end.

(** [updateDiagnostics]: the collection is cleared, then set file by file. *)
Definition updateDiagnostics (vulns : list Vulnerability)
    (coll : gmap string (list SolidityAudit.Diagnostic))
    : Outcome unit * gmap string (list SolidityAudit.Diagnostic) :=
  match group vulns ∅ with
  | Ret byFile => (Ret tt, byFile)
  | Throw e => (Throw e, ∅)
  end.


End AuditDashboardMore.

(** ** views/TransactionCenter.ts, the tree *)

Module TransactionCenterView.

Import SolidityAudit.

Record Command : Type := {
  command : string;
  commandTitle : string;
  tooltip : option string;
  arguments : list JsValue
}.

(** The label of a transaction row is [tx.id], whatever the record holds. *)
Record TransactionTreeItem : Type := {
  label : JsValue;
  itemDescription : string;
  collapsibleState : AuditDashboard.TreeItemCollapsibleState;
  itemCommand : option Command;
  contextValue : option string;
  iconPath : option string
}.

Definition types : list string :=
  ["Contract Deployment"; "Contract Call"; "Topic Creation"; "Topic Message"].

Definition getTypeIcon (type : string) : string :=
  let s := JsString.toLowerCase type in
  if JsString.eqb s "contract deployment" then "rocket"
  else if JsString.eqb s "contract call" then "call-outgoing"
  else if JsString.eqb s "topic creation" then "add"
  else if JsString.eqb s "topic message" then "comment"
  else "history".

(** [v.toLowerCase()] on a value of a record: only a string has the method. *)
Definition toLowerCase (v : JsValue) : Outcome string :=
  match v with
  | JStr s => Ret (JsString.toLowerCase s)
  | JUndefined | JNull =>
      Throw (TypeError "Cannot read properties of undefined (reading 'toLowerCase')")
  | _ => Throw (TypeError "toLowerCase is not a function")
  end.

Definition getStatusIcon (status : JsValue) : Outcome string :=
  bindO (toLowerCase status) (fun s =>
  Ret (if JsString.eqb s "success" then "check"
       else if JsString.eqb s "pending" then "clock"
       else if JsString.eqb s "failed" then "error"
       else "question")).

(** [tx.k] for the keys read here ([id], [type], [timestamp], [status]):
    a [TypeError] on [null] and [undefined], the own property of an object,
    [undefined] on the other values. *)
Definition prop (tx : JsValue) (k : string) : Outcome JsValue :=
  match tx with
  | JUndefined | JNull => Throw (TypeError "Cannot read properties of undefined")
  | JObj fs => Ret (Js.assoc k fs)
  | _ => Ret JUndefined
  end.

(** [Array.prototype.filter] and [map] with a callback that may throw. *)
Fixpoint filterO {A : Type} (f : A -> Outcome bool) (l : list A) : Outcome (list A) :=
  match l with
  | [] => Ret []
  | x :: rest =>
      bindO (f x) (fun keep =>
      bindO (filterO f rest) (fun kept =>
      Ret (if keep then x :: kept else kept)))
  end.

Fixpoint mapO {A B : Type} (f : A -> Outcome B) (l : list A) : Outcome (list B) :=
  match l with
  | [] => Ret []
  | x :: rest =>
      bindO (f x) (fun y =>
      bindO (mapO f rest) (fun ys =>
      Ret (y :: ys)))
  end.

Definition notConnected : TransactionTreeItem :=
  {| label := JStr "Not Connected to Hedera";
     itemDescription := "Please connect to Hedera network to view transactions";
     collapsibleState := AuditDashboard.NoneState;
     itemCommand := Some {| command := "hivemind.connectHedera";
                            commandTitle := "Connect to Hedera";
                            tooltip := Some "Connect to Hedera network";
                            arguments := [] |};
     contextValue := None;
     iconPath := None |}.

Definition noTransactions : TransactionTreeItem :=
  {| label := JStr "No Transactions";
     itemDescription := "No transactions have been recorded yet";
     collapsibleState := AuditDashboard.NoneState;
     itemCommand := None;
     contextValue := None;
     iconPath := None |}.

(** [tx => tx.type === type] *)
Definition hasType (type : string) (tx : JsValue) : Outcome bool :=
  bindO (prop tx "type") (fun t => Ret (Deployment.strict_eq t type)).

(** [tx => tx.type.toLowerCase() === type.toLowerCase()] *)
Definition hasTypeAnyCase (type : string) (tx : JsValue) : Outcome bool :=
  bindO (prop tx "type") (fun t =>
  bindO (toLowerCase t) (fun s =>
  Ret (JsString.eqb s (JsString.toLowerCase type)))).

(** One entry of the root-level [map]: [null] for a type without records. *)
Definition typeGroup (transactions : list JsValue) (type : string)
    : Outcome (option TransactionTreeItem) :=
  bindO (filterO (hasType type) transactions) (fun txsForType =>
  if (length txsForType =? 0)%nat then Ret None
  else Ret (Some
    {| label := JStr (type +:+ " (" +:+ JsString.of_nat (length txsForType) +:+ ")");
       itemDescription :=
         JsString.of_nat (length txsForType) +:+ " " +:+ JsString.toLowerCase type
           +:+ " transactions";
       collapsibleState := AuditDashboard.Collapsed;
       itemCommand := None;
       contextValue :=
         Some ("type-" +:+ JsString.replace_first (JsString.toLowerCase type) " " "-");
       iconPath := Some (getTypeIcon type) |})).

(** One row of a group.  [toLocaleString] renders
    [new Date(tx.timestamp).toLocaleString()], which depends on the locale
    of the machine. *)
Definition transactionItem (env : Env) (toLocaleString : JsValue -> string)
    (tx : JsValue) : Outcome TransactionTreeItem :=
  bindO (prop tx "id") (fun txId =>
  bindO (prop tx "timestamp") (fun timestamp =>
  bindO (prop tx "status") (fun status =>
  bindO (getStatusIcon status) (fun icon =>
  Ret {| label := txId;
         itemDescription := toLocaleString timestamp +:+ " - " +:+ js_toString env status;
         collapsibleState := AuditDashboard.NoneState;
         itemCommand := Some {| command := "hivemind.showTransaction";
                                commandTitle := "Show Transaction";
                                tooltip := None;
                                arguments := [txId] |};
         contextValue := Some "transaction";
         iconPath := Some icon |})))).

Definition is_type_context (c : option string) : bool :=
  match c with
  | Some v => JsString.startsWith v "type-"
  | None => false
  end.

(** [element.contextValue.replace('type-', '').replace('-', ' ')] *)
Definition typeOfContext (c : string) : string :=
  JsString.replace_first (JsString.replace_first c "type-" "") "-" " ".

Definition getChildren (env : Env) (toLocaleString : JsValue -> string)
    (isConnected : bool) (transactions : list JsValue)
    (element : option TransactionTreeItem) : Outcome (list TransactionTreeItem) :=
  if negb isConnected then Ret [notConnected]
  else if (length transactions =? 0)%nat then Ret [noTransactions]
  else
    match element with
    | None =>
        bindO (mapO (typeGroup transactions) types) (fun groups =>
        Ret (omap (fun g => g) groups))
    | Some el =>
        if is_type_context (contextValue el) then
          let type := typeOfContext (default "" (contextValue el)) in
          bindO (filterO (hasTypeAnyCase type) transactions) (fun txsForType =>
          mapO (transactionItem env toLocaleString) txsForType)
        else Ret []
    end.

(** What the two filters select on records that are objects. *)
Definition isRecord (tx : JsValue) : bool :=
  match tx with JObj _ => true | _ => false end.

Definition exactly (type : string) (tx : JsValue) : bool :=
  Deployment.strict_eq (Js.get_opt tx "type") type.

Definition inAnyCase (type : string) (tx : JsValue) : bool :=
  match Js.get_opt tx "type" with
  | JStr s => JsString.eqb (JsString.toLowerCase s) (JsString.toLowerCase type)
  | _ => false
  end.

Definition stringAt (k : string) (tx : JsValue) : bool :=
  Js.is_string (Js.get_opt tx k).

(** [entry] is what the root holds for [type]: nothing when no record has
    exactly that type, otherwise a group labelled with the type and the
    number of such records. *)
Definition groupEntry (transactions : list JsValue) (type : string)
    (entry : option TransactionTreeItem) : Prop :=
  match entry with
  | None => List.filter (exactly type) transactions = []
  | Some g =>
      List.filter (exactly type) transactions <> []
      /\ label g
         = JStr (type +:+ " ("
                 +:+ JsString.of_nat (length (List.filter (exactly type) transactions))
                 +:+ ")")
      /\ contextValue g
         = Some ("type-" +:+ JsString.replace_first (JsString.toLowerCase type) " " "-")
  end.

(** The call ends in a [TypeError] of the runtime. *)
Definition typeError {A : Type} (o : Outcome A) : Prop :=
  exists msg, o = Throw (TypeError msg).

End TransactionCenterView.

(** ** services/solidityAuditProvider.ts, the lines a location names *)

Module SolidityAuditLines.

Import Regex SolidityAudit.

(** [parseInt(lineMatch[1]) - 1] *)
Definition startLine (caps : Captures) : Z :=
  parseInt (default "" (caps !! 1%nat)) - 1.

(** [lineMatch[2] ? parseInt(lineMatch[2]) - 1 : startLine] *)
Definition endLine (caps : Captures) : Z :=
  match caps !! 2%nat with
  | Some g2 => if JsString.eqb g2 "" then startLine caps else parseInt g2 - 1
  | None => startLine caps
  end.

(** Both lines exist in the document. *)
Definition inDocument (document : TextDocument) (caps : Captures) : bool :=
  (0 <=? startLine caps) && (0 <=? endLine caps)
  && (endLine caps <? Z.of_nat (length (lines document))).

(** The captures of a location, when it is a string the pattern matches. *)
Definition capturesOf (loc : JsValue) : option Captures :=
  match loc with
  | JStr s => exec lineRegex s
  | _ => None
  end.


End SolidityAuditLines.

(** ** components/auditDashboardPanel.ts, the summary counters *)

Module AuditSummary.

Import Panels.

(** The vulnerabilities whose severity, in lower case, is [key]. *)
Definition countOf (key : string) (vulns : list SolidityAudit.Vulnerability) : nat :=
  length
    (List.filter
       (fun v => JsString.eqb (JsString.toLowerCase (SolidityAudit.severity v)) key)
       vulns).

Definition total (c : SeverityCounts) : nat :=
  (critical c + high c + medium c + low c + info c)%nat.

End AuditSummary.

(** ** Sample surroundings with another file system *)

Module SampleFiles.

Definition with_files (e : Env)
    (existsSync : list Event -> string -> bool) (extname : string -> string) : Env :=
  {| sdk_setOperator := sdk_setOperator e;
     sdk_validId := sdk_validId e;
     sdk_execute := sdk_execute e;
     sdk_getReceipt := sdk_getReceipt e;
     date_now := date_now e;
     json_stringify := json_stringify e;
     json_parse := json_parse e;
     js_toString := js_toString e;
     fs_existsSync := existsSync;
     fs_readFileSync := fs_readFileSync e;
     path_extname := extname;
     path_basename := path_basename e;
     axios_post := axios_post e;
     window_showInputBox := window_showInputBox e |}.

(** A workspace whose only file is a text file. *)
Definition notes : Env :=
  with_files Sample.env
    (fun _ p => JsString.eqb p "notes.txt")
    (fun p => if JsString.endsWith p ".txt" then ".txt" else ".sol").

End SampleFiles.

(** ** components/transactionCenterProvider.ts

    The provider the extension registers: a flat list of transactions,
    kept newest first.  A [Date] is kept as its time in milliseconds. *)

Module TransactionList.

Import SolidityAudit TransactionCenterView.

Record TransactionTreeItem : Type := {
  label : string;
  transactionId : JsValue;
  type : JsValue;
  timestamp : JsValue;
  status : JsValue;
  tooltip : string;
  description : string;
  contextValue : string;
  iconPath : string
}.

(** A value inside a template literal: a string stands for itself. *)
Definition template (env : Env) (v : JsValue) : string :=
  match v with
  | JStr s => s
  | _ => js_toString env v
  end.

(** [`${transaction.details.k}`] *)
Definition detail (env : Env) (transaction : JsValue) (k : string) : Outcome string :=
  bindO (prop transaction "details") (fun details =>
  bindO (prop details k) (fun v =>
  Ret (template env v))).

Definition getTransactionLabel (env : Env) (transaction : JsValue) : Outcome string :=
  bindO (prop transaction "type") (fun ty =>
  bindO (toLowerCase ty) (fun t =>
  if JsString.eqb t "contract_deploy" then
    bindO (detail env transaction "contractId") (fun contract =>
    Ret ("Deploy Contract " +:+ contract))
  else if JsString.eqb t "contract_call" then
    bindO (detail env transaction "function") (fun method =>
    bindO (detail env transaction "contractId") (fun contract =>
    Ret ("Call " +:+ method +:+ "() on " +:+ contract)))
  else if JsString.eqb t "topic_create" then
    bindO (detail env transaction "topicId") (fun topic =>
    Ret ("Create Topic " +:+ topic))
  else if JsString.eqb t "topic_message" then
    bindO (detail env transaction "topicId") (fun topic =>
    Ret ("Message to Topic " +:+ topic))
  else
    bindO (prop transaction "id") (fun txId =>
    Ret ("Transaction " +:+ template env txId)))).

(** The constructor of [TransactionTreeItem]. *)
Definition newItem (env : Env) (toLocaleString : JsValue -> string)
    (itemLabel : string) (txId ty time st : JsValue) : Outcome TransactionTreeItem :=
  bindO (toLowerCase ty) (fun t =>
  Ret {| label := itemLabel;
         transactionId := txId;
         type := ty;
         timestamp := time;
         status := st;
         tooltip := template env ty +:+ " - " +:+ template env txId;
         description := toLocaleString time;
         contextValue := "transaction";
         iconPath :=
           if JsString.eqb t "contract_deploy" then "rocket"
           else if JsString.eqb t "contract_call" then "play"
           else if JsString.eqb t "topic_create" then "symbol-event"
           else if JsString.eqb t "topic_message" then "comment"
           else "arrow-both" |}).

(** The callback of [this.transactions.map]. *)
Definition transactionItem (env : Env) (toLocaleString : JsValue -> string)
    (tx : JsValue) : Outcome TransactionTreeItem :=
  bindO (getTransactionLabel env tx) (fun itemLabel =>
  bindO (prop tx "id") (fun txId =>
  bindO (prop tx "type") (fun ty =>
  bindO (prop tx "timestamp") (fun time =>
  bindO (prop tx "status") (fun st =>
  newItem env toLocaleString itemLabel txId ty time st))))).

(** The demonstration records, made at time [now]. *)
Definition mockTransactions (now : Z) : list JsValue :=
  [JObj [("id", JStr "0.0.12345@1626282282.000000000");
         ("type", JStr "CONTRACT_DEPLOY");
         ("timestamp", JInt now);
         ("status", JStr "SUCCESS");
         ("details", JObj [("contractId", JStr "0.0.12345");
                           ("gas", JInt 500000);
                           ("bytecodeSize", JInt 4096)])];
   JObj [("id", JStr "0.0.12345@1626282283.000000000");
         ("type", JStr "CONTRACT_CALL");
         ("timestamp", JInt (now - 3600000));
         ("status", JStr "SUCCESS");
         ("details", JObj [("contractId", JStr "0.0.12345");
                           ("function", JStr "transfer");
                           ("gas", JInt 100000)])];
   JObj [("id", JStr "0.0.12345@1626282284.000000000");
         ("type", JStr "TOPIC_CREATE");
         ("timestamp", JInt (now - 86400000));
         ("status", JStr "SUCCESS");
         ("details", JObj [("topicId", JStr "0.0.56789");
                           ("memo", JStr "Agent Collaboration")])]].

(** What a call of [getChildren] gives: the rows, the records the provider
    holds afterwards, and what the call logs and shows. *)
Record Rendered : Type := {
  rows : list TransactionTreeItem;
  held : list JsValue;
  reported : list Event
}.

(** [getChildren]: [element] tells whether a row was passed, [tr] is the
    trace at the call, which the clock is read against. *)
Definition getChildren (env : Env) (toLocaleString : JsValue -> string)
    (element : bool) (isConnected : bool) (tr : list Event)
    (transactions : list JsValue) : Rendered :=
  if element then {| rows := []; held := transactions; reported := [] |}
  else if negb isConnected then {| rows := []; held := transactions; reported := [] |}
  else
    let transactions1 :=
      if (length transactions =? 0)%nat then mockTransactions (date_now env tr)
      else transactions in
    match mapO (transactionItem env toLocaleString) transactions1 with
    | Ret items => {| rows := items; held := transactions1; reported := [] |}
    | Throw error =>
        {| rows := []; held := transactions1;
           reported :=
             [EvConsoleError "Failed to get transactions:" error;
              EvErrorMessage
                ("Failed to get transactions: " +:+ Deployment.error_text env error)] |}
    end.

(** [addTransaction] *)
Definition addTransaction (transaction : JsValue) (transactions : list JsValue)
    : list JsValue :=
  transaction :: transactions.

(** The call returns, or ends in a [TypeError] of the runtime. *)
Definition returnsOrTypeError {A : Type} (o : Outcome A) : Prop :=
  (exists a, o = Ret a) \/ typeError o.

End TransactionList.

(** ** utils/solidityUtils.ts, the formatter *)

Module SolidityFormat.

(** The line feed. *)
Definition nl : ascii := ascii_of_nat 10.

(** [code.split('\n')]: one more piece than there are line feeds. *)
Fixpoint split_lines (s : string) : list string :=
  match s with
  | EmptyString => [EmptyString]
  | String c rest =>
      if Ascii.eqb c nl then EmptyString :: split_lines rest
      else match split_lines rest with
           | l :: ls => String c l :: ls
           | [] => [String c EmptyString]
           end
  end.

(** The white space [trim] strips, among the code units below 256: tab,
    line feed, vertical tab, form feed, carriage return, space and the
    no-break space. *)
Definition isWhite (c : ascii) : bool :=
  let n := JsString.code c in
  (((9 <=? n) && (n <=? 13)) || (n =? 32) || (n =? 160))%N.

Fixpoint trimStart (s : string) : string :=
  match s with
  | EmptyString => EmptyString
  | String c r => if isWhite c then trimStart r else s
  end.

Fixpoint trimEnd (s : string) : string :=
  match s with
  | EmptyString => EmptyString
  | String c r =>
      match trimEnd r with
      | EmptyString => if isWhite c then EmptyString else String c EmptyString
      | r' => String c r'
      end
  end.

Definition trim (s : string) : string := trimEnd (trimStart s).

(** [s.repeat(n)] *)
Fixpoint repeat_string (s : string) (n : nat) : string :=
  match n with
  | O => EmptyString
  | S n' => s +:+ repeat_string s n'
  end.

(** The level a line is printed at: one less, but not below zero, when it
    starts with a closing brace. *)
Definition levelOf (trimmedLine : string) (indentLevel : nat) : nat :=
  if JsString.startsWith trimmedLine "}" then Nat.pred indentLevel else indentLevel.

(** The level after a line: one more when it ends with an opening brace. *)
Definition levelAfter (trimmedLine : string) (indentLevel : nat) : nat :=
  if JsString.endsWith trimmedLine "{" then S (levelOf trimmedLine indentLevel)
  else levelOf trimmedLine indentLevel.

Definition formatLine (line : string) (indentLevel : nat) : string :=
  repeat_string "    " (levelOf (trim line) indentLevel) +:+ trim line.

(** The loop over the lines, from indentation level [indentLevel]. *)
Fixpoint formatLines (lines : list string) (indentLevel : nat) : string :=
  match lines with
  | [] => EmptyString
  | line :: rest =>
      formatLine line indentLevel +:+ String nl EmptyString
        +:+ formatLines rest (levelAfter (trim line) indentLevel)
  end.

Definition formatSolidityCode (code : string) : string :=
  formatLines (split_lines code) 0.

(** A string without a line feed. *)
Fixpoint oneLine (s : string) : bool :=
  match s with
  | EmptyString => true
  | String c r => negb (Ascii.eqb c nl) && oneLine r
  end.

(** No white space at either end. *)
Definition trimmed (s : string) : Prop := trim s = s.

End SolidityFormat.

(** ** The security utilities: the nonce of the content security policy *)

Module Nonce.

(** One digit of [toString(16)]: [0-9], then [a-f]. *)
Definition hexDigit (d : N) : ascii :=
  if (d <? 10)%N then ascii_of_N (48 + d) else ascii_of_N (87 + d).

(** [n.toString(16)] on a natural number, last digit first; a number has
    no more hexadecimal digits than binary ones. *)
Fixpoint toString16_go (fuel : nat) (n : N) (acc : string) : string :=
  match fuel with
  | O => acc
  | S fuel' =>
      let acc' := String (hexDigit (n mod 16)) acc in
      if (n / 16 =? 0)%N then acc' else toString16_go fuel' (n / 16) acc'
  end.

Definition toString16 (n : N) : string :=
  toString16_go (S (N.size_nat n)) n EmptyString.

(** [s.padStart(n, c)] with a one-character filler. *)
Fixpoint fill (c : ascii) (n : nat) (s : string) : string :=
  match n with
  | O => s
  | S n' => String c (fill c n' s)
  end.

Definition padStart (n : nat) (c : ascii) (s : string) : string :=
  fill c (n - String.length s) s.

(** [byte => byte.toString(16).padStart(2, '0')] *)
Definition hexByte (b : Byte.byte) : string :=
  padStart 2 "0" (toString16 (Byte.to_N b)).

(** [getNonce]: [random i] is the byte [crypto.getRandomValues] puts at
    index [i] of the array of sixteen. *)
Definition getNonce (random : nat -> Byte.byte) : string :=
  String.concat "" (hexByte <$> (random <$> seq 0 16)).

Definition isLowerHex (c : ascii) : bool :=
  let n := N_of_ascii c in
  (((48 <=? n) && (n <=? 57)) || ((97 <=? n) && (n <=? 102)))%N.

Fixpoint allChars (p : ascii -> bool) (s : string) : bool :=
  match s with
  | EmptyString => true
  | String c r => p c && allChars p r
  end.

End Nonce.

(** * Properties *)

Ltac unfold_M :=
  unfold fmap_M, lift_sdk, bind, ret, throw, try_catch, emit, get_trace, this,
    modify_this, get_clients, set_clients in *.

Ltac case_oracle :=
  match goal with
  | |- context [sdk_execute ?e ?t ?h ?r] => destruct (sdk_execute e t h r)
  | |- context [sdk_getReceipt ?e ?t ?h ?r] => destruct (sdk_getReceipt e t h r)
  | |- context [sdk_validId ?e ?i] => destruct (sdk_validId e i)
  | |- context [sdk_setOperator ?e ?t ?h ?a ?k] => destruct (sdk_setOperator e t h a k)
  | |- context [topicId ?r] => destruct (topicId r)
  | |- context [fileId ?r] => destruct (fileId r)
  | |- context [contractId ?r] => destruct (contractId r)
  | |- context [hbars ?r] => destruct (hbars r)
  | |- context [Js.truthy ?v] => destruct (Js.truthy v)
  end.

(** Runs the embedded code forward on a state whose handle is known. *)
Ltac run_with Hc :=
  repeat (progress (try rewrite Hc; simpl; try case_oracle; simpl)).

Section HederaProperties.

Variable env : Env.

Import Hedera.

Lemma valid_network_false (net : string) :
  net <> "testnet" -> net <> "mainnet" ->
  JsString.eqb net "testnet" = false /\ JsString.eqb net "mainnet" = false.
Proof.
  intros H1 H2. unfold JsString.eqb. split; apply String.eqb_neq; assumption.
Qed.

Lemma set_connected_false_id (s : HederaService) :
  connected s = false -> set_connected false s = s.
Proof. destruct s; simpl; intros ->; reflexivity. Qed.

(** A connect that names no known network: the error, and the state it
    leaves, whatever the state before. *)
Lemma connect_invalid (net acc key : string) (st : State) :
  net <> "testnet" -> net <> "mainnet" ->
  connect env net acc key st =
    (Throw (JsError ("Invalid network: " +:+ net)),
     {| service := set_connected false (service st);
        clients := clients st;
        trace := trace st ++
          [EvConsoleError "Failed to connect to Hedera:"
             (JsError ("Invalid network: " +:+ net))] |}).
Proof.
  intros H1 H2. destruct (valid_network_false net H1 H2) as [E1 E2].
  unfold connect, console_error. rewrite E1, E2. unfold_M. reflexivity.
Qed.

(** C1: [connect] with a network other than testnet and mainnet throws, and
    from the Disconnected state it changes no field of the service: the
    client stays null, the credentials and the network stay as they were and
    [isConnected()] is still false. *)
Theorem C1_connect_invalid_network (net acc key : string) (st : State) :
  net <> "testnet" -> net <> "mainnet" ->
  fst (connect env net acc key st) = Throw (JsError ("Invalid network: " +:+ net))
  /\ (disconnected (service st) ->
      let st' := snd (connect env net acc key st) in
      service st' = service st
      /\ clients st' = clients st
      /\ client (service st') = None
      /\ isConnected (service st') = false).
Proof.
  intros H1 H2. rewrite (connect_invalid net acc key st H1 H2). simpl.
  split; [reflexivity|]. intros [Hc Hn].
  rewrite (set_connected_false_id _ Hn).
  repeat split; try assumption.
  unfold isConnected. rewrite Hn. reflexivity.
Qed.






(** What a [connect] that returns has done. *)
Lemma connect_returns (net acc key : string) (st st1 : State) (b : bool) :
  connect env net acc key st = (Ret b, st1) ->
  let h := length (clients st) in
  client (service st1) = Some h
  /\ connected (service st1) = true
  /\ accountId (service st1) = Some acc
  /\ clients st1 !! h =
       Some {| clientNetwork := net; operator := Some (acc, key); closed := false |}.
Proof.
  unfold connect, Client_for, Client_setOperator, console_error, JsString.eqb.
  unfold_M. simpl.
  destruct (String.eqb net "testnet") eqn:E1;
    [apply String.eqb_eq in E1 |
     destruct (String.eqb net "mainnet") eqn:E2;
       [apply String.eqb_eq in E2 |]]; simpl;
    try (destruct (sdk_setOperator env _ _ acc key)); simpl;
    intros H; inversion H; subst; simpl;
    (repeat split; try reflexivity);
    rewrite list_lookup_alter_eq, lookup_app_r by lia;
    rewrite Nat.sub_diag; reflexivity.
Qed.

Lemma run_op_past_guard (op : Operation) (st : State) (h : nat) :
  client (service st) = Some h ->
  handle_only op = true ->
  fst (run_op env op st) <> Throw not_connected.
Proof.
  intros Hc Ho.
  destruct op; try discriminate Ho; simpl;
    unfold createTopic, submitMessage, callContractMethod, deployContract,
      registerContract, submitMessage, getContractInfo, getDeployedContracts,
      useAgent, getAgents, Date_now, execute, getReceipt, fromString,
      non_null, console_error, no_client;
    unfold_M; run_with Hc; discriminate.
Qed.

(** C10: after a successful [connect], a [connect] naming an unknown
    network throws and leaves the earlier client handle in place, neither
    closed nor cleared; [isConnected()] is then false, yet no operation
    guarded by the handle alone raises "Not connected to Hedera", and
    createTopic, submitMessage and deployContract go to the SDK with the
    stale handle. *)
Theorem C10_stale_handle_after_failed_reconnect
    (net acc key net' acc' key' : string) (st st1 : State) :
  connect env net acc key st = (Ret true, st1) ->
  net' <> "testnet" -> net' <> "mainnet" ->
  let st2 := snd (connect env net' acc' key' st1) in
  exists h : nat,
    client (service st1) = Some h
    /\ client (service st2) = Some h
    /\ clients st2 = clients st1
    /\ closed <$> (clients st2 !! h) = Some false
    /\ trace st2 = trace st1 ++
         [EvConsoleError "Failed to connect to Hedera:"
            (JsError ("Invalid network: " +:+ net'))]
    /\ isConnected (service st2) = false
    /\ (forall op, handle_only op = true ->
          fst (run_op env op st2) <> Throw not_connected)
    /\ (forall memo, exists rest,
          trace (snd (createTopic env memo st2)) =
            trace st2 ++ EvSdkExecute h (TopicCreateTransaction memo) :: rest)
    /\ (forall topic message, sdk_validId env topic = true -> exists rest,
          trace (snd (submitMessage env topic message st2)) =
            trace st2 ++
              EvSdkExecute h (TopicMessageSubmitTransaction topic
                                (json_stringify env message)) :: rest)
    /\ (forall bytecode params, exists rest,
          trace (snd (deployContract env bytecode params st2)) =
            trace st2 ++ EvSdkExecute h (FileCreateTransaction bytecode) :: rest).
Proof.
  intros Hok H1 H2 st2.
  destruct (connect_returns _ _ _ _ _ _ Hok) as (Hc & Hn & Ha & Hl).
  exists (length (clients st)).
  subst st2. rewrite (connect_invalid net' acc' key' st1 H1 H2). simpl.
  split; [exact Hc|]. split; [exact Hc|]. split; [reflexivity|].
  split; [rewrite Hl; reflexivity|]. split; [reflexivity|].
  split; [unfold isConnected; reflexivity|].
  split; [intros op Ho; eapply run_op_past_guard; [simpl; exact Hc | exact Ho]|].
  split; [|split].
  - intros memo.
    unfold createTopic, execute, getReceipt, non_null, console_error, no_client.
    unfold_M. run_with Hc; eexists; rewrite <- !app_assoc; simpl; reflexivity.
  - intros topic message Hv.
    unfold submitMessage, fromString, execute, getReceipt, console_error, no_client.
    unfold_M. simpl. rewrite Hc. simpl. rewrite Hv.
    run_with Hc; eexists; rewrite <- !app_assoc; simpl; reflexivity.
  - intros bytecode params.
    unfold deployContract, execute, getReceipt, non_null, console_error, no_client.
    unfold_M. run_with Hc; eexists; rewrite <- !app_assoc; simpl; reflexivity.
Qed.

End HederaProperties.

Section HederaExamples.

Import Hedera.

Lemma C1_witness :
  let r := connect Sample.env "previewnet" "0.0.2" "302e0201" Sample.start in
  fst r = Throw (JsError "Invalid network: previewnet")
  /\ service (snd r) = service Sample.start
  /\ clients (snd r) = clients Sample.start
  /\ client (service (snd r)) = None
  /\ isConnected (service (snd r)) = false.
Proof.
  destruct (C1_connect_invalid_network Sample.env "previewnet" "0.0.2"
              "302e0201" Sample.start) as [Hthrow Hstate];
    [discriminate | discriminate |].
  split; [exact Hthrow|].
  apply Hstate. split; reflexivity.
Defined.



Lemma C10_witness :
  let st2 := snd (connect Sample.env "previewnet" "0.0.9" "302e0209" Sample.online) in
  exists h : nat,
    client (service Sample.online) = Some h
    /\ client (service st2) = Some h
    /\ closed <$> (clients st2 !! h) = Some false
    /\ isConnected (service st2) = false
    /\ fst (run_op Sample.env (OpCreateTopic "audit-log") st2)
         <> Throw not_connected.
Proof.
  destruct (C10_stale_handle_after_failed_reconnect Sample.env
              "testnet" "0.0.2" "302e0201" "previewnet" "0.0.9" "302e0209"
              Sample.start Sample.online)
    as (h & H1 & H2 & _ & H4 & _ & H6 & H7 & _);
    [reflexivity | discriminate | discriminate |].
  exists h. repeat split; try assumption.
  apply H7. reflexivity.
Defined.

End HederaExamples.

Section ApiServiceProperties.

Import ApiService.

(** C7 as worded fails on a validation error whose [detail] is a list:
    the rejection value is that list, not a string; and an empty [detail]
    string, though present, gives way to the error message. *)
Lemma C7_counterexample :
  let validation :=
    {| message := "Request failed with status code 422";
       response := Some {| status := 422;
                           data := JObj [("detail",
                                    JArr [JObj [("loc", JArr [JStr "body"; JStr "code"]);
                                                ("msg", JStr "field required")]])] |} |} in
  let blank :=
    {| message := "Request failed with status code 500";
       response := Some {| status := 500; data := JObj [("detail", JStr "")] |} |} in
  Js.is_string (rejection validation) = false
  /\ rejection validation = detail_of validation
  /\ detail_of blank = JStr ""
  /\ rejection blank = JStr "Request failed with status code 500".
Proof. repeat split. Qed.

(** C7, as the code has it: a failed request is rejected with the response
    body's [detail] when that field is truthy, whatever its type; otherwise
    with the error's message when it is not empty; otherwise with "Unknown
    error".  The value is a string whenever [detail] is a string or falsy. *)
Theorem C7_rejection_value (env : Env) (path : string) (body : JsValue)
    (st : State) (error : AxiosError) :
  axios_post env (trace st) path body = AxiosFail error ->
  fst (post env path body st) = Throw (Rejected (rejection error))
  /\ (Js.truthy (detail_of error) = true -> rejection error = detail_of error)
  /\ (Js.truthy (detail_of error) = false -> message error <> "" ->
       rejection error = JStr (message error))
  /\ (Js.truthy (detail_of error) = false -> message error = "" ->
       rejection error = JStr "Unknown error")
  /\ (Js.is_string (detail_of error) = true \/ Js.truthy (detail_of error) = false ->
       Js.is_string (rejection error) = true).
Proof.
  intros Hfail. unfold post. unfold_M. simpl. rewrite Hfail. simpl.
  split; [reflexivity|].
  unfold rejection, Js.or.
  destruct (Js.truthy (detail_of error)) eqn:Ht; simpl.
  - repeat split; try discriminate.
    intros [Hs | Hf]; [exact Hs | discriminate Hf].
  - unfold JsString.eqb.
    destruct (String.eqb (message error) "") eqn:Em; simpl.
    + apply String.eqb_eq in Em.
      repeat split; try discriminate; try reflexivity.
      intros _ Hne. contradiction.
    + apply String.eqb_neq in Em.
      repeat split; try discriminate; try reflexivity.
      intros _ He. contradiction.
Qed.

Lemma C7_witness :
  let error :=
    {| message := "Request failed with status code 400";
       response := Some {| status := 400;
                           data := JObj [("detail", JStr "contract_name is required")] |} |} in
  let env :=
    Sample.with_backend Sample.env (fun _ _ _ => AxiosFail error)
      (fun _ _ _ => None) in
  fst (post env "/api/v1/compile" (JObj []) Sample.start)
    = Throw (Rejected (JStr "contract_name is required")).
Proof.
  intros error env.
  destruct (C7_rejection_value env "/api/v1/compile" (JObj []) Sample.start error)
    as [H _]; [reflexivity | exact H].
Defined.

End ApiServiceProperties.

Section TransactionCenterProperties.

Import TransactionCenter.

(** C8: [addTransaction] puts the new transaction at index 0 and leaves
    the earlier ones in their order, each one index further. *)
Theorem C8_addTransaction_front (transaction : JsValue) (p : TransactionCenterProvider) :
  let p' := addTransaction transaction p in
  transactions p' = transaction :: transactions p
  /\ transactions p' !! 0%nat = Some transaction
  /\ (forall i : nat, transactions p' !! S i = transactions p !! i)
  /\ length (transactions p') = S (length (transactions p))
  /\ fired p' = S (fired p).
Proof.
  unfold addTransaction, refresh, unshift, fire. simpl.
  repeat split.
Qed.

End TransactionCenterProperties.

Section AuditDashboardProperties.

Import AuditDashboard.

(** What one entry of the root-level map is, by the number of matches. *)
Lemma severityGroup_cases (vulns : list Vulnerability) (sev : string) :
  let n := length (vulnsForSeverity vulns sev) in
  match severityGroup vulns sev with
  | None => n = 0%nat
  | Some g =>
      n <> 0%nat
      /\ label g = sev +:+ " (" +:+ JsString.of_nat n +:+ ")"
      /\ contextValue g = Some ("severity-" +:+ JsString.toLowerCase sev)
  end.
Proof.
  unfold severityGroup. simpl.
  destruct (Nat.eqb_spec (length (vulnsForSeverity vulns sev)) 0) as [E|E].
  - exact E.
  - simpl. auto.
Qed.

Lemma severity_names_lower :
  JsString.toLowerCase "Critical" = "critical"
  /\ JsString.toLowerCase "High" = "high"
  /\ JsString.toLowerCase "Medium" = "medium"
  /\ JsString.toLowerCase "Low" = "low"
  /\ JsString.toLowerCase "Informational" = "informational".
Proof. vm_compute. repeat split. Qed.

Ltac lower_names :=
  destruct severity_names_lower as (Lc & Lh & Lm & Ll & Li).

Ltac group_cases vulns sev :=
  let H := fresh "H" in
  pose proof (severityGroup_cases vulns sev) as H; cbv zeta in H;
  destruct (severityGroup vulns sev) as [?g|];
  [destruct H as (? & ? & H) | ].

Lemma root_of_nonempty (v : Vulnerability) (vs : list Vulnerability) :
  getChildren (v :: vs) None = omap (severityGroup (v :: vs)) severities.
Proof. reflexivity. Qed.

(** C5: at the root, each of the five severities with at least one
    vulnerability has exactly one group, labelled "<Severity> (<count>)",
    a severity without vulnerabilities has none, and (once the list is not
    empty, where the root is a lone placeholder) nothing else is shown; a list
    of one High and one Medium vulnerability gives "High (1)" and
    "Medium (1)" and no more. *)
Theorem C5_root_severity_groups (vulns : list Vulnerability) :
  let root := getChildren vulns None in
  (forall sev, In sev severities ->
     let n := length (vulnsForSeverity vulns sev) in
     (n = 0%nat -> groupsFor sev root = [])
     /\ (n <> 0%nat -> exists g,
           groupsFor sev root = [g]
           /\ label g = sev +:+ " (" +:+ JsString.of_nat n +:+ ")"))
  /\ (vulns <> [] ->
      forall it, In it root -> exists sev, In sev severities /\ In it (groupsFor sev root))
  /\ (vulns = [] -> root = [placeholder] /\ contextValue placeholder = None)
  /\ (forall v1 v2, severity v1 = "High" -> severity v2 = "Medium" ->
        (vulns = [v1; v2] \/ vulns = [v2; v1]) ->
        label <$> root = ["High (1)"; "Medium (1)"]).
Proof.
  intros root. subst root.
  split; [|split; [|split]].
  - intros sev Hin n. subst n.
    destruct vulns as [|v vs].
    { simpl. split; [intros _; destruct Hin as [<-|[<-|[<-|[<-|[<-|[]]]]]]; reflexivity|].
      intros H. exfalso. apply H.
      destruct Hin as [<-|[<-|[<-|[<-|[<-|[]]]]]]; reflexivity. }
    rewrite root_of_nonempty.
    remember (v :: vs) as l eqn:El. clear El.
    unfold severities; cbn [omap list_omap].
    lower_names.
    group_cases l "Critical"; group_cases l "High"; group_cases l "Medium";
      group_cases l "Low"; group_cases l "Informational";
      destruct Hin as [<-|[<-|[<-|[<-|[<-|[]]]]]];
      unfold groupsFor; rewrite ?Lc, ?Lh, ?Lm, ?Ll, ?Li in *;
      cbn [List.filter];
      repeat match goal with
             | H : contextValue _ = Some _ |- _ => rewrite H; clear H
             end;
      simpl;
      (split;
       [intros Hz; first [reflexivity | congruence]
       |intros Hnz;
        first [congruence | eexists; split; [reflexivity | assumption]]]).
  - intros Hne it Hin.
    destruct vulns as [|v vs]; [congruence|].
    rewrite root_of_nonempty in *.
    remember (v :: vs) as l eqn:El. clear El Hne.
    apply list_elem_of_In, list_elem_of_omap in Hin as (sev & Hsev & Hg).
    apply list_elem_of_In in Hsev.
    exists sev. split; [exact Hsev|].
    unfold groupsFor. apply filter_In. split.
    + apply list_elem_of_In, list_elem_of_omap. exists sev.
      split; [apply list_elem_of_In; exact Hsev | exact Hg].
    + pose proof (severityGroup_cases l sev) as H. cbv zeta in H.
      rewrite Hg in H. destruct H as (_ & _ & ->).
      unfold JsString.eqb. apply String.eqb_refl.
  - intros ->. split; reflexivity.
  - intros v1 v2 Hh Hm [-> | ->];
      unfold getChildren, severityGroup, vulnsForSeverity, severities;
      cbn [length Nat.eqb omap list_omap List.filter];
      rewrite Hh, Hm; vm_compute; reflexivity.
Qed.

Lemma C5_witness :
  let vulns := mockVulnerabilities "contracts/Vault.sol" in
  let root := getChildren vulns None in
  groupsFor "Critical" root = []
  /\ (exists g, groupsFor "High" root = [g] /\ label g = "High (1)")
  /\ label <$> root = ["High (1)"; "Medium (1)"].
Proof.
  intros vulns root.
  destruct (C5_root_severity_groups vulns) as (Hgroups & _ & _ & Hscenario).
  split; [|split].
  - apply (Hgroups "Critical"); [simpl; tauto | reflexivity].
  - destruct (proj2 (Hgroups "High" ltac:(simpl; tauto))) as (g & Hg & Hl);
      [discriminate|].
    exists g. split; [exact Hg | exact Hl].
  - eapply Hscenario; [| | left; reflexivity]; reflexivity.
Defined.

End AuditDashboardProperties.

Section SolidityAuditProperties.

Import Regex SolidityAudit.

Lemma unparsable_skipped (document : TextDocument) (v : Vulnerability) :
  free_text (location v) = true -> parsable (location v) = false ->
  diagnosticFor document v = Ret None.
Proof.
  unfold diagnosticFor, lineMatch, parsable, free_text.
  destruct (location v) as [| | | |s| |]; try discriminate; try reflexivity.
  intros _ Hp. simpl.
  destruct (exec lineRegex s) as [caps|]; [|reflexivity].
  apply bool_decide_eq_false in Hp. exfalso. apply Hp. eexists. reflexivity.
Qed.

Lemma collect_skip (document : TextDocument) (vs1 vs2 : list Vulnerability)
    (v : Vulnerability) :
  diagnosticFor document v = Ret None ->
  collect document (vs1 ++ v :: vs2) = collect document (vs1 ++ vs2).
Proof.
  intros Hskip. induction vs1 as [|w vs1 IH]; simpl.
  - rewrite Hskip. simpl. destruct (collect document vs2); reflexivity.
  - rewrite IH. reflexivity.
Qed.

(** C6: a vulnerability whose location is absent, or is a text without a
    match of [line[s]? N(-M)?], is passed over without an exception and
    leaves no diagnostic: the update gives the outcome and the squiggles it
    gives with that vulnerability taken out of the list. *)
Theorem C6_unparsable_location_ignored
    (document : TextDocument) (vs1 vs2 : list Vulnerability) (v : Vulnerability)
    (ai : string) (coll : DiagnosticCollection) :
  free_text (location v) = true -> parsable (location v) = false ->
  let withV := {| static_analysis := vs1 ++ v :: vs2; ai_analysis := ai |} in
  let without := {| static_analysis := vs1 ++ vs2; ai_analysis := ai |} in
  diagnosticFor document v = Ret None
  /\ collect document (vs1 ++ v :: vs2) = collect document (vs1 ++ vs2)
  /\ fst (updateDiagnostics document (Some withV) coll)
       = fst (updateDiagnostics document (Some without) coll)
  /\ shown (uri document) (snd (updateDiagnostics document (Some withV) coll))
       = shown (uri document) (snd (updateDiagnostics document (Some without) coll)).
Proof.
  intros Hfree Hno withV without.
  pose proof (unparsable_skipped document v Hfree Hno) as Hskip.
  pose proof (collect_skip document vs1 vs2 v Hskip) as Hcollect.
  split; [exact Hskip|]. split; [exact Hcollect|].
  unfold updateDiagnostics, shown, DiagnosticCollection in *. simpl.
  rewrite Hcollect.
  assert (Hlen : (length (vs1 ++ v :: vs2) =? 0)%nat = false).
  { apply Nat.eqb_neq. rewrite length_app. simpl. lia. }
  rewrite Hlen.
  destruct (Nat.eqb_spec (length (vs1 ++ vs2)) 0) as [Hz|Hnz].
  - assert (Hnil : vs1 ++ vs2 = []) by (apply length_zero_iff_nil; exact Hz).
    rewrite Hnil. simpl. rewrite lookup_insert_eq, lookup_delete_eq.
    split; reflexivity.
  - destruct (collect document (vs1 ++ vs2)); split; reflexivity.
Qed.

Lemma C6_witness :
  let document := {| uri := "file:///contracts/Vault.sol";
                     lines := ["pragma solidity ^0.8.0;"; "contract Vault {"; "}"] |} in
  let found := {| title := "Reentrancy"; description := "State written after call";
                  severity := "High"; location := JStr "Lines 2-3" |} in
  let vague := {| title := "Style"; description := "Long function";
                  severity := "Low"; location := JStr "in function withdraw()" |} in
  collect document [found; vague] = collect document [found]
  /\ shown (uri document)
       (snd (updateDiagnostics document
               (Some {| static_analysis := [found; vague]; ai_analysis := "" |}) ∅))
     = shown (uri document)
       (snd (updateDiagnostics document
               (Some {| static_analysis := [found]; ai_analysis := "" |}) ∅)).
Proof.
  intros document found vague.
  destruct (C6_unparsable_location_ignored document [found] [] vague "" ∅)
    as (_ & Hc & _ & Hs); [reflexivity | vm_compute; reflexivity |].
  split; [exact Hc | exact Hs].
Defined.

End SolidityAuditProperties.

Section PanelProperties.

Import Panels.

Variable t : Templates.






Lemma create_status (vt ttl : string) (column : Z) (h : Host) (j : nat) :
  status (snd (createWebviewPanel vt ttl column h)) j =
    if decide (j = length (panels h)) then Some (vt, false) else status h j.
Proof.
  unfold createWebviewPanel, status. simpl.
  destruct (decide (j = length (panels h))) as [->|Hne].
  - rewrite lookup_app_r by lia. rewrite Nat.sub_diag. reflexivity.
  - destruct (decide (j < length (panels h))%nat) as [Hlt|Hge].
    + rewrite lookup_app_l by exact Hlt. reflexivity.
    + rewrite !lookup_ge_None_2; [reflexivity | lia |].
      rewrite length_app. simpl. lia.
Qed.



















End PanelProperties.

Section PanelExamples.

Import Panels.


End PanelExamples.

Section DeploymentProperties.

Import Deployment.

Variable env : Env.

(** *** What each piece adds to the trace *)

Lemma emits_ret {A} (P : Event -> Prop) (a : A) : emits P (ret a).
Proof. intros st. exists []. simpl. rewrite app_nil_r. auto. Qed.

Lemma emits_throw {A} (P : Event -> Prop) (e : Thrown) : emits P (@throw A e).
Proof. intros st. exists []. simpl. rewrite app_nil_r. auto. Qed.

Lemma emits_emit (P : Event -> Prop) (ev : Event) : P ev -> emits P (emit ev).
Proof. intros H st. exists [ev]. simpl. auto. Qed.

Lemma emits_bind {A B} (P : Event -> Prop) (m : M A) (k : A -> M B) :
  emits P m -> (forall a, emits P (k a)) -> emits P (bind m k).
Proof.
  intros Hm Hk st. unfold bind.
  destruct (Hm st) as (evs1 & E1 & F1).
  destruct (m st) as [[a|e] st1]; simpl in *.
  - destruct (Hk a st1) as (evs2 & E2 & F2).
    exists (evs1 ++ evs2). rewrite E2, E1, app_assoc. split; [reflexivity|].
    apply Forall_app; auto.
  - exists evs1. auto.
Qed.

Lemma emits_try_catch {A} (P : Event -> Prop) (m : M A) (h : Thrown -> M A) :
  emits P m -> (forall e, emits P (h e)) -> emits P (try_catch m h).
Proof.
  intros Hm Hh st. unfold try_catch.
  destruct (Hm st) as (evs1 & E1 & F1).
  destruct (m st) as [[a|e] st1]; simpl in *.
  - exists evs1. auto.
  - destruct (Hh e st1) as (evs2 & E2 & F2).
    exists (evs1 ++ evs2). rewrite E2, E1, app_assoc. split; [reflexivity|].
    apply Forall_app; auto.
Qed.

Lemma emits_read {A B} (P : Event -> Prop) (f : State -> A) (k : A -> M B) :
  (forall a, emits P (k a)) -> emits P (bind (fun st => (Ret (f st), st)) k).
Proof. intros Hk st. unfold bind. apply Hk. Qed.

Lemma emits_weaken {A} (P Q : Event -> Prop) (m : M A) :
  (forall ev, P ev -> Q ev) -> emits P m -> emits Q m.
Proof.
  intros HPQ Hm st. destruct (Hm st) as (evs & E & F).
  exists evs. split; [exact E|]. eapply Forall_impl; eauto.
Qed.

Lemma emits_lift_sdk {A} (P : Event -> Prop) (r : SdkResult A) : emits P (lift_sdk r).
Proof. destruct r; [apply emits_ret | apply emits_throw]. Qed.

Lemma emits_get_trace (P : Event -> Prop) : emits P get_trace.
Proof. intros st. exists []. simpl. rewrite app_nil_r. auto. Qed.

Lemma emits_this (P : Event -> Prop) : emits P this.
Proof. intros st. exists []. simpl. rewrite app_nil_r. auto. Qed.

Ltac emits_side :=
  solve [unfold in_step, is_prompt; simpl; eauto].

(** Walks through a piece of embedded code, one construct at a time. *)
Ltac emits_walk :=
  repeat first
    [ apply emits_ret
    | apply emits_throw
    | apply emits_get_trace
    | apply emits_this
    | apply emits_lift_sdk
    | apply emits_emit; emits_side
    | apply emits_try_catch; [|intros ?]
    | apply emits_bind; [|intros ?]
    | match goal with
      | |- emits _ (match ?x with _ => _ end) => destruct x
      | |- emits _ (if ?b then _ else _) => destruct b
      end ].



Lemma emits_Hedera_callContractMethod (P : Event -> Prop)
    (contract method : string) (params : option JsValue) (gas : Z) :
  (forall h req, P (EvSdkExecute h req)) ->
  (forall label e, P (EvConsoleError label e)) ->
  emits P (Hedera.callContractMethod env contract method params gas).
Proof.
  intros Hx Hc.
  unfold Hedera.callContractMethod, Hedera.fromString, Hedera.execute,
    Hedera.console_error.
  repeat first
    [ apply emits_ret | apply emits_throw | apply emits_get_trace
    | apply emits_this | apply emits_lift_sdk
    | apply emits_emit; solve [auto]
    | apply emits_try_catch; [|intros ?]
    | apply emits_bind; [|intros ?]
    | match goal with
      | |- emits _ (match ?x with _ => _ end) => destruct x
      | |- emits _ (if ?b then _ else _) => destruct b
      end ].
Qed.

Lemma emits_promptAll (what cancelled : string) (ins : list AbiInput) :
  emits is_prompt (promptAll env what cancelled ins).
Proof.
  induction ins as [|input rest IH]; simpl.
  - apply emits_ret.
  - unfold showInputBox, convertParam.
    apply emits_bind; [emits_walk|]. intros [text|]; [|apply emits_throw].
    apply emits_bind; [emits_walk|]. intros value.
    apply emits_bind; [exact IH|]. intros values. apply emits_ret.
Qed.






Lemma emits_notifyStep (contract : string) : emits (in_step 5) (notifyStep contract).
Proof. unfold notifyStep, showInformationMessage. emits_walk. Qed.

Lemma emits_appendStep (c : Compiled) (contract : string) :
  emits (in_step 6) (appendStep env c contract).
Proof. unfold appendStep, executeCommand, Hedera.Date_now. emits_walk. Qed.

(** *** What a step that returns has done *)














(** *** The run of deployContract, step by step *)

Lemma deployFailed_run (e : Thrown) (st : State) :
  deployFailed env e st = (Throw e, deployReported env e st).
Proof.
  unfold deployFailed, showErrorMessage, deployReported, reported. unfold_M. simpl.
  rewrite <- app_assoc. reflexivity.
Qed.


Lemma appendStep_run (c : Compiled) (contract : string) (st : State) :
  exists tx,
    appendStep env c contract st =
      (Ret tt, {| service := service st; clients := clients st;
                  trace := trace st ++
                    [EvExecuteCommand "hivemindTransactionCenter.addTransaction" tx] |}).
Proof. eexists. reflexivity. Qed.

Lemma abort_compile (filePath : string) (st s1 : State) (e : Thrown) :
  compileStep env filePath st = (Throw e, s1) ->
  deployContract env filePath st = (Throw e, deployReported env e s1).
Proof.
  intros H1. unfold deployContract, try_catch, bind. rewrite H1.
  apply deployFailed_run.
Qed.

Lemma abort_prompt (filePath : string) (st s1 s2 : State) (c : Compiled) (e : Thrown) :
  compileStep env filePath st = (Ret c, s1) ->
  promptStep env c s1 = (Throw e, s2) ->
  deployContract env filePath st = (Throw e, deployReported env e s2).
Proof.
  intros H1 H2. unfold deployContract, try_catch, bind. rewrite H1, H2.
  apply deployFailed_run.
Qed.

Lemma abort_deploy (filePath : string) (st s1 s2 s3 : State) (c : Compiled)
    (ps : list JsValue) (e : Thrown) :
  compileStep env filePath st = (Ret c, s1) ->
  promptStep env c s1 = (Ret ps, s2) ->
  deployStep env c ps s2 = (Throw e, s3) ->
  deployContract env filePath st = (Throw e, deployReported env e s3).
Proof.
  intros H1 H2 H3. unfold deployContract, try_catch, bind. rewrite H1, H2, H3.
  apply deployFailed_run.
Qed.



(** *** Orders of steps *)



Lemma ascending_nil (lo : nat) : ascending lo [].
Proof. exact I. Qed.





(** *** Cancelled prompts *)

Lemma emits_prompts_promptStep (c : Compiled) : emits is_prompt (promptStep env c).
Proof.
  unfold promptStep, getConstructorParams.
  destruct (List.find _ (abi c)) as [constructor|]; [|apply emits_ret].
  destruct (inputs constructor) as [ins|]; [|apply emits_ret].
  apply emits_promptAll.
Qed.

Lemma emits_prompts_getMethodParams (method : AbiItem) :
  emits is_prompt (getMethodParams env method).
Proof.
  unfold getMethodParams.
  destruct (inputs method) as [ins|]; [|apply emits_ret].
  apply emits_promptAll.
Qed.

Lemma prompt_not_remote (ev : Event) : is_prompt ev -> remote ev = false.
Proof. intros (p & ph & ->). reflexivity. Qed.

Lemma callFailed_run (e : Thrown) (st : State) :
  callFailed env e st = (Throw e, callReported env e st).
Proof.
  unfold callFailed, showErrorMessage, callReported, reported. unfold_M. simpl.
  rewrite <- app_assoc. reflexivity.
Qed.

(** C4, as the code has it: a dismissed prompt throws "Deployment
    cancelled" (or "Method call cancelled") at once; the pipeline stops
    there, before any further prompt and any remote or blockchain call, but
    the cancellation takes the error path: it is logged, shown in an error
    notification and rethrown to the caller. *)
Theorem C4_cancellation_takes_the_error_path :
  (forall what cancelled input rest st,
     window_showInputBox env (trace st) (promptText env what input)
       (placeHolderText input) = None ->
     promptAll env what cancelled (input :: rest) st =
       (Throw (JsError cancelled),
        {| service := service st; clients := clients st;
           trace := trace st ++
             [EvInputBox (promptText env what input) (placeHolderText input)] |}))
  /\ (forall filePath st c s1 s2,
        compileStep env filePath st = (Ret c, s1) ->
        promptStep env c s1 = (Throw (JsError "Deployment cancelled"), s2) ->
        deployContract env filePath st =
          (Throw (JsError "Deployment cancelled"),
           deployReported env (JsError "Deployment cancelled") s2)
        /\ exists asked,
             trace (snd (deployContract env filePath st)) =
               trace s1 ++ asked ++
                 [EvConsoleError "Failed to deploy contract:"
                    (JsError "Deployment cancelled");
                  EvErrorMessage
                    "Failed to deploy contract: Error: Deployment cancelled"]
             /\ Forall is_prompt asked
             /\ Forall (fun ev => remote ev = false) asked)
  /\ (forall svc contract methodName info items method st s1 s2,
        svc_getContractInfo svc contract st = (Ret info, s1) ->
        Js.truthy info = true ->
        Js.truthy (Js.get_opt info "abi") = true ->
        decode_abi (Js.get_opt info "abi") s1 = (Ret items, s1) ->
        List.find (fun item => strict_eq (itemType item) "function"
                               && strict_eq (itemName item) methodName) items
          = Some method ->
        getMethodParams env method s1 = (Throw (JsError "Method call cancelled"), s2) ->
        callContractMethod env svc contract methodName st =
          (Throw (JsError "Method call cancelled"),
           callReported env (JsError "Method call cancelled") s2)
        /\ exists asked,
             trace (snd (callContractMethod env svc contract methodName st)) =
               trace s1 ++ asked ++
                 [EvConsoleError "Failed to call contract method:"
                    (JsError "Method call cancelled");
                  EvErrorMessage
                    "Failed to call contract method: Error: Method call cancelled"]
             /\ Forall is_prompt asked
             /\ Forall (fun ev => remote ev = false) asked).
Proof.
  split; [|split].
  - intros what cancelled input rest st Hnone.
    simpl. unfold showInputBox. unfold_M. simpl. rewrite Hnone. reflexivity.
  - intros filePath st c s1 s2 H1 H2.
    pose proof (abort_prompt _ _ _ _ _ _ H1 H2) as Hrun.
    split; [exact Hrun|].
    destruct (emits_prompts_promptStep c s1) as (asked & Ea & Fa).
    rewrite H2 in Ea. simpl in Ea.
    exists asked. rewrite Hrun. simpl. rewrite Ea, <- app_assoc.
    split; [reflexivity|]. split; [exact Fa|].
    eapply Forall_impl; [exact Fa | exact prompt_not_remote].
  - intros svc contract methodName info items method st s1 s2
      Hinfo Ht Habi Hdec Hfind Hget.
    assert (Hrun : callContractMethod env svc contract methodName st =
                     (Throw (JsError "Method call cancelled"),
                      callReported env (JsError "Method call cancelled") s2)).
    { unfold callContractMethod, try_catch, bind. rewrite Hinfo.
      unfold callWithInfo. rewrite Ht, Habi. simpl.
      unfold bind. rewrite Hdec, Hfind, Hget. apply callFailed_run. }
    split; [exact Hrun|].
    destruct (emits_prompts_getMethodParams method s1) as (asked & Ea & Fa).
    rewrite Hget in Ea. simpl in Ea.
    exists asked. rewrite Hrun. simpl. rewrite Ea, <- app_assoc.
    split; [reflexivity|]. split; [exact Fa|].
    eapply Forall_impl; [exact Fa | exact prompt_not_remote].
Qed.

(** With the wrapper of this repository the method-call pipeline asks
    nothing: the contract info it returns carries no ABI. *)
Remark callContractMethod_never_prompts (contract methodName : string) (st : State) :
  exists e st',
    callContractMethod env (hederaService env) contract methodName st = (Throw e, st')
    /\ (e = Hedera.not_connected
        \/ e = JsError ("Contract " +:+ contract +:+ " not found or ABI not available")).
Proof.
  unfold callContractMethod, hederaService, try_catch, bind. simpl.
  unfold Hedera.getContractInfo, Hedera.Date_now, Hedera.no_client. unfold_M. simpl.
  destruct (client (service st)); simpl.
  - rewrite callFailed_run. eexists _, _. split; [reflexivity|]. right. reflexivity.
  - rewrite callFailed_run. eexists _, _. split; [reflexivity|]. left. reflexivity.
Qed.

End DeploymentProperties.

Section DeploymentExamples.

Import Deployment.



(** C4 as worded fails: the user closes the one constructor prompt, and the
    call throws "Deployment cancelled" to its caller after an error
    notification. *)
Lemma C4_counterexample :
  let env := Sample.with_backend Sample.env Sample.compiling Sample.dismissing in
  let r := deployContract env "contracts/Token.sol" Sample.online in
  fst r = Throw (JsError "Deployment cancelled")
  /\ List.skipn 9 (trace (snd r)) =
       [EvConsoleError "Failed to deploy contract:" (JsError "Deployment cancelled");
        EvErrorMessage "Failed to deploy contract: Error: Deployment cancelled"]
  /\ forallb (fun ev => negb (remote ev)) (List.skipn 7 (trace (snd r))) = true.
Proof. vm_compute. repeat split. Qed.

Lemma C4_witness :
  let env := Sample.with_backend Sample.env Sample.compiling Sample.dismissing in
  let cancelled := JsError "Deployment cancelled" in
  let s1 := snd (compileStep env "contracts/Token.sol" Sample.online) in
  let s2 := snd (promptStep env Sample.compiled_contract s1) in
  deployContract env "contracts/Token.sol" Sample.online =
    (Throw cancelled, deployReported env cancelled s2).
Proof.
  intros env cancelled s1 s2.
  destruct (C4_cancellation_takes_the_error_path env) as (_ & Hdeploy & _).
  destruct (Hdeploy "contracts/Token.sol" Sample.online Sample.compiled_contract s1 s2)
    as [Hrun _]; [vm_compute; reflexivity | vm_compute; reflexivity | exact Hrun].
Defined.

End DeploymentExamples.

(** * Further properties of the blockchain session wrapper *)

Section HederaSession.

Variable env : Env.

Import Hedera Session.

Lemma alter_fresh (cs : list ClientObj) (c : ClientObj) (f : ClientObj -> ClientObj) :
  alter f (length cs) (cs ++ [c]) = cs ++ [f c].
Proof.
  induction cs as [|x cs IH]; simpl; [reflexivity|].
  f_equal. exact IH.
Qed.

(** X1: [disconnect()] always returns, leaves the wrapper Disconnected,
    closes the client it held, and changes nothing at all when called
    again. *)
Theorem X1_disconnect_idempotent (st : State) :
  let s1 := snd (disconnect st) in
  fst (disconnect st) = Ret tt
  /\ disconnected (service s1)
  /\ isConnected (service s1) = false
  /\ (forall h c, client (service st) = Some h -> clients st !! h = Some c ->
        clients s1 !! h = Some (set_closed c))
  /\ disconnect s1 = (Ret tt, s1).
Proof.
  unfold disconnect, Client_close, isConnected, no_client, disconnected.
  unfold_M. destruct st as [[c a k n b] cs tr]. simpl.
  destruct c as [h|]; simpl.
  - repeat split.
    intros h' c' [= <-] Hl. rewrite list_lookup_alter_eq, Hl. reflexivity.
  - repeat split. intros h c [=].
Qed.

(** The client object [connect] creates, once the operator is set. *)
Lemma connect_valid_run (net acc key : string) (st : State) :
  valid_network net = true ->
  let h := length (clients st) in
  let tr1 := trace st ++ [EvClientNew h net] in
  connect env net acc key st =
    match sdk_setOperator env tr1 h acc key with
    | None =>
        (Ret true,
         {| service := {| client := Some h; accountId := Some acc;
                          privateKey := Some key; network := net;
                          connected := true |};
            clients := clients st ++
              [{| clientNetwork := net; operator := Some (acc, key); closed := false |}];
            trace := tr1 ++ [EvSetOperator h acc key] |})
    | Some status =>
        (Throw (SdkError status),
         {| service := set_connected false (set_client (Some h) (service st));
            clients := clients st ++
              [{| clientNetwork := net; operator := None; closed := false |}];
            trace := tr1 ++ [EvSetOperator h acc key;
                             EvConsoleError "Failed to connect to Hedera:"
                               (SdkError status)] |})
    end.
Proof.
  intros Hv h tr1. subst h tr1.
  unfold valid_network, JsString.eqb in Hv.
  unfold connect, Client_for, Client_setOperator, console_error, JsString.eqb.
  unfold_M. simpl.
  destruct (String.eqb net "testnet") eqn:E1;
    [apply String.eqb_eq in E1; subst net
    |destruct (String.eqb net "mainnet") eqn:E2;
       [apply String.eqb_eq in E2; subst net | discriminate Hv]];
    simpl; destruct (sdk_setOperator env _ _ acc key); simpl;
    rewrite ?alter_fresh, <- ?app_assoc; reflexivity.
Qed.

(** X2: [connect] returns exactly when the network is testnet or mainnet
    and the SDK accepts the operator; it then returns [true], never
    [false], and leaves the wrapper connected to that network with the
    credentials stored and a new, open client as its handle. *)
Theorem X2_connect_returns (net acc key : string) (st : State) :
  let h := length (clients st) in
  let r := connect env net acc key st in
  ((exists b, fst r = Ret b) <->
     valid_network net = true
     /\ sdk_setOperator env (trace st ++ [EvClientNew h net]) h acc key = None)
  /\ (forall b, fst r = Ret b ->
        b = true
        /\ isConnected (service (snd r)) = true
        /\ getCurrentNetwork (service (snd r)) = net
        /\ getAccountId (service (snd r)) = Some acc
        /\ privateKey (service (snd r)) = Some key
        /\ client (service (snd r)) = Some h
        /\ clients (snd r) = clients st ++
             [{| clientNetwork := net; operator := Some (acc, key); closed := false |}]).
Proof.
  intros h r. subst h r.
  destruct (valid_network net) eqn:Hv.
  - rewrite (connect_valid_run net acc key st Hv).
    destruct (sdk_setOperator env _ _ acc key) as [status|]; simpl.
    + split.
      * split; [intros [b Hb]; discriminate Hb | intros [_ H]; discriminate H].
      * intros b Hb. discriminate Hb.
    + split.
      * split; [intros _; split; reflexivity | intros _; eexists; reflexivity].
      * intros b [= <-]. repeat split.
  - assert (H1 : net <> "testnet") by (intros ->; discriminate Hv).
    assert (H2 : net <> "mainnet") by (intros ->; discriminate Hv).
    rewrite (connect_invalid env net acc key st H1 H2). simpl.
    split.
    + split; [intros [b Hb]; discriminate Hb | intros [H _]; discriminate H].
    + intros b Hb. discriminate Hb.
Qed.

(** X3: [connect] closes no client, whatever it returns or throws: a
    client open before is open after, so a second successful [connect]
    leaves the client of the first one open and no longer referred to. *)
Theorem X3_connect_closes_nothing (net acc key : string) (st : State)
    (h : nat) (c : ClientObj) :
  clients st !! h = Some c ->
  clients (snd (connect env net acc key st)) !! h = Some c
  /\ forall ev, In ev (drop (length (trace st)) (trace (snd (connect env net acc key st)))) ->
       forall h', ev <> EvClientClose h'.
Proof.
  intros Hl.
  assert (Hlt : (h < length (clients st))%nat) by (eapply lookup_lt_Some; exact Hl).
  destruct (valid_network net) eqn:Hv.
  - rewrite (connect_valid_run net acc key st Hv).
    destruct (sdk_setOperator env _ _ acc key) as [status|]; simpl;
      rewrite <- app_assoc, drop_app_length; simpl;
      (split; [rewrite lookup_app_l by exact Hlt; exact Hl |
               intros ev Hin h' ->; simpl in Hin;
               repeat destruct Hin as [Hin|Hin]; try discriminate Hin; auto]).
  - assert (H1 : net <> "testnet") by (intros ->; discriminate Hv).
    assert (H2 : net <> "mainnet") by (intros ->; discriminate Hv).
    rewrite (connect_invalid env net acc key st H1 H2). simpl.
    rewrite drop_app_length.
    split; [exact Hl|].
    intros ev [<-|[]] h'. discriminate.
Qed.

(** X4: a [connect] to testnet or mainnet that the SDK refuses throws the
    SDK's error and leaves the wrapper half open: the handle is a new client
    without operator, the flag is down, and account, key and network are
    the ones from before. *)
Theorem X4_refused_connect_keeps_handle (net acc key status : string) (st : State) :
  valid_network net = true ->
  sdk_setOperator env (trace st ++ [EvClientNew (length (clients st)) net])
    (length (clients st)) acc key = Some status ->
  let r := connect env net acc key st in
  fst r = Throw (SdkError status)
  /\ client (service (snd r)) = Some (length (clients st))
  /\ clients (snd r) !! length (clients st)
       = Some {| clientNetwork := net; operator := None; closed := false |}
  /\ isConnected (service (snd r)) = false
  /\ accountId (service (snd r)) = accountId (service st)
  /\ privateKey (service (snd r)) = privateKey (service st)
  /\ network (service (snd r)) = network (service st).
Proof.
  intros Hv Hs r. subst r.
  rewrite (connect_valid_run net acc key st Hv), Hs. simpl.
  repeat split.
  rewrite lookup_app_r by lia. rewrite Nat.sub_diag. reflexivity.
Qed.

(** *** The operations leave the session alone *)

Lemma keeps_ret {A} (a : A) : keeps_session (ret a).
Proof. intros st. split; reflexivity. Qed.

Lemma keeps_throw {A} (e : Thrown) : keeps_session (@throw A e).
Proof. intros st. split; reflexivity. Qed.

Lemma keeps_emit (ev : Event) : keeps_session (emit ev).
Proof. intros st. split; reflexivity. Qed.

Lemma keeps_get_trace : keeps_session get_trace.
Proof. intros st. split; reflexivity. Qed.

Lemma keeps_this : keeps_session this.
Proof. intros st. split; reflexivity. Qed.

Lemma keeps_lift_sdk {A} (r : SdkResult A) : keeps_session (lift_sdk r).
Proof. destruct r; [apply keeps_ret | apply keeps_throw]. Qed.

Lemma keeps_bind {A B} (m : M A) (k : A -> M B) :
  keeps_session m -> (forall a, keeps_session (k a)) -> keeps_session (bind m k).
Proof.
  intros Hm Hk st. unfold bind. destruct (Hm st) as [H1 H2].
  destruct (m st) as [[a|e] st1]; simpl in *.
  - destruct (Hk a st1) as [H3 H4]. split; congruence.
  - split; assumption.
Qed.

Lemma keeps_try_catch {A} (m : M A) (h : Thrown -> M A) :
  keeps_session m -> (forall e, keeps_session (h e)) -> keeps_session (try_catch m h).
Proof.
  intros Hm Hh st. unfold try_catch. destruct (Hm st) as [H1 H2].
  destruct (m st) as [[a|e] st1]; simpl in *.
  - split; assumption.
  - destruct (Hh e st1) as [H3 H4]. split; congruence.
Qed.

Ltac keeps_walk :=
  repeat first
    [ apply keeps_ret | apply keeps_throw | apply keeps_get_trace
    | apply keeps_this | apply keeps_lift_sdk | apply keeps_emit
    | apply keeps_try_catch; [|intros ?]
    | apply keeps_bind; [|intros ?]
    | match goal with
      | |- keeps_session (match ?x with _ => _ end) => destruct x
      | |- keeps_session (if ?b then _ else _) => destruct b
      end ].

(** X5: no blockchain operation changes the session: whatever it returns
    or throws, the handle, the credentials, the network, the flag and
    every client object are as before, and it creates and closes no
    client. *)
Theorem X5_operations_keep_session (op : Operation) (st : State) :
  service (snd (run_op env op st)) = service st
  /\ clients (snd (run_op env op st)) = clients st
  /\ isConnected (service (snd (run_op env op st))) = isConnected (service st).
Proof.
  assert (H : keeps_session (run_op env op)).
  { destruct op; simpl; unfold fmap_M;
      unfold createTopic, submitMessage, callContractMethod, getAccountBalance,
        deployContract, registerContract, submitMessage, getContractInfo,
        getDeployedContracts, useAgent, getAgents, Date_now, execute, getReceipt,
        fromString, non_null, console_error;
      keeps_walk. }
  destruct (H st) as [H1 H2]. rewrite H1. repeat split. exact H2.
Qed.

(** X6: [updateConfig] never throws; on a wrapper whose flag is down it
    only stores the three settings: no client is made or closed, nothing is
    sent, and the wrapper is no more connected than before. *)
Theorem X6_updateConfig_offline (acc key net : string) (st : State) :
  fst (updateConfig env acc key net st) = Ret tt
  /\ (connected (service st) = false ->
      snd (updateConfig env acc key net st) =
        {| service := {| client := client (service st); accountId := Some acc;
                         privateKey := Some key; network := net;
                         connected := false |};
           clients := clients st; trace := trace st |}).
Proof.
  unfold updateConfig. unfold_M. simpl.
  destruct (connected (service st)) eqn:Hc; simpl.
  - split; [|discriminate].
    unfold disconnect, Client_close. unfold_M. simpl.
    destruct (client (service st)); simpl;
    match goal with
    | |- context [connect env net acc key ?s] =>
        destruct (connect env net acc key s) as [[b|e] s']
    end; reflexivity.
  - split; [reflexivity|]. intros _.
    unfold set_network, set_privateKey, set_accountId. simpl. rewrite Hc. reflexivity.
Qed.

(** X7: [updateConfig] with a network other than testnet and mainnet, on
    a connected wrapper, closes the client and ends Disconnected without
    any error reaching the caller; the network the wrapper reports is then
    the one it could not connect to. *)
Theorem X7_updateConfig_unknown_network (acc key net : string) (st : State)
    (h : nat) (c : ClientObj) :
  connected (service st) = true ->
  client (service st) = Some h ->
  clients st !! h = Some c ->
  valid_network net = false ->
  let r := updateConfig env acc key net st in
  fst r = Ret tt
  /\ disconnected (service (snd r))
  /\ isConnected (service (snd r)) = false
  /\ getCurrentNetwork (service (snd r)) = net
  /\ getAccountId (service (snd r)) = Some acc
  /\ clients (snd r) !! h = Some (set_closed c)
  /\ trace (snd r) = trace st ++
       [EvClientClose h;
        EvConsoleError "Failed to connect to Hedera:"
          (JsError ("Invalid network: " +:+ net))].
Proof.
  intros Hc Hh Hl Hv r. subst r.
  assert (H1 : net <> "testnet") by (intros ->; discriminate Hv).
  assert (H2 : net <> "mainnet") by (intros ->; discriminate Hv).
  destruct st as [[c0 a0 k0 n0 b0] cs tr]. simpl in *. subst b0 c0.
  unfold updateConfig, disconnect, Client_close. unfold_M. simpl.
  rewrite (connect_invalid env net acc key _ H1 H2). simpl.
  unfold disconnected. simpl. repeat split.
  - rewrite list_lookup_alter_eq, Hl. reflexivity.
  - rewrite <- app_assoc. reflexivity.
Qed.

(** X8: the start-up connection never throws, and without both an account
    id and a private key in the settings it does nothing at all. *)
Theorem X8_initialize_is_silent
    (storedAccountId storedPrivateKey defaultNetwork : option string) (st : State) :
  fst (initializeFromStoredCredentials env storedAccountId storedPrivateKey
         defaultNetwork st) = Ret tt
  /\ (falsy_string storedAccountId = true \/ falsy_string storedPrivateKey = true ->
      snd (initializeFromStoredCredentials env storedAccountId storedPrivateKey
             defaultNetwork st) = st).
Proof.
  unfold initializeFromStoredCredentials, console_error, falsy_string. unfold_M.
  destruct storedAccountId as [acc|], storedPrivateKey as [key|]; simpl;
    try (split; [reflexivity | intros _; reflexivity]).
  destruct (JsString.eqb acc "") eqn:Ea, (JsString.eqb key "") eqn:Ek; simpl;
    try (split; [reflexivity | intros _; reflexivity]).
  match goal with
  | |- context [connect env ?n acc key st] =>
      destruct (connect env n acc key st) as [[b|e] s']
  end; simpl; split; try reflexivity; intros [H|H]; discriminate H.
Qed.

End HederaSession.

Section HederaSessionExamples.

Import Hedera Session.

Lemma X1_witness :
  clients (snd (disconnect Sample.online)) !! 0%nat
    = Some {| clientNetwork := "testnet"; operator := Some ("0.0.2", "302e0201");
              closed := true |}
  /\ disconnect (snd (disconnect Sample.online))
       = (Ret tt, snd (disconnect Sample.online)).
Proof.
  destruct (X1_disconnect_idempotent Sample.online) as (_ & _ & _ & Hclose & Hagain).
  split; [|exact Hagain].
  apply (Hclose 0%nat
           {| clientNetwork := "testnet"; operator := Some ("0.0.2", "302e0201");
              closed := false |}); reflexivity.
Defined.

Lemma X2_witness :
  let r := connect Sample.env "mainnet" "0.0.7" "302e0207" Sample.start in
  isConnected (service (snd r)) = true
  /\ getCurrentNetwork (service (snd r)) = "mainnet"
  /\ client (service (snd r)) = Some 0%nat.
Proof.
  intros r.
  destruct (X2_connect_returns Sample.env "mainnet" "0.0.7" "302e0207" Sample.start)
    as [_ H].
  destruct (H true) as (_ & Hc & Hn & _ & _ & Hh & _); [reflexivity|].
  repeat split; assumption.
Defined.

Lemma X3_witness :
  clients (snd (connect Sample.env "mainnet" "0.0.7" "302e0207" Sample.online)) !! 0%nat
    = Some {| clientNetwork := "testnet"; operator := Some ("0.0.2", "302e0201");
              closed := false |}.
Proof.
  apply (X3_connect_closes_nothing Sample.env "mainnet" "0.0.7" "302e0207"
           Sample.online 0). reflexivity.
Defined.

Lemma X4_witness :
  let r := connect Sample.env "testnet" "" "302e0201" Sample.start in
  fst r = Throw (SdkError "failed to parse entity id")
  /\ client (service (snd r)) = Some 0%nat
  /\ isConnected (service (snd r)) = false.
Proof.
  intros r.
  destruct (X4_refused_connect_keeps_handle Sample.env "testnet" "" "302e0201"
              "failed to parse entity id" Sample.start)
    as (Ht & Hc & _ & Hi & _); [reflexivity | reflexivity |].
  repeat split; assumption.
Defined.

Lemma X6_witness :
  snd (updateConfig Sample.env "0.0.3" "302e0203" "mainnet" Sample.start) =
    {| service := {| client := None; accountId := Some "0.0.3";
                     privateKey := Some "302e0203"; network := "mainnet";
                     connected := false |};
       clients := []; trace := [] |}.
Proof.
  destruct (X6_updateConfig_offline Sample.env "0.0.3" "302e0203" "mainnet" Sample.start)
    as [_ H].
  apply H. reflexivity.
Defined.

Lemma X7_witness :
  let r := updateConfig Sample.env "0.0.3" "302e0203" "previewnet" Sample.online in
  fst r = Ret tt
  /\ isConnected (service (snd r)) = false
  /\ getCurrentNetwork (service (snd r)) = "previewnet".
Proof.
  intros r.
  destruct (X7_updateConfig_unknown_network Sample.env "0.0.3" "302e0203" "previewnet"
              Sample.online 0
              {| clientNetwork := "testnet"; operator := Some ("0.0.2", "302e0201");
                 closed := false |})
    as (Hr & _ & Hi & Hn & _); try reflexivity.
  repeat split; assumption.
Defined.

Lemma X8_witness :
  snd (initializeFromStoredCredentials Sample.env (Some "0.0.2") None (Some "mainnet")
         Sample.start) = Sample.start.
Proof.
  destruct (X8_initialize_is_silent Sample.env (Some "0.0.2") None (Some "mainnet")
              Sample.start) as [_ H].
  apply H. right. reflexivity.
Defined.

End HederaSessionExamples.

(** * Further properties of the audit tree *)

Section AuditTreeProperties.

Import AuditDashboard AuditDashboardMore.

Lemma matches_one_group (v : Vulnerability) :
  sum_list ((fun sev => length (vulnsForSeverity [v] sev)) <$> severities)
    = if recognised v then 1%nat else 0%nat.
Proof.
  unfold recognised, vulnsForSeverity, severities.
  cbn [fmap list_fmap existsb List.filter].
  destruct severity_names_lower as (Lc & Lh & Lm & Ll & Li).
  rewrite Lc, Lh, Lm, Ll, Li. unfold JsString.eqb.
  remember (JsString.toLowerCase (severity v)) as s eqn:Es. clear Es.
  destruct (String.eqb_spec s "critical") as [->|E1]; [reflexivity|].
  destruct (String.eqb_spec s "high") as [->|E2]; [reflexivity|].
  destruct (String.eqb_spec s "medium") as [->|E3]; [reflexivity|].
  destruct (String.eqb_spec s "low") as [->|E4]; [reflexivity|].
  destruct (String.eqb_spec s "informational") as [->|E5]; reflexivity.
Qed.

Lemma vulnsForSeverity_cons (v : Vulnerability) (vs : list Vulnerability) (sev : string) :
  length (vulnsForSeverity (v :: vs) sev)
    = (length (vulnsForSeverity [v] sev) + length (vulnsForSeverity vs sev))%nat.
Proof.
  unfold vulnsForSeverity. simpl.
  destruct (JsString.eqb _ _); reflexivity.
Qed.

Lemma group_counts_add_up (vulns : list Vulnerability) :
  sum_list ((fun sev => length (vulnsForSeverity vulns sev)) <$> severities)
    = length (List.filter recognised vulns).
Proof.
  induction vulns as [|v vs IH]; [reflexivity|].
  pose proof (matches_one_group v) as Hv.
  unfold severities in *. cbn [fmap list_fmap sum_list sum_list_with] in *.
  rewrite (vulnsForSeverity_cons v vs "Critical"), (vulnsForSeverity_cons v vs "High"),
    (vulnsForSeverity_cons v vs "Medium"), (vulnsForSeverity_cons v vs "Low"),
    (vulnsForSeverity_cons v vs "Informational").
  cbn [List.filter]. unfold Datatypes.id in *.
  destruct (recognised v); cbn [length]; lia.
Qed.

Lemma no_group_iff_no_match (vulns : list Vulnerability) (sev : string) :
  severityGroup vulns sev = None <-> length (vulnsForSeverity vulns sev) = 0%nat.
Proof.
  unfold severityGroup. cbv zeta.
  destruct (Nat.eqb_spec (length (vulnsForSeverity vulns sev)) 0); split; congruence.
Qed.

(** X9: the root of the audit tree counts every vulnerability whose
    severity is one of the five names (in any letter case) exactly once,
    and nothing else: the group sizes add up to the number of such
    vulnerabilities.  A non-empty list none of whose severities is
    recognised therefore renders an empty root, not the placeholder. *)
Theorem X9_root_counts_recognised_severities (vulns : list Vulnerability) :
  sum_list ((fun sev => length (vulnsForSeverity vulns sev)) <$> severities)
    = length (List.filter recognised vulns)
  /\ (vulns <> [] ->
      (getChildren vulns None = [] <-> List.filter recognised vulns = [])).
Proof.
  split; [apply group_counts_add_up|].
  intros Hne. destruct vulns as [|v vs]; [congruence|].
  rewrite root_of_nonempty.
  pose proof (group_counts_add_up (v :: vs)) as Hsum.
  remember (v :: vs) as l eqn:El. clear El Hne.
  unfold severities in *. cbn [fmap list_fmap sum_list sum_list_with omap list_omap] in *.
  unfold Datatypes.id in *.
  pose proof (no_group_iff_no_match l "Critical") as H1.
  pose proof (no_group_iff_no_match l "High") as H2.
  pose proof (no_group_iff_no_match l "Medium") as H3.
  pose proof (no_group_iff_no_match l "Low") as H4.
  pose proof (no_group_iff_no_match l "Informational") as H5.
  split.
  - intros Hroot.
    destruct (severityGroup l "Critical"); [discriminate|].
    destruct (severityGroup l "High"); [discriminate|].
    destruct (severityGroup l "Medium"); [discriminate|].
    destruct (severityGroup l "Low"); [discriminate|].
    destruct (severityGroup l "Informational"); [discriminate|].
    apply length_zero_iff_nil.
    rewrite (proj1 H1), (proj1 H2), (proj1 H3), (proj1 H4), (proj1 H5) in Hsum
      by reflexivity.
    lia.
  - intros Hnone. rewrite Hnone in Hsum. cbn [length] in Hsum.
    rewrite (proj2 H1), (proj2 H2), (proj2 H3), (proj2 H4), (proj2 H5) by lia.
    reflexivity.
Qed.

(** X10: expanding a group of the root shows exactly the vulnerabilities
    the group counted, in the order of the audit result: the severity
    read back from the group's context value selects the same
    vulnerabilities as the severity the group was built from. *)
Theorem X10_group_expands_to_its_vulnerabilities
    (vulns : list Vulnerability) (sev : string) (g : AuditTreeItem) :
  In sev severities ->
  severityGroup vulns sev = Some g ->
  getChildren vulns (Some g) = vulnerabilityItem <$> vulnsForSeverity vulns sev
  /\ label g
     = sev +:+ " (" +:+ JsString.of_nat (length (getChildren vulns (Some g))) +:+ ")"
  /\ getChildren vulns (Some g) <> [].
Proof.
  intros Hin Hg.
  assert (Hlen : length (vulnsForSeverity vulns sev) <> 0%nat).
  { intros Hz. apply no_group_iff_no_match in Hz. congruence. }
  assert (Hne : (length vulns =? 0)%nat = false).
  { apply Nat.eqb_neq. intros Hz. apply length_zero_iff_nil in Hz. subst vulns.
    apply Hlen. reflexivity. }
  assert (Hkids : getChildren vulns (Some g)
                  = vulnerabilityItem <$> vulnsForSeverity vulns sev).
  { unfold getChildren. rewrite Hne.
    unfold severityGroup in Hg. cbv zeta in Hg.
    destruct (length (vulnsForSeverity vulns sev) =? 0)%nat; [discriminate|].
    injection Hg as <-. cbn [contextValue].
    unfold vulnsForSeverity.
    destruct severity_names_lower as (Lc & Lh & Lm & Ll & Li).
    unfold severities in Hin. cbn [In] in Hin.
    destruct Hin as [<-|[<-|[<-|[<-|[<-|[]]]]]];
      rewrite ?Lc, ?Lh, ?Lm, ?Ll, ?Li; reflexivity. }
  split; [exact Hkids|]. split.
  - rewrite Hkids, length_fmap.
    unfold severityGroup in Hg. cbv zeta in Hg.
    destruct (length (vulnsForSeverity vulns sev) =? 0)%nat; [discriminate|].
    injection Hg as <-. reflexivity.
  - rewrite Hkids. intros Hnil. apply Hlen.
    rewrite <- (length_fmap vulnerabilityItem), Hnil. reflexivity.
Qed.



Lemma diagnosticOf_negative (v : Vulnerability) :
  columnIndex v < 0 -> exists e, diagnosticOf v = Throw e.
Proof.
  intros Hc. unfold diagnosticOf, SolidityAudit.newPosition, SolidityAudit.bindO.
  replace (columnIndex v <? 0) with true by (symmetry; apply Z.ltb_lt; lia).
  rewrite orb_true_r. eexists. reflexivity.
Qed.


Lemma group_throws (vulns : list Vulnerability) (v : Vulnerability)
    (acc : gmap string (list SolidityAudit.Diagnostic)) :
  In v vulns -> skipped v = false -> columnIndex v < 0 ->
  exists e, group vulns acc = Throw e.
Proof.
  intros Hin Hs Hc. revert acc. induction vulns as [|w ws IH]; intros acc; [destruct Hin|].
  cbn [group]. destruct Hin as [->|Hin].
  - rewrite Hs. destruct (diagnosticOf_negative v Hc) as (e & ->). exists e. reflexivity.
  - destruct (skipped w); [apply IH; exact Hin|].
    destruct (diagnosticOf w) as [d|e]; [apply IH; exact Hin|].
    exists e. reflexivity.
Qed.


(** X12: one located vulnerability with a negative column makes the editor
    refuse its range; [updateDiagnostics] then throws after clearing the
    collection, so no file shows a diagnostic, whatever the other
    vulnerabilities and the collection before. *)
Theorem X12_negative_column_loses_all_diagnostics (vulns : list Vulnerability)
    (v : Vulnerability) (coll : gmap string (list SolidityAudit.Diagnostic)) :
  In v vulns -> skipped v = false -> columnIndex v < 0 ->
  exists e, updateDiagnostics vulns coll = (Throw e, ∅).
Proof.
  intros Hin Hs Hc. unfold updateDiagnostics.
  destruct (group_throws vulns v ∅ Hin Hs Hc) as (e & ->).
  exists e. reflexivity.
Qed.

End AuditTreeProperties.

Section AuditTreeExamples.

Import AuditDashboard AuditDashboardMore.

Lemma X9_witness :
  let vulns := mockVulnerabilities "contracts/Vault.sol" in
  (getChildren vulns None = [] <-> List.filter recognised vulns = []).
Proof.
  intros vulns.
  apply (proj2 (X9_root_counts_recognised_severities vulns)).
  discriminate.
Defined.

Lemma X10_witness :
  let vulns := mockVulnerabilities "contracts/Vault.sol" in
  exists g, severityGroup vulns "High" = Some g
    /\ getChildren vulns (Some g) = vulnerabilityItem <$> vulnsForSeverity vulns "High".
Proof.
  intros vulns.
  destruct (severityGroup vulns "High") as [g|] eqn:Hg; [|vm_compute in Hg; discriminate].
  exists g. split; [reflexivity|].
  apply (X10_group_expands_to_its_vulnerabilities vulns "High" g);
    [simpl; tauto | exact Hg].
Defined.


Lemma X12_witness :
  let bad :=
    {| id := "VULN-003"; title := Some "Shadowed variable"; description := "";
       severity := "Low";
       location := Some {| file := Some "contracts/Vault.sol"; line := Some 3;
                           column := Some (-1) |};
       recommendation := "" |} in
  exists e,
    updateDiagnostics (mockVulnerabilities "contracts/Vault.sol" ++ [bad]) ∅ = (Throw e, ∅).
Proof.
  intros bad.
  apply (X12_negative_column_loses_all_diagnostics _ bad ∅).
  - apply in_or_app. right. left. reflexivity.
  - reflexivity.
  - reflexivity.
Defined.

End AuditTreeExamples.

(** * Properties of the transaction tree *)

Section TransactionTreeProperties.

Import SolidityAudit TransactionCenterView.

Variable env : Env.
Variable toLocaleString : JsValue -> string.

Lemma prop_record (tx : JsValue) (k : string) :
  isRecord tx = true -> prop tx k = Ret (Js.get_opt tx k).
Proof. destruct tx; try discriminate. reflexivity. Qed.

Lemma filterO_total {A : Type} (f : A -> Outcome bool) (p : A -> bool) (l : list A) :
  (forall x, In x l -> f x = Ret (p x)) -> filterO f l = Ret (List.filter p l).
Proof.
  induction l as [|x rest IH]; intros Hf; [reflexivity|].
  cbn [filterO List.filter]. rewrite (Hf x) by (left; reflexivity).
  cbn [bindO]. rewrite IH by (intros y Hy; apply Hf; right; exact Hy).
  reflexivity.
Qed.

Lemma filterO_throws {A : Type} (f : A -> Outcome bool) (l : list A) :
  (forall y, In y l -> (exists b, f y = Ret b) \/ typeError (f y)) ->
  (exists x, In x l /\ typeError (f x)) ->
  typeError (filterO f l).
Proof.
  induction l as [|y rest IH]; intros Hall (x & Hin & Hx); [destruct Hin|].
  cbn [filterO]. destruct (Hall y (or_introl eq_refl)) as [(b & Hb)|(msg & Hmsg)].
  - rewrite Hb. cbn [bindO].
    destruct IH as (msg & Hmsg).
    + intros z Hz. apply Hall. right. exact Hz.
    + destruct Hin as [->|Hin].
      * destruct Hx as (msg & Hmsg). congruence.
      * exists x. split; [exact Hin | exact Hx].
    + rewrite Hmsg. exists msg. reflexivity.
  - rewrite Hmsg. exists msg. reflexivity.
Qed.

Lemma all_records (txs : list JsValue) (tx : JsValue) :
  forallb isRecord txs = true -> In tx txs -> isRecord tx = true.
Proof. intros H Hin. rewrite forallb_forall in H. apply H. exact Hin. Qed.

Lemma filter_exactly (txs : list JsValue) (type : string) :
  forallb isRecord txs = true ->
  filterO (hasType type) txs = Ret (List.filter (exactly type) txs).
Proof.
  intros Hrec. apply filterO_total. intros tx Hin.
  unfold hasType, exactly. rewrite prop_record by (eapply all_records; eauto).
  reflexivity.
Qed.

Lemma hasTypeAnyCase_record (type : string) (tx : JsValue) :
  isRecord tx = true ->
  (stringAt "type" tx = true /\ hasTypeAnyCase type tx = Ret (inAnyCase type tx))
  \/ (stringAt "type" tx = false /\ typeError (hasTypeAnyCase type tx)).
Proof.
  intros Hrec. unfold hasTypeAnyCase, inAnyCase, stringAt.
  rewrite prop_record by exact Hrec. cbn [bindO].
  destruct (Js.get_opt tx "type"); cbn [toLowerCase bindO Js.is_string];
    first [ left; split; reflexivity
          | right; split; [reflexivity | eexists; reflexivity] ].
Qed.

Lemma type_names_lower :
  JsString.toLowerCase "Contract Deployment" = "contract deployment"
  /\ JsString.toLowerCase "Contract Call" = "contract call"
  /\ JsString.toLowerCase "Topic Creation" = "topic creation"
  /\ JsString.toLowerCase "Topic Message" = "topic message".
Proof. vm_compute. repeat split. Qed.

(** The context value of a group leads back to the group's type, in lower
    case. *)
Lemma context_round_trip (type : string) :
  In type types ->
  let c := "type-" +:+ JsString.replace_first (JsString.toLowerCase type) " " "-" in
  is_type_context (Some c) = true
  /\ JsString.toLowerCase (typeOfContext c) = JsString.toLowerCase type.
Proof.
  unfold types. cbn [In].
  intros [<-|[<-|[<-|[<-|[]]]]]; vm_compute; split; reflexivity.
Qed.

Lemma exactly_inAnyCase (type : string) (tx : JsValue) :
  exactly type tx = true -> inAnyCase type tx = true.
Proof.
  unfold exactly, inAnyCase, Deployment.strict_eq.
  destruct (Js.get_opt tx "type"); try discriminate.
  unfold JsString.eqb. intros H. apply String.eqb_eq in H. subst.
  apply String.eqb_refl.
Qed.

Lemma filter_length_le {A : Type} (p q : A -> bool) (l : list A) :
  (forall x, p x = true -> q x = true) ->
  (length (List.filter p l) <= length (List.filter q l))%nat.
Proof.
  intros Hpq. induction l as [|x rest IH]; [reflexivity|].
  cbn [List.filter]. destruct (p x) eqn:Hp.
  - rewrite (Hpq x Hp). cbn [length]. lia.
  - destruct (q x); cbn [length]; lia.
Qed.

Lemma typeGroup_record (txs : list JsValue) (type : string) :
  forallb isRecord txs = true ->
  exists entry, typeGroup txs type = Ret entry /\ groupEntry txs type entry.
Proof.
  intros Hrec. unfold typeGroup, groupEntry. rewrite filter_exactly by exact Hrec.
  cbn [bindO].
  destruct (List.filter (exactly type) txs) as [|tx rest] eqn:Hf.
  - exists None. split; reflexivity.
  - cbn [length Nat.eqb]. eexists (Some _). split; [reflexivity|].
    cbn [label contextValue]. split; [discriminate|]. split; reflexivity.
Qed.

Lemma root_entries (txs : list JsValue) (tys : list string) :
  forallb isRecord txs = true ->
  exists entries,
    mapO (typeGroup txs) tys = Ret entries /\ Forall2 (groupEntry txs) tys entries.
Proof.
  intros Hrec. induction tys as [|type rest IH].
  - exists []. split; [reflexivity | constructor].
  - destruct IH as (entries & Hm & Hf).
    destruct (typeGroup_record txs type Hrec) as (entry & He & Hg).
    exists (entry :: entries). cbn [mapO]. rewrite He, Hm. cbn [bindO].
    split; [reflexivity | constructor; assumption].
Qed.

Lemma no_entries (txs : list JsValue) (tys : list string)
    (entries : list (option TransactionTreeItem)) :
  Forall2 (groupEntry txs) tys entries ->
  (omap (fun g => g) entries = []
   <-> forall type, In type tys -> List.filter (exactly type) txs = []).
Proof.
  induction 1 as [|type entry tys entries He Hf IH].
  - split; [intros _ type [] | reflexivity].
  - cbn [omap list_omap]. destruct entry as [g|]; cbn [groupEntry] in He.
    + split; [discriminate|]. intros Hnone. exfalso.
      apply (proj1 He). apply Hnone. left. reflexivity.
    + fold (omap (fun g : option TransactionTreeItem => g) entries). rewrite IH. split.
      * intros Hnone type' [<-|Hin]; [exact He | apply Hnone; exact Hin].
      * intros Hnone type' Hin. apply Hnone. right. exact Hin.
Qed.

Lemma shown_entries (txs : list JsValue) (tys : list string)
    (entries : list (option TransactionTreeItem)) (g : TransactionTreeItem) :
  Forall2 (groupEntry txs) tys entries ->
  In g (omap (fun g => g) entries) ->
  exists type, In type tys /\ groupEntry txs type (Some g).
Proof.
  induction 1 as [|type entry tys entries He Hf IH]; [intros []|].
  cbn [omap list_omap]. fold (omap (fun g : option TransactionTreeItem => g) entries).
  destruct entry as [g'|].
  - intros [<-|Hin].
    + exists type. split; [left; reflexivity | exact He].
    + destruct (IH Hin) as (type' & Hin' & Hg). exists type'. split; [right|]; assumption.
  - intros Hin.
    destruct (IH Hin) as (type' & Hin' & Hg). exists type'. split; [right|]; assumption.
Qed.

Lemma rows_of_records (l : list JsValue) :
  (forall tx, In tx l -> isRecord tx = true /\ stringAt "status" tx = true) ->
  exists rows,
    mapO (transactionItem env toLocaleString) l = Ret rows
    /\ label <$> rows = (fun tx => Js.get_opt tx "id") <$> l.
Proof.
  induction l as [|tx rest IH]; intros Hall.
  - exists []. split; reflexivity.
  - destruct IH as (rows & Hrows & Hlabels).
    { intros y Hy. apply Hall. right. exact Hy. }
    destruct (Hall tx (or_introl eq_refl)) as (Hrec & Hstatus).
    cbn [mapO]. unfold transactionItem at 1.
    rewrite !prop_record by exact Hrec. cbn [bindO].
    unfold stringAt in Hstatus. unfold getStatusIcon.
    destruct (Js.get_opt tx "status"); try discriminate.
    cbn [toLowerCase bindO]. rewrite Hrows.
    eexists. split; [reflexivity|].
    rewrite !fmap_cons, Hlabels. reflexivity.
Qed.

(** X13: the root of the transaction tree groups by exact type name.
    When the service is connected and the records are objects, the root
    is rendered; it is empty exactly when no record carries one of the
    four type names letter for letter, so a non-empty list of records of
    other types (as [CONTRACT_DEPLOY]) shows neither a group nor the
    [No Transactions] row.  Every group shown names its type and the
    number of records of exactly that type. *)
Theorem X13_transaction_root_groups_exact_types (txs : list JsValue) :
  txs <> [] ->
  forallb isRecord txs = true ->
  exists groups,
    getChildren env toLocaleString true txs None = Ret groups
    /\ (groups = [] <-> forall type, In type types -> List.filter (exactly type) txs = [])
    /\ (forall g, In g groups ->
          exists type, In type types
            /\ List.filter (exactly type) txs <> []
            /\ label g
               = JStr (type +:+ " ("
                       +:+ JsString.of_nat (length (List.filter (exactly type) txs))
                       +:+ ")")).
Proof.
  intros Hne Hrec. unfold getChildren. cbn [negb].
  assert (Hlen : (length txs =? 0)%nat = false) by (destruct txs; [congruence | reflexivity]).
  rewrite Hlen.
  destruct (root_entries txs types Hrec) as (entries & Hm & Hf).
  rewrite Hm. cbn [bindO]. eexists. split; [reflexivity|]. split.
  - apply no_entries. exact Hf.
  - intros g Hg. destruct (shown_entries txs types entries g Hf Hg) as (type & Hin & He).
    exists type. cbn [groupEntry] in He. destruct He as (F & L & _).
    split; [exact Hin|]. split; assumption.
Qed.

(** X14: a group of the root counts the records whose type is its name
    letter for letter, but expanding it lists the records whose type is
    its name in any letter case.  When every record is an object with a
    string type and a string status, the expansion returns one row per
    such record, labelled by the record's id, in the order of the list;
    the number in the group's label is at most the number of rows. *)
Theorem X14_group_expansion_ignores_case (txs : list JsValue) (type : string)
    (g : TransactionTreeItem) :
  In type types ->
  forallb isRecord txs = true ->
  forallb (stringAt "type") txs = true ->
  forallb (stringAt "status") txs = true ->
  typeGroup txs type = Ret (Some g) ->
  exists rows,
    getChildren env toLocaleString true txs (Some g) = Ret rows
    /\ label <$> rows
       = (fun tx => Js.get_opt tx "id") <$> List.filter (inAnyCase type) txs
    /\ label g
       = JStr (type +:+ " ("
               +:+ JsString.of_nat (length (List.filter (exactly type) txs)) +:+ ")")
    /\ (0 < length (List.filter (exactly type) txs) <= length rows)%nat.
Proof.
  intros Hin Hrec Htype Hstatus Hg.
  destruct (typeGroup_record txs type Hrec) as (entry & E & He).
  rewrite E in Hg. injection Hg as ->. cbn [groupEntry] in He.
  destruct He as (F & L & C).
  destruct (context_round_trip type Hin) as (Hctx & Hback). cbv zeta in Hctx, Hback.
  assert (Hne : (length txs =? 0)%nat = false).
  { destruct txs; [exfalso; apply F; reflexivity | reflexivity]. }
  unfold getChildren. cbn [negb]. rewrite Hne, C, Hctx. cbn [default]. cbv zeta.
  unfold id.
  assert (Hsel : filterO
            (hasTypeAnyCase
               (typeOfContext
                  ("type-" +:+ JsString.replace_first (JsString.toLowerCase type) " " "-")))
            txs
          = Ret (List.filter (inAnyCase type) txs)).
  { apply filterO_total. intros tx Htx.
    assert (Hr : isRecord tx = true) by (eapply all_records; eauto).
    destruct (hasTypeAnyCase_record
                (typeOfContext
                   ("type-" +:+ JsString.replace_first (JsString.toLowerCase type) " " "-"))
                tx Hr) as [(_ & ->)|(Hno & _)].
    - unfold inAnyCase. rewrite Hback. reflexivity.
    - rewrite forallb_forall in Htype. rewrite (Htype tx Htx) in Hno. discriminate. }
  rewrite Hsel. cbn [bindO].
  destruct (rows_of_records (List.filter (inAnyCase type) txs)) as (rows & Hrows & Hlabels).
  { intros tx Htx. apply filter_In in Htx. destruct Htx as (Htx & _). split.
    - eapply all_records; eauto.
    - rewrite forallb_forall in Hstatus. apply Hstatus. exact Htx. }
  exists rows. split; [exact Hrows|]. split; [exact Hlabels|]. split; [exact L|].
  assert (Hlen : length rows = length (List.filter (inAnyCase type) txs)).
  { rewrite <- (length_fmap label rows), Hlabels, length_fmap. reflexivity. }
  rewrite Hlen. split.
  - destruct (List.filter (exactly type) txs); [congruence | cbn [length]; lia].
  - apply filter_length_le. apply exactly_inAnyCase.
Qed.

(** X15: one record whose type is not a string (a record without a type,
    say) does not disturb the root, where types are compared as values,
    but makes the expansion of every group fail with a [TypeError], since
    the expansion calls [toLowerCase] on the type of every record. *)
Theorem X15_untyped_record_breaks_expansion (txs : list JsValue) (tx : JsValue)
    (g : TransactionTreeItem) :
  forallb isRecord txs = true ->
  In tx txs -> stringAt "type" tx = false ->
  is_type_context (contextValue g) = true ->
  (exists groups, getChildren env toLocaleString true txs None = Ret groups)
  /\ typeError (getChildren env toLocaleString true txs (Some g)).
Proof.
  intros Hrec Hin Hno Hctx.
  assert (Hne : (length txs =? 0)%nat = false) by (destruct txs; [destruct Hin | reflexivity]).
  split.
  - unfold getChildren. cbn [negb]. rewrite Hne.
    destruct (root_entries txs types Hrec) as (entries & Hm & _).
    rewrite Hm. cbn [bindO]. eexists. reflexivity.
  - unfold getChildren. cbn [negb]. rewrite Hne, Hctx. cbv zeta.
    destruct (filterO_throws
                (hasTypeAnyCase (typeOfContext (default "" (contextValue g)))) txs)
      as (msg & Hmsg).
    + intros y Hy.
      destruct (hasTypeAnyCase_record (typeOfContext (default "" (contextValue g))) y
                  (all_records txs y Hrec Hy)) as [(_ & E)|(_ & E)].
      * left. eexists. exact E.
      * right. exact E.
    + exists tx. split; [exact Hin|].
      destruct (hasTypeAnyCase_record (typeOfContext (default "" (contextValue g))) tx
                  (all_records txs tx Hrec Hin)) as [(Hyes & _)|(_ & E)].
      * congruence.
      * exact E.
    + rewrite Hmsg. exists msg. reflexivity.
Qed.

End TransactionTreeProperties.

Section TransactionTreeExamples.

Import SolidityAudit TransactionCenterView.

Lemma X13_witness :
  let deployed :=
    JObj [("id", JStr "deploy-1700000000000"); ("type", JStr "CONTRACT_DEPLOY");
          ("timestamp", JInt 1700000000000); ("status", JStr "SUCCESS")] in
  getChildren Sample.env (fun _ => "14/11/2023, 22:13:20") true [deployed] None = Ret [].
Proof.
  intros deployed.
  destruct (X13_transaction_root_groups_exact_types Sample.env
              (fun _ => "14/11/2023, 22:13:20") [deployed])
    as (groups & Hroot & Hempty & _); [discriminate | reflexivity |].
  rewrite Hroot. f_equal. apply Hempty.
  intros type [<-|[<-|[<-|[<-|[]]]]]; reflexivity.
Defined.

Lemma X14_witness :
  let txs :=
    [JObj [("id", JStr "call-1"); ("type", JStr "Contract Call"); ("status", JStr "SUCCESS")];
     JObj [("id", JStr "call-2"); ("type", JStr "contract call"); ("status", JStr "pending")]] in
  exists g rows,
    typeGroup txs "Contract Call" = Ret (Some g)
    /\ label g = JStr "Contract Call (1)"
    /\ getChildren Sample.env (fun _ => "14/11/2023, 22:13:20") true txs (Some g) = Ret rows
    /\ label <$> rows = [JStr "call-1"; JStr "call-2"].
Proof.
  intros txs.
  destruct (typeGroup txs "Contract Call") as [[g|]|e] eqn:Hg;
    [|vm_compute in Hg; discriminate|vm_compute in Hg; discriminate].
  destruct (X14_group_expansion_ignores_case Sample.env (fun _ => "14/11/2023, 22:13:20")
              txs "Contract Call" g)
    as (rows & Hrows & Hlabels & Hlabel & _);
    [simpl; tauto | reflexivity | reflexivity | reflexivity | exact Hg |].
  exists g, rows. split; [reflexivity|]. split; [exact Hlabel|].
  split; [exact Hrows | exact Hlabels].
Defined.

Lemma X15_witness :
  let txs :=
    [JObj [("id", JStr "call-1"); ("type", JStr "Contract Call"); ("status", JStr "SUCCESS")];
     JObj [("id", JStr "legacy-7"); ("status", JStr "SUCCESS")]] in
  exists g,
    typeGroup txs "Contract Call" = Ret (Some g)
    /\ typeError (getChildren Sample.env (fun _ => "14/11/2023, 22:13:20") true txs (Some g)).
Proof.
  intros txs.
  destruct (typeGroup txs "Contract Call") as [[g|]|e] eqn:Hg;
    [|vm_compute in Hg; discriminate|vm_compute in Hg; discriminate].
  exists g. split; [reflexivity|].
  apply (X15_untyped_record_breaks_expansion Sample.env (fun _ => "14/11/2023, 22:13:20")
           txs (JObj [("id", JStr "legacy-7"); ("status", JStr "SUCCESS")]) g).
  - reflexivity.
  - right. left. reflexivity.
  - reflexivity.
  - vm_compute in Hg. injection Hg as <-. reflexivity.
Defined.

End TransactionTreeExamples.

(** * Further properties of the audit diagnostics *)

Section SolidityAuditLinesProperties.

Import Regex SolidityAudit SolidityAuditLines.

Lemma collect_throws (document : TextDocument) (vulns : list Vulnerability)
    (v : Vulnerability) (e0 : Thrown) :
  In v vulns -> diagnosticFor document v = Throw e0 ->
  exists e, collect document vulns = Throw e.
Proof.
  intros Hin Hv. induction vulns as [|w ws IH]; [destruct Hin|].
  cbn [collect]. destruct Hin as [->|Hin].
  - rewrite Hv. exists e0. reflexivity.
  - destruct (diagnosticFor document w) as [d|e]; cbn [bindO].
    + destruct (IH Hin) as (e & ->). exists e. reflexivity.
    + exists e. reflexivity.
Qed.

Lemma diagnosticFor_outside (document : TextDocument) (v : Vulnerability)
    (caps : Captures) :
  capturesOf (location v) = Some caps -> inDocument document caps = false ->
  exists e, diagnosticFor document v = Throw e.
Proof.
  unfold capturesOf, inDocument, diagnosticFor, lineMatch.
  destruct (location v) as [| | | |s| |]; try discriminate.
  intros -> Hout. cbn [bindO]. cbv zeta.
  fold (startLine caps). fold (endLine caps).
  unfold newPosition at 1. cbn [orb Z.ltb Z.compare].
  destruct (Z.ltb_spec (startLine caps) 0) as [Hs|Hs]; cbn [orb bindO].
  { eexists. reflexivity. }
  unfold lineAt.
  destruct (Z.ltb_spec (endLine caps) 0) as [He|He]; cbn [bindO].
  { eexists. reflexivity. }
  destruct (lines document !! Z.to_nat (endLine caps)) as [text|] eqn:Hl; cbn [bindO].
  - exfalso. apply lookup_lt_Some in Hl.
    apply andb_false_iff in Hout. destruct Hout as [Hout|Hout].
    + apply andb_false_iff in Hout. destruct Hout as [Hout|Hout];
        apply Z.leb_gt in Hout; lia.
    + apply Z.ltb_ge in Hout. lia.
  - eexists. reflexivity.
Qed.




(** X16: one vulnerability whose location names a line outside the
    document (line 0, or a line past the last one) makes the update of the
    whole audit result fail: the diagnostics the document showed before are
    removed and none is set, also for the vulnerabilities whose lines
    exist.  The diagnostics of other documents are not touched. *)
Theorem X16_line_outside_document_fails_update
    (document : TextDocument) (result : AuditResult) (v : Vulnerability)
    (caps : Captures) (coll : DiagnosticCollection) :
  In v (static_analysis result) ->
  capturesOf (location v) = Some caps ->
  inDocument document caps = false ->
  (exists e, fst (updateDiagnostics document (Some result) coll) = Throw e)
  /\ shown (uri document) (snd (updateDiagnostics document (Some result) coll)) = []
  /\ forall u, u <> uri document ->
       snd (updateDiagnostics document (Some result) coll) !! u = coll !! u.
Proof.
  intros Hin Hcaps Hout.
  destruct (diagnosticFor_outside document v caps Hcaps Hout) as (e0 & He0).
  destruct (collect_throws document (static_analysis result) v e0 Hin He0) as (e & He).
  unfold updateDiagnostics, shown, DiagnosticCollection in *. cbv zeta.
  assert (Hlen : (length (static_analysis result) =? 0)%nat = false)
    by (destruct (static_analysis result); [destruct Hin | reflexivity]).
  rewrite Hlen, He. cbn [fst snd].
  split; [exists e; reflexivity|]. split.
  - rewrite lookup_delete_eq. reflexivity.
  - intros u Hu. rewrite lookup_delete_ne by congruence. reflexivity.
Qed.


End SolidityAuditLinesProperties.

Section SolidityAuditLinesExamples.

Import Regex SolidityAudit SolidityAuditLines.

Lemma X16_witness :
  let document := {| uri := "file:///contracts/Vault.sol";
                     lines := ["pragma solidity ^0.8.0;"; "contract Vault {"; "}"] |} in
  let found := {| title := "Reentrancy"; description := "State written after call";
                  severity := "High"; location := JStr "Lines 2-3" |} in
  let beyond := {| title := "Unused import"; description := "Import is never used";
                   severity := "Low"; location := JStr "line 9" |} in
  let result := {| static_analysis := [found; beyond]; ai_analysis := "" |} in
  let before := <[uri document := []]> (∅ : DiagnosticCollection) in
  (exists e, fst (updateDiagnostics document (Some result) before) = Throw e)
  /\ shown (uri document) (snd (updateDiagnostics document (Some result) before)) = [].
Proof.
  intros document found beyond result before.
  destruct (capturesOf (location beyond)) as [caps|] eqn:Hcaps;
    [|vm_compute in Hcaps; discriminate].
  destruct (X16_line_outside_document_fails_update document result beyond caps before)
    as (Hthrow & Hshown & _).
  - right. left. reflexivity.
  - exact Hcaps.
  - vm_compute in Hcaps. injection Hcaps as <-. vm_compute. reflexivity.
  - split; [exact Hthrow | exact Hshown].
Defined.


End SolidityAuditLinesExamples.

(** * Further properties of the panels *)

Section PanelLifeProperties.

Import Panels.

Variable t : Templates.





End PanelLifeProperties.

Section AuditSummaryProperties.

Import Panels AuditSummary.

Lemma countOf_cons (key : string) (v : SolidityAudit.Vulnerability)
    (vs : list SolidityAudit.Vulnerability) :
  countOf key (v :: vs)
  = ((if JsString.eqb (JsString.toLowerCase (SolidityAudit.severity v)) key
      then 1 else 0) + countOf key vs)%nat.
Proof.
  unfold countOf. cbn [List.filter].
  destruct (JsString.eqb _ key); reflexivity.
Qed.

Lemma counts_from (vulns : list SolidityAudit.Vulnerability) (c : SeverityCounts) :
  fold_left (fun c v => AuditDashboard.bump (SolidityAudit.severity v) c) vulns c
  = {| critical := critical c + countOf "critical" vulns;
       high := high c + countOf "high" vulns;
       medium := medium c + countOf "medium" vulns;
       low := low c + countOf "low" vulns;
       info := info c + countOf "info" vulns |}.
Proof.
  revert c. induction vulns as [|v vs IH]; intros c.
  - unfold countOf. cbn [fold_left List.filter length]. rewrite !Nat.add_0_r.
    destruct c; reflexivity.
  - cbn [fold_left]. rewrite IH, !countOf_cons. unfold AuditDashboard.bump. cbv zeta.
    unfold JsString.eqb.
    remember (JsString.toLowerCase (SolidityAudit.severity v)) as s eqn:Es. clear Es.
    destruct (String.eqb_spec s "critical") as [->|E1];
      [cbn [String.eqb Ascii.eqb Bool.eqb critical high medium low info]; f_equal; lia|].
    destruct (String.eqb_spec s "high") as [->|E2];
      [cbn [String.eqb Ascii.eqb Bool.eqb critical high medium low info]; f_equal; lia|].
    destruct (String.eqb_spec s "medium") as [->|E3];
      [cbn [String.eqb Ascii.eqb Bool.eqb critical high medium low info]; f_equal; lia|].
    destruct (String.eqb_spec s "low") as [->|E4];
      [cbn [String.eqb Ascii.eqb Bool.eqb critical high medium low info]; f_equal; lia|].
    destruct (String.eqb_spec s "info") as [->|E5];
      cbn [String.eqb Ascii.eqb Bool.eqb critical high medium low info]; f_equal; lia.
Qed.

Lemma countOf_disjoint (vulns : list SolidityAudit.Vulnerability) :
  (countOf "critical" vulns + countOf "high" vulns + countOf "medium" vulns
   + countOf "low" vulns + countOf "info" vulns
   + countOf "informational" vulns <= length vulns)%nat.
Proof.
  induction vulns as [|v vs IH]; [reflexivity|].
  rewrite !countOf_cons. cbn [length]. unfold JsString.eqb.
  remember (JsString.toLowerCase (SolidityAudit.severity v)) as s eqn:Es. clear Es.
  destruct (String.eqb_spec s "critical") as [->|E1]; [simpl; lia|].
  destruct (String.eqb_spec s "high") as [->|E2]; [simpl; lia|].
  destruct (String.eqb_spec s "medium") as [->|E3]; [simpl; lia|].
  destruct (String.eqb_spec s "low") as [->|E4]; [simpl; lia|].
  destruct (String.eqb_spec s "info") as [->|E5]; [simpl; lia|].
  destruct (String.eqb_spec s "informational") as [->|E6]; simpl; lia.
Qed.

(** X20: the five counters of the audit dashboard's summary.  Each one is
    the number of vulnerabilities whose severity, in lower case, is the
    counter's own name: [critical], [high], [medium], [low], [info].  A
    severity [Informational], which the diagnostics and the audit tree
    know, is in no counter: the counters add up to at most the number of
    vulnerabilities that are not informational. *)
Theorem X20_summary_counts_by_lower_case_name (vulns : list SolidityAudit.Vulnerability) :
  AuditDashboard.severityCounts vulns
  = {| critical := countOf "critical" vulns;
       high := countOf "high" vulns;
       medium := countOf "medium" vulns;
       low := countOf "low" vulns;
       info := countOf "info" vulns |}
  /\ (total (AuditDashboard.severityCounts vulns) + countOf "informational" vulns
      <= length vulns)%nat.
Proof.
  unfold AuditDashboard.severityCounts. rewrite counts_from.
  cbn [critical high medium low info Nat.add]. split; [reflexivity|].
  unfold total. cbn [critical high medium low info].
  apply countOf_disjoint.
Qed.

End AuditSummaryProperties.

Section PanelLifeExamples.

Import Panels.


End PanelLifeExamples.

(** * Further properties of the deployment utilities *)

Section DeploymentEdgeProperties.

Import Deployment Session.

Variable env : Env.

Ltac session_walk :=
  repeat first
    [ apply keeps_ret | apply keeps_throw | apply keeps_get_trace
    | apply keeps_this | apply keeps_lift_sdk | apply keeps_emit
    | apply keeps_try_catch; [|intros ?]
    | apply keeps_bind; [|intros ?]
    | match goal with
      | |- keeps_session (match ?x with _ => _ end) => destruct x
      | |- keeps_session (if ?b then _ else _) => destruct b
      end ].

Ltac quiet_walk :=
  repeat first
    [ apply emits_ret | apply emits_throw | apply emits_get_trace
    | apply emits_this | apply emits_lift_sdk
    | apply emits_emit; reflexivity
    | apply emits_try_catch; [|intros ?]
    | apply emits_bind; [|intros ?]
    | match goal with
      | |- emits _ (match ?x with _ => _ end) => destruct x
      | |- emits _ (if ?b then _ else _) => destruct b
      end ].

Lemma convertParam_pure (param ty : string) (st : State) :
  snd (convertParam env param ty st) = st.
Proof.
  unfold convertParam.
  repeat match goal with
  | |- context [if ?b then _ else _] => destruct b
  end; try reflexivity.
  destruct (json_parse env param); reflexivity.
Qed.

Lemma keeps_convertParam (param ty : string) : keeps_session (convertParam env param ty).
Proof. intros st. rewrite convertParam_pure. split; reflexivity. Qed.

Lemma keeps_promptAll (what cancelled : string) (ins : list AbiInput) :
  keeps_session (promptAll env what cancelled ins).
Proof.
  induction ins as [|input rest IH]; cbn [promptAll].
  - apply keeps_ret.
  - unfold showInputBox.
    apply keeps_bind; [session_walk|]. intros [text|]; [|apply keeps_throw].
    apply keeps_bind; [apply keeps_convertParam|]. intros value.
    apply keeps_bind; [exact IH|]. intros values. apply keeps_ret.
Qed.

Lemma keeps_compileStep (filePath : string) : keeps_session (compileStep env filePath).
Proof.
  unfold compileStep, SolidityUtils.readFileSync, ApiService.compileContract,
    ApiService.post, decode_abi.
  session_walk.
Qed.

Lemma keeps_promptStep (c : Compiled) : keeps_session (promptStep env c).
Proof.
  unfold promptStep, getConstructorParams.
  destruct (List.find _ (abi c)) as [constructor|]; [|apply keeps_ret].
  destruct (inputs constructor) as [ins|]; [|apply keeps_ret].
  apply keeps_promptAll.
Qed.

Lemma quiet_compileStep (filePath : string) :
  emits (fun ev => is_sdk_call ev = false) (compileStep env filePath).
Proof.
  unfold compileStep, SolidityUtils.readFileSync, ApiService.compileContract,
    ApiService.post, decode_abi.
  quiet_walk.
Qed.

Lemma quiet_promptStep (c : Compiled) :
  emits (fun ev => is_sdk_call ev = false) (promptStep env c).
Proof.
  unfold promptStep, getConstructorParams.
  destruct (List.find _ (abi c)) as [constructor|]; [|apply emits_ret].
  destruct (inputs constructor) as [ins|]; [|apply emits_ret].
  eapply emits_weaken; [|apply emits_promptAll].
  intros ev (p & ph & ->). reflexivity.
Qed.

Lemma deployStep_offline (c : Compiled) (ps : list JsValue) (st : State) :
  client (service st) = None ->
  deployStep env c ps st
  = (Throw Hedera.not_connected,
     {| service := service st; clients := clients st;
        trace := trace st ++ [EvProgress "Deploying to Hedera..."] |}).
Proof.
  intros Hc. unfold deployStep, Hedera.deployContract, Hedera.no_client. unfold_M.
  cbn [service]. rewrite Hc. reflexivity.
Qed.

(** X21: with the wrapper of this repository, [callContractMethod] of the
    deployment utilities fails on every call.  Without a client the
    wrapper refuses with [Not connected to Hedera]; with one, the contract
    info it returns carries no ABI, which the utility reports as
    [Contract ... not found or ABI not available].  Either way the error
    is logged, shown and rethrown, and nothing else happens: no prompt, no
    request to the SDK, no transaction record. *)
Theorem X21_method_call_fails_with_this_wrapper (contract methodName : string)
    (st : State) :
  let e := if Hedera.no_client (service st) then Hedera.not_connected
           else JsError ("Contract " +:+ contract +:+ " not found or ABI not available") in
  callContractMethod env (hederaService env) contract methodName st
  = (Throw e, callReported env e st).
Proof.
  unfold callContractMethod, hederaService, try_catch, bind. cbn [svc_getContractInfo].
  unfold Hedera.getContractInfo, Hedera.Date_now, Hedera.no_client. unfold_M.
  cbn [service]. destruct (client (service st)); cbn [fst snd].
  - unfold callWithInfo. cbn. unfold callReported, reported.
    cbn [service clients trace error_text]. rewrite <- app_assoc. reflexivity.
  - apply callFailed_run.
Qed.

(** X22: [deployContract] turns a file away before it reads it.  When the
    file does not exist, or its extension is not [.sol] in any letter
    case, the call throws [File not found: ...] or [Only Solidity files
    can be deployed]; all it has done is look for the file and report the
    error: the file is not read, nothing is compiled, asked or sent. *)
Theorem X22_deploy_rejects_file_before_reading (filePath : string) (st : State) :
  fs_existsSync env (trace st) filePath = false
  \/ SolidityUtils.isSolidityFile env filePath = false ->
  let e := if fs_existsSync env (trace st) filePath
           then JsError "Only Solidity files can be deployed"
           else JsError ("File not found: " +:+ filePath) in
  deployContract env filePath st
  = (Throw e,
     {| service := service st; clients := clients st;
        trace := trace st ++
          [EvFsExists filePath;
           EvConsoleError "Failed to deploy contract:" e;
           EvErrorMessage ("Failed to deploy contract: " +:+ error_text env e)] |}).
Proof.
  intros Hbad e.
  assert (Hstep : compileStep env filePath st
                  = (Throw e, {| service := service st; clients := clients st;
                                 trace := trace st ++ [EvFsExists filePath] |})).
  { subst e. unfold compileStep. unfold_M. cbn [trace].
    destruct (fs_existsSync env (trace st) filePath); cbn [negb].
    - destruct Hbad as [Hbad|Hbad]; [discriminate|]. rewrite Hbad. reflexivity.
    - reflexivity. }
  rewrite (abort_compile env filePath st _ e Hstep).
  unfold deployReported, reported. cbn [service clients trace].
  rewrite <- app_assoc. reflexivity.
Qed.

(** X23: [deployContract] finds out that the wrapper has no client only
    at its third step.  Started without a client it never returns; it
    sends nothing to the SDK and leaves the session as it was; but the
    file is compiled through the backend and every constructor parameter
    is asked from the user first: when both succeed, the call fails with
    [Not connected to Hedera] right after announcing the deployment. *)
Theorem X23_deploy_checks_connection_after_prompts (filePath : string) (st : State) :
  client (service st) = None ->
  let r := deployContract env filePath st in
  (exists e, fst r = Throw e)
  /\ service (snd r) = service st
  /\ clients (snd r) = clients st
  /\ (exists evs, trace (snd r) = trace st ++ evs
                  /\ Forall (fun ev => is_sdk_call ev = false) evs)
  /\ (forall c s1 ps s2,
        compileStep env filePath st = (Ret c, s1) ->
        promptStep env c s1 = (Ret ps, s2) ->
        r = (Throw Hedera.not_connected,
             deployReported env Hedera.not_connected
               {| service := service s2; clients := clients s2;
                  trace := trace s2 ++ [EvProgress "Deploying to Hedera..."] |})).
Proof.
  intros Hc r. subst r.
  destruct (keeps_compileStep filePath st) as (K1 & K1').
  destruct (quiet_compileStep filePath st) as (l1 & T1 & Q1).
  destruct (compileStep env filePath st) as [[c|e] s1] eqn:E1; cbn [snd] in *.
  2:{ rewrite (abort_compile env filePath st s1 e E1).
      unfold deployReported, reported. cbn [fst snd service clients trace].
      split; [eexists; reflexivity|]. split; [exact K1|]. split; [exact K1'|].
      split; [|intros; discriminate].
      eexists. rewrite T1, <- app_assoc. split; [reflexivity|].
      apply Forall_app. split; [exact Q1|]. repeat constructor. }
  destruct (keeps_promptStep c s1) as (K2 & K2').
  destruct (quiet_promptStep c s1) as (l2 & T2 & Q2).
  destruct (promptStep env c s1) as [[ps|e] s2] eqn:E2; cbn [snd] in *.
  2:{ rewrite (abort_prompt env filePath st s1 s2 c e E1 E2).
      unfold deployReported, reported. cbn [fst snd service clients trace].
      split; [eexists; reflexivity|]. split; [congruence|]. split; [congruence|].
      split; [|intros ? ? ? ? [= <- <-]; rewrite E2; discriminate].
      eexists. rewrite T2, T1, <- !app_assoc. split; [reflexivity|].
      apply Forall_app. split; [exact Q1|].
      apply Forall_app. split; [exact Q2|]. repeat constructor. }
  assert (Hc2 : client (service s2) = None) by congruence.
  pose proof (deployStep_offline c ps s2 Hc2) as E3.
  rewrite (abort_deploy env filePath st s1 s2 _ c ps _ E1 E2 E3).
  unfold deployReported, reported. cbn [fst snd service clients trace].
  split; [eexists; reflexivity|]. split; [congruence|]. split; [congruence|].
  split.
  - eexists. rewrite T2, T1, <- !app_assoc. split; [reflexivity|].
    apply Forall_app. split; [exact Q1|].
    apply Forall_app. split; [exact Q2|]. repeat constructor.
  - intros c' s1' ps' s2' [= <- <-]. rewrite E2. intros [= <- <-]. reflexivity.
Qed.


(** X25: [convertParam] has no effect and fails in one case only.  The
    text typed for an integer or bytes type, and for their array forms
    such as [uint256[]], is handed on as it is: such an array is never
    parsed.  The call throws only for a type ending in [[]] whose text
    [JSON.parse] refuses, with [Invalid array format for parameter of
    type ...]; [bool] is true exactly on the text [true] in any letter
    case. *)
Theorem X25_convertParam_cases (param ty : string) (st : State) :
  let r := convertParam env param ty st in
  snd r = st
  /\ (JsString.startsWith ty "uint" || JsString.startsWith ty "int"
      || JsString.startsWith ty "bytes" = true -> fst r = Ret (JStr param))
  /\ (ty = "bool" ->
      fst r = Ret (JBool (JsString.eqb (JsString.toLowerCase param) "true")))
  /\ (forall e, fst r = Throw e ->
        JsString.endsWith ty "[]" = true
        /\ json_parse env param = None
        /\ e = JsError ("Invalid array format for parameter of type " +:+ ty)).
Proof.
  cbv zeta. split; [apply convertParam_pure|]. unfold convertParam. unfold_M.
  split; [|split].
  - intros H.
    destruct (JsString.startsWith ty "uint" || JsString.startsWith ty "int") eqn:Hint;
      [reflexivity|].
    cbn [orb] in H.
    destruct ty as [|a ty]; [discriminate|].
    destruct (JsString.eqb (String a ty) "bool") eqn:E1.
    { apply String.eqb_eq in E1. rewrite E1 in H. discriminate. }
    destruct (JsString.eqb (String a ty) "address") eqn:E2.
    { apply String.eqb_eq in E2. rewrite E2 in H. discriminate. }
    destruct (JsString.eqb (String a ty) "string") eqn:E3.
    { apply String.eqb_eq in E3. rewrite E3 in H. discriminate. }
    rewrite H. reflexivity.
  - intros ->. reflexivity.
  - intros e.
    repeat match goal with
    | |- context [if ?b then _ else _] => destruct b eqn:?
    end; try discriminate.
    destruct (json_parse env param); [discriminate|].
    intros [= <-]. repeat split; reflexivity.
Qed.

End DeploymentEdgeProperties.

Section DeploymentEdgeExamples.

Import Deployment.

Lemma X22_witness :
  fst (deployContract SampleFiles.notes "notes.txt" Sample.online)
    = Throw (JsError "Only Solidity files can be deployed")
  /\ fst (deployContract SampleFiles.notes "contracts/Token.sol" Sample.online)
    = Throw (JsError "File not found: contracts/Token.sol").
Proof.
  split.
  - rewrite (X22_deploy_rejects_file_before_reading SampleFiles.notes "notes.txt"
               Sample.online); [reflexivity | right; reflexivity].
  - rewrite (X22_deploy_rejects_file_before_reading SampleFiles.notes
               "contracts/Token.sol" Sample.online); [reflexivity | left; reflexivity].
Defined.

Lemma X23_witness :
  let env := Sample.with_backend Sample.env Sample.compiling Sample.answering in
  fst (deployContract env "contracts/Token.sol" Sample.start) = Throw Hedera.not_connected.
Proof.
  intros env.
  destruct (X23_deploy_checks_connection_after_prompts env "contracts/Token.sol"
              Sample.start eq_refl) as (_ & _ & _ & _ & Hlate).
  rewrite (Hlate Sample.compiled_contract
             (snd (compileStep env "contracts/Token.sol" Sample.start))
             [JStr "1000000"]
             (snd (promptStep env Sample.compiled_contract
                     (snd (compileStep env "contracts/Token.sol" Sample.start)))));
    [reflexivity | vm_compute; reflexivity | vm_compute; reflexivity].
Defined.

Lemma X25_witness :
  fst (convertParam Sample.env "[1,2]" "uint256[]" Sample.start) = Ret (JStr "[1,2]").
Proof.
  apply (X25_convertParam_cases Sample.env "[1,2]" "uint256[]" Sample.start).
  reflexivity.
Defined.

End DeploymentEdgeExamples.

(** * Properties of the transaction list *)

Section TransactionListProperties.

Import SolidityAudit TransactionCenterView TransactionList.

Variable env : Env.
Variable toLocaleString : JsValue -> string.

Lemma safe_Ret {A : Type} (a : A) : returnsOrTypeError (Ret a).
Proof. left. exists a. reflexivity. Qed.

Lemma safe_bindO {A B : Type} (o : Outcome A) (k : A -> Outcome B) :
  returnsOrTypeError o -> (forall a, returnsOrTypeError (k a)) ->
  returnsOrTypeError (bindO o k).
Proof.
  intros [(a & ->)|(msg & ->)] Hk; cbn [bindO]; [apply Hk|].
  right. exists msg. reflexivity.
Qed.

Lemma safe_prop (tx : JsValue) (k : string) : returnsOrTypeError (prop tx k).
Proof.
  destruct tx; cbn [prop];
    first [apply safe_Ret | right; eexists; reflexivity].
Qed.

Lemma safe_toLowerCase (v : JsValue) : returnsOrTypeError (toLowerCase v).
Proof.
  destruct v; cbn [toLowerCase];
    first [apply safe_Ret | right; eexists; reflexivity].
Qed.

Ltac safe_walk :=
  repeat first
    [ apply safe_Ret | apply safe_prop | apply safe_toLowerCase
    | apply safe_bindO; [|intros ?]
    | match goal with
      | |- returnsOrTypeError (if ?b then _ else _) => destruct b
      end ].

Lemma safe_transactionItem (tx : JsValue) :
  returnsOrTypeError (transactionItem env toLocaleString tx).
Proof.
  unfold transactionItem, getTransactionLabel, detail, newItem. safe_walk.
Qed.

Lemma mapO_all_or_nothing {A B : Type} (f : A -> Outcome B) (l : list A) :
  (forall x, In x l -> returnsOrTypeError (f x)) ->
  (exists ys, mapO f l = Ret ys /\ Forall2 (fun x y => f x = Ret y) l ys)
  \/ (typeError (mapO f l) /\ exists x, In x l /\ typeError (f x)).
Proof.
  induction l as [|x rest IH]; intros Hsafe.
  - left. exists []. split; [reflexivity | constructor].
  - cbn [mapO]. destruct (Hsafe x (or_introl eq_refl)) as [(y & Hy)|(msg & Hmsg)].
    + rewrite Hy. cbn [bindO].
      destruct IH as [(ys & Hys & Hall)|((msg & Hmsg) & z & Hz & Hzt)].
      * intros z Hz. apply Hsafe. right. exact Hz.
      * left. exists (y :: ys). rewrite Hys. split; [reflexivity|].
        constructor; assumption.
      * right. rewrite Hmsg. split; [exists msg; reflexivity|].
        exists z. split; [right; exact Hz | exact Hzt].
    + right. rewrite Hmsg. split; [exists msg; reflexivity|].
      exists x. split; [left; reflexivity | exists msg; exact Hmsg].
Qed.

Lemma mapO_stops {A B : Type} (f : A -> Outcome B) (l : list A) (x : A) :
  (forall y, In y l -> returnsOrTypeError (f y)) ->
  In x l -> typeError (f x) -> typeError (mapO f l).
Proof.
  intros Hsafe Hin (msg & Hmsg).
  destruct (mapO_all_or_nothing f l Hsafe) as [(ys & _ & Hall)|(Hthrow & _)];
    [|exact Hthrow].
  exfalso. induction Hall as [|y b l ys Hy _ IH]; [destruct Hin|].
  destruct Hin as [->|Hin].
  - congruence.
  - apply IH; [|exact Hin]. intros z Hz. apply Hsafe. right. exact Hz.
Qed.

Lemma untyped_item_fails (tx : JsValue) :
  stringAt "type" tx = false -> typeError (transactionItem env toLocaleString tx).
Proof.
  unfold stringAt, transactionItem, getTransactionLabel. intros Hno.
  destruct tx as [| |b|q|s0|l|fs]; cbn [prop bindO Js.get_opt] in *;
    try (eexists; reflexivity).
  destruct (Js.assoc "type" fs); cbn [toLowerCase bindO Js.is_string] in *;
    first [discriminate | eexists; reflexivity].
Qed.

(** X26: [getChildren] of the transaction list never throws.  With a row
    passed, or without a connection, it returns no row and changes
    nothing.  Otherwise an empty list is first filled with the three
    demonstration records, and then either every record held gets its
    row, in order, and nothing is reported; or some record makes the
    runtime throw a [TypeError], and then no row at all is returned and
    the error is logged and shown.  The demonstration records always
    render, as a deployment, a call and a topic creation. *)
Theorem X26_transaction_list_all_rows_or_none (element isConnected : bool)
    (tr : list Event) (txs : list JsValue) :
  let r := getChildren env toLocaleString element isConnected tr txs in
  (element = true \/ isConnected = false ->
     r = {| rows := []; held := txs; reported := [] |})
  /\ (element = false -> isConnected = true ->
       held r = match txs with
                | [] => mockTransactions (date_now env tr)
                | _ => txs
                end
       /\ ((reported r = []
            /\ Forall2 (fun tx row => transactionItem env toLocaleString tx = Ret row)
                 (held r) (rows r))
           \/ (rows r = []
               /\ exists msg,
                    reported r =
                      [EvConsoleError "Failed to get transactions:" (TypeError msg);
                       EvErrorMessage
                         ("Failed to get transactions: TypeError: " +:+ msg)])))
  /\ (element = false -> isConnected = true -> txs = [] ->
       reported r = []
       /\ label <$> rows r
          = ["Deploy Contract 0.0.12345"; "Call transfer() on 0.0.12345";
             "Create Topic 0.0.56789"]).
Proof.
  cbv zeta. split; [|split].
  - intros [->| ->]; unfold getChildren; [reflexivity|].
    destruct element; reflexivity.
  - intros -> ->. unfold getChildren. cbn [negb].
    assert (Hheld : (if (length txs =? 0)%nat then mockTransactions (date_now env tr) else txs)
                    = match txs with
                      | [] => mockTransactions (date_now env tr)
                      | _ => txs
                      end) by (destruct txs; reflexivity).
    cbv zeta. rewrite Hheld.
    remember (match txs with
              | [] => mockTransactions (date_now env tr)
              | _ => txs
              end) as held1 eqn:Eh. clear Eh Hheld.
    destruct (mapO_all_or_nothing (transactionItem env toLocaleString) held1)
      as [(items & Hitems & Hall)|((msg & Hmsg) & _)].
    + intros tx _. apply safe_transactionItem.
    + rewrite Hitems. cbn [held rows reported]. split; [reflexivity|].
      left. split; [reflexivity | exact Hall].
    + rewrite Hmsg. cbn [held rows reported]. split; [reflexivity|].
      right. split; [reflexivity|]. exists msg. reflexivity.
  - intros -> -> ->. unfold getChildren. cbn. split; reflexivity.
Qed.

(** X27: one record without a string type empties the transaction list.
    On a connected provider the rows of all records, also of those that
    are well formed, are replaced by nothing, and a [TypeError] is logged
    and shown; the records themselves are kept. *)
Theorem X27_untyped_record_empties_the_list (tr : list Event) (txs : list JsValue)
    (tx : JsValue) :
  In tx txs -> stringAt "type" tx = false ->
  let r := getChildren env toLocaleString false true tr txs in
  rows r = []
  /\ held r = txs
  /\ exists msg,
       reported r =
         [EvConsoleError "Failed to get transactions:" (TypeError msg);
          EvErrorMessage ("Failed to get transactions: TypeError: " +:+ msg)].
Proof.
  intros Hin Hno. cbv zeta. unfold getChildren. cbn [negb].
  assert (Hlen : (length txs =? 0)%nat = false) by (destruct txs; [destruct Hin | reflexivity]).
  rewrite Hlen. cbv zeta.
  destruct (mapO_stops (transactionItem env toLocaleString) txs tx) as (msg & Hmsg).
  - intros y _. apply safe_transactionItem.
  - exact Hin.
  - apply untyped_item_fails. exact Hno.
  - rewrite Hmsg. cbn [rows held reported Deployment.error_text].
    split; [reflexivity|]. split; [reflexivity|]. exists msg. reflexivity.
Qed.


End TransactionListProperties.

Section TransactionListExamples.

Import SolidityAudit TransactionCenterView TransactionList.

Lemma X26_witness :
  let r := getChildren Sample.env (fun _ => "14/11/2023, 22:13:20") false true [] [] in
  reported r = []
  /\ label <$> rows r
     = ["Deploy Contract 0.0.12345"; "Call transfer() on 0.0.12345";
        "Create Topic 0.0.56789"].
Proof.
  intros r.
  destruct (X26_transaction_list_all_rows_or_none Sample.env
              (fun _ => "14/11/2023, 22:13:20") false true [] [])
    as (_ & _ & Hmock).
  apply Hmock; reflexivity.
Defined.

Lemma X27_witness :
  let legacy := JObj [("id", JStr "legacy-7"); ("status", JStr "SUCCESS")] in
  let txs := TransactionList.mockTransactions 1700000000000 ++ [legacy] in
  rows (getChildren Sample.env (fun _ => "14/11/2023, 22:13:20") false true [] txs) = [].
Proof.
  intros legacy txs.
  destruct (X27_untyped_record_empties_the_list Sample.env
              (fun _ => "14/11/2023, 22:13:20") [] txs legacy)
    as (Hrows & _).
  - apply in_or_app. right. left. reflexivity.
  - reflexivity.
  - exact Hrows.
Defined.


End TransactionListExamples.

(** * Properties of the formatter *)

Section SolidityFormatProperties.

Import SolidityFormat.

Lemma append_nil_s (s : string) : "" +:+ s = s.
Proof. reflexivity. Qed.

Lemma append_cons_s (c : ascii) (a b : string) : String c a +:+ b = String c (a +:+ b).
Proof. reflexivity. Qed.

Lemma split_lines_oneLine (s : string) : Forall (fun l => oneLine l = true) (split_lines s).
Proof.
  induction s as [|c r IH]; cbn.
  - repeat constructor.
  - destruct (Ascii.eqb c nl) eqn:Hc.
    + constructor; [reflexivity | exact IH].
    + destruct (split_lines r) as [|l ls]; [repeat constructor; cbn; rewrite Hc; reflexivity|].
      inversion IH as [|? ? Hl Hls]; subst.
      constructor; [cbn; rewrite Hc, Hl; reflexivity | exact Hls].
Qed.

Lemma split_lines_app (l rest : string) :
  oneLine l = true ->
  split_lines (l +:+ String nl rest) = l :: split_lines rest.
Proof.
  induction l as [|c l IH]; rewrite ?append_nil_s, ?append_cons_s; cbn; intros Hl.
  - rewrite Ascii.eqb_refl. reflexivity.
  - apply andb_true_iff in Hl. destruct Hl as (Hc & Hl).
    apply negb_true_iff in Hc. rewrite Hc, (IH Hl). reflexivity.
Qed.

Lemma oneLine_app (a b : string) :
  oneLine a = true -> oneLine b = true -> oneLine (a +:+ b) = true.
Proof.
  induction a as [|c a IH]; rewrite ?append_nil_s, ?append_cons_s; cbn;
    intros Ha Hb; [exact Hb|].
  apply andb_true_iff in Ha. destruct Ha as (Hc & Ha).
  rewrite Hc, (IH Ha Hb). reflexivity.
Qed.

Lemma oneLine_trimStart (s : string) : oneLine s = true -> oneLine (trimStart s) = true.
Proof.
  induction s as [|c r IH]; cbn; intros Hs; [reflexivity|].
  destruct (isWhite c); [|exact Hs].
  apply andb_true_iff in Hs. apply IH, Hs.
Qed.

Lemma oneLine_trimEnd (s : string) : oneLine s = true -> oneLine (trimEnd s) = true.
Proof.
  induction s as [|c r IH]; cbn; intros Hs; [reflexivity|].
  apply andb_true_iff in Hs. destruct Hs as (Hc & Hr).
  specialize (IH Hr). destruct (trimEnd r) as [|d r'].
  - destruct (isWhite c); cbn; [reflexivity | rewrite Hc; reflexivity].
  - cbn in *. rewrite Hc, IH. reflexivity.
Qed.

Lemma oneLine_repeat (n : nat) : oneLine (repeat_string "    " n) = true.
Proof.
  induction n as [|n IH]; cbn [repeat_string]; [reflexivity|].
  rewrite !append_cons_s, append_nil_s. cbn. exact IH.
Qed.

Lemma oneLine_formatLine (line : string) (level : nat) :
  oneLine line = true -> oneLine (formatLine line level) = true.
Proof.
  intros Hl. unfold formatLine, trim.
  apply oneLine_app; [apply oneLine_repeat|].
  apply oneLine_trimEnd, oneLine_trimStart, Hl.
Qed.

(** Stripping the ends twice strips no more. *)
Lemma trimEnd_idem (s : string) : trimEnd (trimEnd s) = trimEnd s.
Proof.
  induction s as [|c r IH]; cbn; [reflexivity|].
  destruct (trimEnd r) as [|d r'] eqn:Hr.
  - destruct (isWhite c) eqn:Hc; cbn; [reflexivity | rewrite Hc; reflexivity].
  - cbn [trimEnd] in *. rewrite IH. reflexivity.
Qed.

Lemma trimEnd_head (c : ascii) (r : string) :
  isWhite c = false -> exists r', trimEnd (String c r) = String c r'.
Proof.
  intros Hc. cbn. destruct (trimEnd r); [rewrite Hc|]; eexists; reflexivity.
Qed.

Lemma trimStart_trim (s : string) : trimStart (trim s) = trim s.
Proof.
  unfold trim. induction s as [|c r IH]; cbn; [reflexivity|].
  destruct (isWhite c) eqn:Hc; [exact IH|].
  destruct (trimEnd_head c r Hc) as (r' & Hr'). rewrite Hr'. cbn. rewrite Hc.
  reflexivity.
Qed.

Lemma trim_idem (s : string) : trim (trim s) = trim s.
Proof.
  unfold trim at 1. rewrite trimStart_trim. unfold trim. apply trimEnd_idem.
Qed.

Lemma trimStart_indent (n : nat) (s : string) :
  trimStart (repeat_string "    " n +:+ s) = trimStart s.
Proof.
  induction n as [|n IH]; cbn [repeat_string]; [reflexivity|].
  rewrite !append_cons_s, append_nil_s. cbn. exact IH.
Qed.

Lemma trim_formatLine (line : string) (level : nat) :
  trim (formatLine line level) = trim line.
Proof.
  unfold formatLine. unfold trim at 1. rewrite trimStart_indent.
  fold (trim (trim line)). apply trim_idem.
Qed.

Lemma format_split (lines : list string) (level : nat) :
  Forall (fun l => oneLine l = true) lines ->
  exists out,
    split_lines (formatLines lines level) = out ++ [EmptyString]
    /\ Forall2 (fun line printed =>
                  trim printed = trim line
                  /\ exists n, printed = repeat_string "    " n +:+ trim line)
         lines out.
Proof.
  revert level. induction lines as [|line rest IH]; intros level Hall.
  - exists []. split; [reflexivity | constructor].
  - inversion Hall as [|? ? Hl Hrest]; subst.
    destruct (IH (levelAfter (trim line) level) Hrest) as (out & Hout & Hpairs).
    exists (formatLine line level :: out). cbn [formatLines].
    rewrite append_cons_s, append_nil_s.
    rewrite split_lines_app by (apply oneLine_formatLine; exact Hl).
    rewrite Hout. split; [reflexivity|].
    constructor; [|exact Hpairs].
    split; [apply trim_formatLine|]. eexists. reflexivity.
Qed.

(** X29: the formatter keeps the text.  The formatted code, split at its
    line feeds, has the lines of the input in the same number and order,
    followed by one empty piece for the line feed it puts after the last
    line: every line is the input line without the white space at its two
    ends, behind a run of four-space indents.  No line is joined, split
    or dropped; formatting again adds one more line at the end. *)
Theorem X29_formatter_keeps_the_lines (code : string) :
  exists out,
    split_lines (formatSolidityCode code) = out ++ [EmptyString]
    /\ length out = length (split_lines code)
    /\ trim <$> out = trim <$> split_lines code
    /\ Forall2 (fun line printed =>
                  exists n, printed = repeat_string "    " n +:+ trim line)
         (split_lines code) out
    /\ length (split_lines (formatSolidityCode (formatSolidityCode code)))
       = S (length (split_lines (formatSolidityCode code))).
Proof.
  assert (Hshape : forall text, exists out,
    split_lines (formatSolidityCode text) = out ++ [EmptyString]
    /\ Forall2 (fun line printed =>
                  trim printed = trim line
                  /\ exists n, printed = repeat_string "    " n +:+ trim line)
         (split_lines text) out).
  { intros text. apply format_split, split_lines_oneLine. }
  destruct (Hshape code) as (out & Hout & Hpairs).
  exists out. split; [exact Hout|].
  assert (Hlen : length out = length (split_lines code))
    by (symmetry; eapply Forall2_length; exact Hpairs).
  split; [exact Hlen|]. split; [|split].
  - clear Hout Hlen. induction Hpairs as [|line printed ls out (Ht & _) _ IH];
      [reflexivity|].
    rewrite !fmap_cons, Ht, IH. reflexivity.
  - eapply Forall2_impl; [exact Hpairs|]. intros line printed (_ & Hn). exact Hn.
  - destruct (Hshape (formatSolidityCode code)) as (out2 & Hout2 & Hpairs2).
    rewrite Hout2, length_app. cbn [length].
    rewrite <- (Forall2_length _ _ _ Hpairs2). lia.
Qed.

End SolidityFormatProperties.

(** * Properties of the nonce *)

Section NonceProperties.

Import Nonce.

Lemma hexByte_digits (b : Byte.byte) :
  hexByte b
  = String (hexDigit (Byte.to_N b / 16)) (String (hexDigit (Byte.to_N b mod 16)) "").
Proof. destruct b; vm_compute; reflexivity. Qed.

Lemma hexDigit_code (d : N) :
  (d < 16)%N ->
  N_of_ascii (hexDigit d) = if (d <? 10)%N then (48 + d)%N else (87 + d)%N.
Proof.
  intros Hd. unfold hexDigit.
  destruct (N.ltb_spec d 10); apply N_ascii_embedding; lia.
Qed.

Lemma hexDigit_inj (d1 d2 : N) :
  (d1 < 16)%N -> (d2 < 16)%N -> hexDigit d1 = hexDigit d2 -> d1 = d2.
Proof.
  intros H1 H2 Heq. apply (f_equal N_of_ascii) in Heq.
  rewrite !hexDigit_code in Heq by assumption.
  destruct (N.ltb_spec d1 10), (N.ltb_spec d2 10); lia.
Qed.

Lemma hexDigit_lower (d : N) : (d < 16)%N -> isLowerHex (hexDigit d) = true.
Proof.
  intros Hd. unfold isLowerHex. cbv zeta. rewrite hexDigit_code by exact Hd.
  destruct (N.ltb_spec d 10).
  - apply orb_true_iff. left. apply andb_true_iff. split; apply N.leb_le; lia.
  - apply orb_true_iff. right. apply andb_true_iff. split; apply N.leb_le; lia.
Qed.

Lemma byte_digits (b : Byte.byte) :
  (Byte.to_N b / 16 < 16)%N /\ (Byte.to_N b mod 16 < 16)%N.
Proof.
  pose proof (Byte.to_N_bounded b) as Hb. split.
  - apply N.Div0.div_lt_upper_bound. lia.
  - apply N.mod_lt. lia.
Qed.

Lemma hexByte_inj (b1 b2 : Byte.byte) : hexByte b1 = hexByte b2 -> b1 = b2.
Proof.
  rewrite !hexByte_digits. intros [= Hhi Hlo].
  destruct (byte_digits b1) as (H1 & H1'). destruct (byte_digits b2) as (H2 & H2').
  apply hexDigit_inj in Hhi; [|assumption..].
  apply hexDigit_inj in Hlo; [|assumption..].
  assert (Hn : Byte.to_N b1 = Byte.to_N b2).
  { rewrite (N.div_mod (Byte.to_N b1) 16), (N.div_mod (Byte.to_N b2) 16) by lia.
    rewrite Hhi, Hlo. reflexivity. }
  pose proof (Byte.of_to_N b1) as E1. rewrite Hn, Byte.of_to_N in E1.
  congruence.
Qed.

Lemma concat_hex_cons (b : Byte.byte) (l : list Byte.byte) :
  String.concat "" (hexByte <$> (b :: l))
  = String (hexDigit (Byte.to_N b / 16))
      (String (hexDigit (Byte.to_N b mod 16)) (String.concat "" (hexByte <$> l))).
Proof.
  rewrite fmap_cons. cbn [String.concat]. rewrite hexByte_digits.
  destruct (hexByte <$> l) eqn:El; reflexivity.
Qed.

Lemma concat_hex_length (l : list Byte.byte) :
  String.length (String.concat "" (hexByte <$> l)) = (2 * length l)%nat.
Proof.
  induction l as [|b l IH]; [reflexivity|].
  rewrite concat_hex_cons. cbn [String.length length]. rewrite IH. lia.
Qed.

Lemma concat_hex_lower (l : list Byte.byte) :
  allChars isLowerHex (String.concat "" (hexByte <$> l)) = true.
Proof.
  induction l as [|b l IH]; [reflexivity|].
  rewrite concat_hex_cons. cbn [allChars].
  destruct (byte_digits b) as (Hhi & Hlo).
  rewrite !hexDigit_lower by assumption. exact IH.
Qed.

Lemma concat_hex_inj (l1 l2 : list Byte.byte) :
  length l1 = length l2 ->
  String.concat "" (hexByte <$> l1) = String.concat "" (hexByte <$> l2) -> l1 = l2.
Proof.
  revert l2. induction l1 as [|b1 l1 IH]; intros [|b2 l2] Hlen Heq;
    try discriminate; [reflexivity|].
  rewrite !concat_hex_cons in Heq. injection Heq as Hhi Hlo Hrest.
  f_equal.
  - apply hexByte_inj. rewrite !hexByte_digits, Hhi, Hlo. reflexivity.
  - apply IH; [cbn in Hlen; lia | exact Hrest].
Qed.

(** X30: the nonce is thirty-two lower-case hexadecimal digits, two for
    each of the sixteen random bytes, most significant digit first and
    with a leading zero kept; two nonces are equal only when the sixteen
    bytes are. *)
Theorem X30_nonce_is_32_hex_digits (random : nat -> Byte.byte) :
  String.length (getNonce random) = 32%nat
  /\ allChars isLowerHex (getNonce random) = true
  /\ forall random' i,
       getNonce random = getNonce random' -> (i < 16)%nat -> random i = random' i.
Proof.
  unfold getNonce. split; [|split].
  - rewrite concat_hex_length, length_fmap, length_seq. reflexivity.
  - apply concat_hex_lower.
  - intros random' i Heq Hi.
    apply concat_hex_inj in Heq; [|rewrite !length_fmap; reflexivity].
    assert (Hat : (random <$> seq 0 16) !! i = (random' <$> seq 0 16) !! i)
      by (rewrite Heq; reflexivity).
    rewrite !list_lookup_fmap, lookup_seq_lt in Hat by exact Hi.
    cbn in Hat. congruence.
Qed.

End NonceProperties.

Section NonceExamples.

Import Nonce.

Lemma X30_witness :
  let random := fun i : nat => if (i <? 16)%nat then Byte.x0a else Byte.x00 in
  let random' := fun _ : nat => Byte.x0a in
  String.length (getNonce random) = 32%nat /\ random 3%nat = random' 3%nat.
Proof.
  intros random random'.
  destruct (X30_nonce_is_32_hex_digits random) as (Hlen & _ & Hinj).
  split; [exact Hlen|].
  apply Hinj; [vm_compute; reflexivity | lia].
Defined.

End NonceExamples.

Section PromptExamples.

Import Deployment.


End PromptExamples.
